(** * Context-augmented question answering: the two request handlers

    A shallow embedding of [lambda_function.py] (the serverless function
    variant, backed by Bedrock) and of [app.py] (the Flask process variant,
    backed by an Azure AI project), together with the properties of their
    request/response contract.

    Python values are an inductive type; an exception is a value of [exn];
    a handler is a computation in a small monad that threads the list of
    external calls made so far and either returns or raises.  The external
    collaborators (the [json] module, [boto3], the Azure SDK, [PyPDF2], the
    Flask request object) are interfaces: every theorem holds for every
    implementation of them. *)

From Stdlib Require Import String Ascii List ZArith Bool Lia.
From Stdlib Require Import Floats.SpecFloat.
From Stdlib Require Import Numbers.DecimalString.
Import ListNotations.
Set Warnings "-register-all".
Local Open Scope string_scope.
Local Open Scope Z_scope.

(* ===================================================================== *)
(** * Python values, exceptions and the builtin operations the code uses *)
(* ===================================================================== *)

Module Py.

(** One-character strings that cannot be typed inside a literal. *)
Definition nl : string := String (ascii_of_nat 10) EmptyString.
Definition dq : string := String (ascii_of_nat 34) EmptyString.

(** The values that reach the handlers: what [json.loads] can produce,
    plus [bytes] and botocore's [StreamingBody] (the [body] entry of an
    [invoke_model] response).  A [str] is a sequence of characters with
    code points below 256; a [dict] keeps its insertion order and has
    [str] keys, as every dict in the two files does. *)
Inductive pyval : Type :=
| PNone
| PBool (b : bool)
| PInt (n : Z)
| PFloat (f : spec_float)
| PStr (s : string)
| PBytes (s : string)
| PList (l : list pyval)
| PDict (d : list (string * pyval))
| PStream (payload : string).

(** An instance of a subclass of [Exception]; [exn_str e] is [str(e)]. *)
Record exn : Type := Exn { exn_class : string; exn_str : string }.

Inductive outcome (A : Type) : Type :=
| Returned (a : A)
| Raised (e : exn).
Arguments Returned {A} a.
Arguments Raised {A} e.

(** [type(v).__name__] *)
Definition type_name (v : pyval) : string :=
  match v with
  | PNone => "NoneType"
  | PBool _ => "bool"
  | PInt _ => "int"
  | PFloat _ => "float"
  | PStr _ => "str"
  | PBytes _ => "bytes"
  | PList _ => "list"
  | PDict _ => "dict"
  | PStream _ => "StreamingBody"
  end.

Definition AttributeError (v : pyval) (attr : string) : exn :=
  Exn "AttributeError"
      ("'" ++ type_name v ++ "' object has no attribute '" ++ attr ++ "'").

Definition TypeError (msg : string) : exn := Exn "TypeError" msg.
Definition IndexError (msg : string) : exn := Exn "IndexError" msg.
Definition KeyError (msg : string) : exn := Exn "KeyError" msg.

(** [bool(v)], the test behind [not v] and [if v]. *)
Definition truthy (v : pyval) : bool :=
  match v with
  | PNone => false
  | PBool b => b
  | PInt n => negb (n =? 0)
  | PFloat (S754_zero _) => false
  | PFloat _ => true
  | PStr s => negb (s =? EmptyString)%string
  | PBytes s => negb (s =? EmptyString)%string
  | PList l => match l with [] => false | _ => true end
  | PDict d => match d with [] => false | _ => true end
  | PStream _ => true
  end.

(** Lookup in a dict kept as an association list. *)
Fixpoint dict_get {A : Type} (d : list (string * A)) (k : string) : option A :=
  match d with
  | [] => None
  | (k', v) :: rest => if (k' =? k)%string then Some v else dict_get rest k
  end.

Definition dict_has {A : Type} (d : list (string * A)) (k : string) : bool :=
  match dict_get d k with Some _ => true | None => false end.

(** [v.get(k, default)] *)
Definition py_get (v : pyval) (k : string) (default : pyval) : outcome pyval :=
  match v with
  | PDict d => Returned (match dict_get d k with Some x => x | None => default end)
  | _ => Raised (AttributeError v "get")
  end.

(** [v == s] for a [str] literal [s]. *)
Definition py_eq_str (v : pyval) (s : string) : bool :=
  match v with
  | PStr t => (t =? s)%string
  | _ => false
  end.

(** [v[0]] *)
Definition py_index0 (v : pyval) : outcome pyval :=
  match v with
  | PList (x :: _) => Returned x
  | PList [] => Raised (IndexError "list index out of range")
  | PStr (String c _) => Returned (PStr (String c EmptyString))
  | PStr EmptyString => Raised (IndexError "string index out of range")
  | PBytes (String c _) => Returned (PInt (Z.of_nat (nat_of_ascii c)))
  | PBytes EmptyString => Raised (IndexError "index out of range")
  | PDict _ => Raised (KeyError "0")
  | _ => Raised (TypeError ("'" ++ type_name v ++ "' object is not subscriptable"))
  end.

(** [v.read()] *)
Definition py_read (v : pyval) : outcome pyval :=
  match v with
  | PStream payload => Returned (PBytes payload)
  | _ => Raised (AttributeError v "read")
  end.

(** [str.isspace] on code points below 256, and the ASCII whitespace that
    [bytes.strip] removes. *)
Definition isspace (c : ascii) : bool :=
  let n := nat_of_ascii c in
  ((9 <=? n) && (n <=? 13) || (28 <=? n) && (n <=? 32)
   || (n =? 133) || (n =? 160))%nat.

Definition isspace_bytes (c : ascii) : bool :=
  let n := nat_of_ascii c in
  ((9 <=? n) && (n <=? 13) || (n =? 32))%nat.

Fixpoint lstrip (ws : ascii -> bool) (s : string) : string :=
  match s with
  | EmptyString => EmptyString
  | String c rest => if ws c then lstrip ws rest else s
  end.

Fixpoint rstrip (ws : ascii -> bool) (s : string) : string :=
  match s with
  | EmptyString => EmptyString
  | String c rest =>
      match rstrip ws rest with
      | EmptyString => if ws c then EmptyString else String c EmptyString
      | kept => String c kept
      end
  end.

(** [s.strip()] *)
Definition strip (s : string) : string := rstrip isspace (lstrip isspace s).

(** [v.strip()] *)
Definition py_strip (v : pyval) : outcome pyval :=
  match v with
  | PStr s => Returned (PStr (strip s))
  | PBytes s => Returned (PBytes (rstrip isspace_bytes (lstrip isspace_bytes s)))
  | _ => Raised (AttributeError v "strip")
  end.

(** The first object inside [v] that the JSON encoder refuses ([bytes], or
    an object such as a stream), searched in encoding order. *)
Fixpoint unserializable_in (v : pyval) : option pyval :=
  match v with
  | PBytes _ | PStream _ => Some v
  | PList l =>
      (fix first (l : list pyval) : option pyval :=
         match l with
         | [] => None
         | x :: rest =>
             match unserializable_in x with
             | Some bad => Some bad
             | None => first rest
             end
         end) l
  | PDict d =>
      (fix first (d : list (string * pyval)) : option pyval :=
         match d with
         | [] => None
         | (_, x) :: rest =>
             match unserializable_in x with
             | Some bad => Some bad
             | None => first rest
             end
         end) d
  | _ => None
  end.

(** The parts of the Python runtime taken as given: the [json] codec on
    text and the rendering of a non-[str] value by [str()]/[format()]. *)
Class PyRuntime : Type := {
  json_loads_text : string -> outcome pyval;
  json_dumps_text : pyval -> string;
  str_of : pyval -> string
}.

(** [json.dumps(v)] *)
Definition json_dumps `{PyRuntime} (v : pyval) : outcome string :=
  match unserializable_in v with
  | None => Returned (json_dumps_text v)
  | Some bad =>
      Raised (TypeError ("Object of type " ++ type_name bad
                         ++ " is not JSON serializable"))
  end.

(** The value [v] as an f-string field. *)
Definition py_format `{PyRuntime} (v : pyval) : string :=
  match v with
  | PStr s => s
  | _ => str_of v
  end.

(** ** Computations: the calls made so far, and a result or an exception *)

Section Effects.
Context {E : Type}.

Definition M (A : Type) : Type := list E -> outcome A * list E.

Definition ret {A} (a : A) : M A := fun tr => (Returned a, tr).

Definition bind {A B} (m : M A) (k : A -> M B) : M B :=
  fun tr =>
    match m tr with
    | (Returned a, tr') => k a tr'
    | (Raised e, tr') => (Raised e, tr')
    end.

(** A step of pure Python that may raise. *)
Definition lift {A} (o : outcome A) : M A := fun tr => (o, tr).

(** A call to a collaborator: recorded, then its result or exception. *)
Definition extern {A} (ev : E) (o : outcome A) : M A :=
  fun tr => (o, (tr ++ [ev])%list).

(** [try: m  except Exception as e: h e] *)
Definition try_except {A} (m : M A) (h : exn -> M A) : M A :=
  fun tr =>
    match m tr with
    | (Returned a, tr') => (Returned a, tr')
    | (Raised e, tr') => h e tr'
    end.
End Effects.

Arguments M : clear implicits.

(** Three ways to speak about a computation: what holds of every value
    it returns, that it always returns, and that it only adds calls. *)
Definition post {E A} (m : M E A) (P : A -> Prop) : Prop :=
  forall tr a tr', m tr = (Returned a, tr') -> P a.

Definition total {E A} (m : M E A) : Prop :=
  forall tr, exists a tr', m tr = (Returned a, tr').

Definition growing {E A} (m : M E A) : Prop :=
  forall tr, exists more, snd (m tr) = (tr ++ more)%list.

(** A request field that is absent or the empty string. *)
Definition field_missing (d : list (string * pyval)) (k : string) : Prop :=
  dict_get d k = None \/ dict_get d k = Some (PStr EmptyString).

(** A request object with a non-empty [context] and [question]. *)
Definition well_formed (d : list (string * pyval)) (c q : string) : Prop :=
  dict_get d "context" = Some (PStr c) /\ c <> EmptyString /\
  dict_get d "question" = Some (PStr q) /\ q <> EmptyString.

(** A response dict has exactly one of the two shapes. *)
Definition one_shape (d : list (string * pyval)) : bool :=
  xorb (dict_has d "answer") (dict_has d "error").

Declare Scope py_scope.
Delimit Scope py_scope with py.
Notation "x <- m ;; k" := (bind m (fun x => k))
  (at level 100, m at next level, right associativity) : py_scope.

(** Substring containment, as a proposition and as a test. *)
Definition contains (s sub : string) : Prop :=
  exists pre post, s = pre ++ sub ++ post.

Definition containsb (s sub : string) : bool :=
  match String.index 0 sub s with Some _ => true | None => false end.

End Py.

Import Py.
Local Open Scope py_scope.

(* ===================================================================== *)
(** * lambda_function.py: the function variant *)
(* ===================================================================== *)

Module LambdaFunction.

(** The external calls a handler invocation can make, in source order:
    [boto3.client], [json.loads] and [bedrock.invoke_model]. *)
Inductive call : Type :=
| Boto3Client (service : string)
| JsonLoads (arg : pyval)
| InvokeModel (body modelId accept contentType : string).

(** The Bedrock runtime client: the Model Inference collaborator. *)
Record BedrockRuntime : Type := {
  invoke_model : string -> string -> string -> string -> outcome pyval
}.

Class Boto3 : Type := {
  boto3_client : string -> outcome BedrockRuntime
}.

(** The response envelope [{'statusCode': .., 'headers': {..}, 'body': ..}]. *)
Record Response : Type := {
  statusCode : Z;
  headers : list (string * string);
  body : string
}.

(** What [json.loads(v)] does: a [TypeError] for anything that is not
    text, otherwise whatever the decoder does with the text. *)
Definition decode `{PyRuntime} (v : pyval) : outcome pyval :=
  match v with
  | PStr s | PBytes s => json_loads_text s
  | _ =>
      Raised (TypeError ("the JSON object must be str, bytes or bytearray, not "
                         ++ type_name v))
  end.

(** [json.loads(v)], recorded as a call. *)
Definition json_loads `{PyRuntime} (v : pyval) : M call pyval :=
  extern (JsonLoads v) (decode v).

(** The f-string [prompt_data] of the handler. *)
Definition fallback_instruction : string :=
  "otherwise, answer " ++ dq
  ++ "I don't have enough information to answer this question" ++ dq.

Definition prompt_data `{PyRuntime} (pdf_text question : pyval) : string :=
  "Answer the question based only on the information provided between ##." ++ nl
  ++ "Only answer the question if you can find relevant information in the context, "
  ++ fallback_instruction ++ "." ++ nl
  ++ "#" ++ nl
  ++ py_format pdf_text ++ nl
  ++ "#" ++ nl
  ++ nl
  ++ "Question: " ++ py_format question ++ nl
  ++ "Answer:".

(** 0.9 as a binary64 float. *)
Definition float_0_9 : spec_float := S754_finite false 8106479329266893 (-53).

Definition parameters : pyval :=
  PDict [ ("maxTokenCount", PInt 512);
          ("stopSequences", PList []);
          ("temperature", PInt 0);
          ("topP", PFloat float_0_9) ].

(** The dict handed to [json.dumps] to make [bedrock_body]. *)
Definition bedrock_request `{PyRuntime} (pdf_text question : pyval) : pyval :=
  PDict [ ("inputText", PStr (prompt_data pdf_text question));
          ("textGenerationConfig", parameters) ].

Definition model_id : string := "amazon.titan-tg1-large".

Definition preflight_response : Response :=
  {| statusCode := 200;
     headers := [ ("Access-Control-Allow-Origin", "*");
                  ("Access-Control-Allow-Headers", "Content-Type");
                  ("Access-Control-Allow-Methods", "POST,OPTIONS") ];
     body := EmptyString |}.

Definition json_headers : list (string * string) :=
  [ ("Access-Control-Allow-Origin", "*");
    ("Content-Type", "application/json") ].

(** [event.get('body', '{}')] on a dict event. *)
Definition body_of_event (ev : list (string * pyval)) : pyval :=
  match dict_get ev "body" with Some raw => raw | None => PStr "{}" end.

(** Lines 39-84: build the prompt, invoke the model, unwrap the answer. *)
Definition invoke_and_unwrap `{PyRuntime} (bedrock : BedrockRuntime)
  (pdf_text question : pyval) : M call Response :=
  bedrock_body <- lift (json_dumps (bedrock_request pdf_text question)) ;;
  response <- extern (InvokeModel bedrock_body model_id
                                  "application/json" "application/json")
                     (invoke_model bedrock bedrock_body model_id
                                   "application/json" "application/json") ;;
  stream <- lift (py_get response "body" PNone) ;;
  payload <- lift (py_read stream) ;;
  response_body <- json_loads payload ;;
  results <- lift (py_get response_body "results" PNone) ;;
  first <- lift (py_index0 results) ;;
  answer <- lift (py_get first "outputText" PNone) ;;
  stripped <- lift (py_strip answer) ;;
  out <- lift (json_dumps (PDict [("answer", stripped)])) ;;
  ret {| statusCode := 200; headers := json_headers; body := out |}.

(** The [try] block, lines 22-84. *)
Definition try_block `{PyRuntime} (bedrock : BedrockRuntime) (event : pyval)
  : M call Response :=
  raw <- lift (py_get event "body" (PStr "{}")) ;;
  body <- json_loads raw ;;
  pdf_text <- lift (py_get body "context" (PStr EmptyString)) ;;
  question <- lift (py_get body "question" (PStr EmptyString)) ;;
  if negb (truthy pdf_text) || negb (truthy question) then
    out <- lift (json_dumps (PDict [("error", PStr "Missing context or question")])) ;;
    ret {| statusCode := 400; headers := json_headers; body := out |}
  else
    invoke_and_unwrap bedrock pdf_text question.

(** The [except Exception as e] block, lines 86-96. *)
Definition except_block `{PyRuntime} (e : exn) : M call Response :=
  out <- lift (json_dumps (PDict [("error", PStr (exn_str e))])) ;;
  ret {| statusCode := 500; headers := json_headers; body := out |}.

Definition lambda_handler `{PyRuntime} `{Boto3} (event context : pyval)
  : M call Response :=
  bedrock <- extern (Boto3Client "bedrock-runtime") (boto3_client "bedrock-runtime") ;;
  method <- lift (py_get event "httpMethod" PNone) ;;
  if py_eq_str method "OPTIONS" then
    ret preflight_response
  else
    try_except (try_block bedrock event) except_block.

(** The response of [invoke_model] carries [g] as its first generated
    text: [json.loads(response['body'].read())['results'][0]['outputText']]. *)
Definition generates `{PyRuntime} (response : pyval) (g : string) : Prop :=
  exists resp payload rb first others,
    response = PDict resp /\
    dict_get resp "body" = Some (PStream payload) /\
    json_loads_text payload = Returned (PDict rb) /\
    dict_get rb "results" = Some (PList (PDict first :: others)) /\
    dict_get first "outputText" = Some (PStr g).

(** The CORS header every response must carry. *)
Definition has_cors (r : Response) : bool :=
  dict_has (headers r) "Access-Control-Allow-Origin".

(** The body is the JSON text of a dict with exactly one of [answer] and
    [error]. *)
Definition body_one_shape `{PyRuntime} (r : Response) : Prop :=
  exists d, body r = json_dumps_text (PDict d) /\ one_shape d = true.

(** What every response leaving the [try]/[except] looks like. *)
Definition json_reply `{PyRuntime} (r : Response) : Prop :=
  headers r = json_headers /\ body_one_shape r.

(** Whether a recorded call is a call to the Model Inference collaborator. *)
Definition is_inference (c : call) : bool :=
  match c with InvokeModel _ _ _ _ => true | _ => false end.

Definition is_parse (c : call) : bool :=
  match c with JsonLoads _ => true | _ => false end.

End LambdaFunction.

(* ===================================================================== *)
(** * app.py: the process variant *)
(* ===================================================================== *)

Module App.

(** A chat message of the Azure inference SDK. *)
Record ChatMessage : Type := { role : string; content : pyval }.

Definition SystemMessage (content : string) : ChatMessage :=
  {| role := "system"; content := PStr content |}.
Definition UserMessage (content : pyval) : ChatMessage :=
  {| role := "user"; content := content |}.

(** A completion: [choice.message.content] is an optional [str]. *)
Record ChatChoice : Type := { message_content : option string }.
Record ChatCompletions : Type := { choices : list ChatChoice }.

(** The external calls made by the routes, in source order. *)
Inductive call : Type :=
| GetChatCompletionsClient
| Complete (model : pyval) (messages : list ChatMessage)
           (temperature : spec_float) (max_tokens : Z)
| FileRead (name : string)
| PdfReaderOpen (data : string)
| ExtractText.

(** The chat client: the Model Inference collaborator. *)
Record ChatCompletionsClient : Type := {
  complete : pyval -> list ChatMessage -> spec_float -> Z -> outcome ChatCompletions
}.

Record AIProjectClient : Type := {
  get_chat_completions_client : outcome ChatCompletionsClient
}.

(** The two module-level globals. *)
Record Globals : Type := {
  project_client : option AIProjectClient;
  phi4_deployment : pyval
}.

(** Their values until [initialize_azure_client] succeeds. *)
Definition initial_globals : Globals :=
  {| project_client := None; phi4_deployment := PNone |}.

(** PyPDF2: the Text Extraction collaborator. *)
Record PdfPage : Type := { extract_text : outcome string }.

Class PyPDF2 : Type := {
  PdfReader : string -> outcome (list PdfPage)
}.

(** Flask: an uploaded file, the request, and a JSON response. *)
Record FileStorage : Type := { filename : string; read : outcome string }.

Record Request : Type := {
  get_json : outcome pyval;
  files : list (string * FileStorage)
}.

Record Response : Type := { status : Z; json : pyval }.

(** [jsonify(v)]: a 200 response carrying [v]. *)
Definition jsonify (v : pyval) : outcome Response :=
  match unserializable_in v with
  | None => Returned {| status := 200; json := v |}
  | Some bad =>
      Raised (TypeError ("Object of type " ++ type_name bad
                         ++ " is not JSON serializable"))
  end.

(** [return jsonify(v), code] *)
Definition jsonify_status (v : pyval) (code : Z) : M call Response :=
  r <- lift (jsonify v) ;;
  ret {| status := code; json := json r |}.

(** 0.3 as a binary64 float. *)
Definition float_0_3 : spec_float := S754_finite false 5404319552844595 (-54).

Definition fallback_instruction : string :=
  "If the context doesn't help, say so.".

Definition system_prompt `{PyRuntime} (retrieved_doc : pyval) : string :=
  "You are Phi-4, helpful fitness AI." ++ nl
  ++ "We have some context from the user's knowledge base: " ++ nl
  ++ py_format retrieved_doc ++ nl
  ++ "Please use this context to help your answer. " ++ fallback_instruction ++ nl.

Definition not_initialized : string :=
  "Error: Azure AI Project client not initialized".

(** The argument [messages=[system_msg, user_msg]] of the completion. *)
Definition chat_messages `{PyRuntime} (user_question retrieved_doc : pyval)
  : list ChatMessage :=
  [SystemMessage (system_prompt retrieved_doc); UserMessage user_question].

Definition chat_with_phi4_rag `{PyRuntime} (g : Globals)
  (user_question retrieved_doc : pyval) : M call pyval :=
  match project_client g with
  | None => ret (PStr not_initialized)
  | Some client =>
      let system_msg := SystemMessage (system_prompt retrieved_doc) in
      let user_msg := UserMessage user_question in
      try_except
        (chat_client <- extern GetChatCompletionsClient
                               (get_chat_completions_client client) ;;
         response <- extern (Complete (phi4_deployment g) [system_msg; user_msg]
                                      float_0_3 300)
                            (complete chat_client (phi4_deployment g)
                                      [system_msg; user_msg] float_0_3 300) ;;
         match choices response with
         | first :: _ =>
             ret (match message_content first with
                  | Some text => PStr text
                  | None => PNone
                  end)
         | [] => lift (Raised (IndexError "list index out of range"))
         end)
        (fun e =>
           ret (PStr ("Error communicating with Azure AI Project: " ++ exn_str e)))
  end.

(** [s.lower()] on code points below 256. *)
Definition lower_char (c : ascii) : ascii :=
  let n := nat_of_ascii c in
  if ((65 <=? n) && (n <=? 90)
      || (192 <=? n) && (n <=? 222) && negb (n =? 215))%nat
  then ascii_of_nat (n + 32) else c.

Fixpoint lower (s : string) : string :=
  match s with
  | EmptyString => EmptyString
  | String c rest => String (lower_char c) (lower rest)
  end.

(** [filename.rsplit('.', 1)[1]] when ['.' in filename]: the text after
    the last dot. *)
Fixpoint after_last_dot (s : string) : option string :=
  match s with
  | EmptyString => None
  | String c rest =>
      match after_last_dot rest with
      | Some ext => Some ext
      | None => if Ascii.eqb c "."%char then Some rest else None
      end
  end.

Definition allowed_file (filename : string) : bool :=
  match after_last_dot filename with
  | Some ext => (lower ext =? "pdf")%string
  | None => false
  end.

(** The loop [for page in pdf_reader.pages: text += page.extract_text()]. *)
Fixpoint extract_pages (pages : list PdfPage) (text : string) : M call string :=
  match pages with
  | [] => ret text
  | page :: rest =>
      t <- extern ExtractText (extract_text page) ;;
      extract_pages rest (text ++ t)
  end.

Definition extract_text_from_pdf `{PyPDF2} (file : string) : M call string :=
  try_except
    (pages <- extern (PdfReaderOpen file) (PdfReader file) ;;
     extract_pages pages EmptyString)
    (fun e => ret ("Error extracting text: " ++ exn_str e)).

(** Parsing the uploaded bytes fails with [e]: the reader refuses them, or
    a page refuses to give its text after the pages before it gave theirs. *)
Definition parsing_fails `{PyPDF2} (data : string) (e : exn) : Prop :=
  PdfReader data = Raised e \/
  exists before bad after,
    PdfReader data = Returned (before ++ bad :: after)%list /\
    Forall (fun page => exists t, extract_text page = Returned t) before /\
    extract_text bad = Raised e.

(** Whether any message of a chat prompt holds the text [s]. *)
Definition prompt_contains (messages : list ChatMessage) (s : string) : Prop :=
  exists m text, In m messages /\ content m = PStr text /\ contains text s.

Definition upload_pdf `{PyPDF2} (request : Request) : M call Response :=
  match dict_get (files request) "file" with
  | None => jsonify_status (PDict [("error", PStr "No file part")]) 400
  | Some file =>
      if (filename file =? EmptyString)%string then
        jsonify_status (PDict [("error", PStr "No selected file")]) 400
      else if negb (filename file =? EmptyString)%string
              && allowed_file (filename file) then
        try_except
          (data <- extern (FileRead (filename file)) (read file) ;;
           pdf_text <- extract_text_from_pdf data ;;
           lift (jsonify (PDict [("success", PBool true); ("text", PStr pdf_text)])))
          (fun e => jsonify_status (PDict [("error", PStr (exn_str e))]) 500)
      else
        jsonify_status (PDict [("error", PStr "Invalid file type")]) 400
  end.

Definition ask_question `{PyRuntime} (g : Globals) (request : Request)
  : M call Response :=
  try_except
    (data <- lift (get_json request) ;;
     pdf_text <- lift (py_get data "context" (PStr EmptyString)) ;;
     question <- lift (py_get data "question" (PStr EmptyString)) ;;
     if negb (truthy pdf_text) || negb (truthy question) then
       jsonify_status (PDict [("error", PStr "Missing context or question")]) 400
     else
       answer <- chat_with_phi4_rag g question pdf_text ;;
       lift (jsonify (PDict [("answer", answer); ("success", PBool true)])))
    (fun e => jsonify_status (PDict [("error", PStr (exn_str e))]) 500).

Definition is_inference (c : call) : bool :=
  match c with Complete _ _ _ _ => true | _ => false end.

End App.

(* ===================================================================== *)
(** * A reference runtime: a small JSON codec to run the handlers on
      concrete events *)
(* ===================================================================== *)

(** The handlers above are written against the [PyRuntime] interface.
    This instance makes them executable: an encoder with the default
    separators and [ensure_ascii] escaping of [json.dumps], and a decoder
    for the JSON texts without fractional or exponent number literals and
    without escapes above code point 255.  Floats are written with their
    exact decimal expansion rather than the shortest one. *)
Module Ref.

Definition bs : string := String (ascii_of_nat 92) EmptyString.

Definition digits (n : Z) : string := NilZero.string_of_int (Z.to_int n).

Definition hex_digit (n : nat) : ascii :=
  if (n <? 10)%nat then ascii_of_nat (48 + n) else ascii_of_nat (87 + n).

Definition escape_char (c : ascii) : string :=
  let n := nat_of_ascii c in
  if (n =? 34)%nat then bs ++ dq
  else if (n =? 92)%nat then bs ++ bs
  else if (n =? 10)%nat then bs ++ "n"
  else if (n =? 13)%nat then bs ++ "r"
  else if (n =? 9)%nat then bs ++ "t"
  else if (n =? 8)%nat then bs ++ "b"
  else if (n =? 12)%nat then bs ++ "f"
  else if ((n <? 32) || (126 <? n))%nat then
    bs ++ "u00" ++ String (hex_digit (n / 16)) (String (hex_digit (n mod 16)) EmptyString)
  else String c EmptyString.

Fixpoint escape (s : string) : string :=
  match s with
  | EmptyString => EmptyString
  | String c rest => escape_char c ++ escape rest
  end.

Definition quote (s : string) : string := dq ++ escape s ++ dq.

Fixpoint zeros (n : nat) : string :=
  match n with
  | O => EmptyString
  | S k => String "0"%char (zeros k)
  end.

Definition float_text (f : spec_float) : string :=
  match f with
  | S754_zero s => if s then "-0.0" else "0.0"
  | S754_infinity s => if s then "-Infinity" else "Infinity"
  | S754_nan => "NaN"
  | S754_finite s m e =>
      (if s then "-" else EmptyString)
      ++ (if 0 <=? e then digits (Zpos m * 2 ^ e) ++ ".0"
          else
            let k := - e in
            let n := Zpos m * 5 ^ k in
            let frac := digits (n mod 10 ^ k) in
            digits (n / 10 ^ k) ++ "."
            ++ zeros (Z.to_nat k - String.length frac) ++ frac)
  end.

Fixpoint dumps (v : pyval) : string :=
  match v with
  | PNone => "null"
  | PBool b => if b then "true" else "false"
  | PInt n => digits n
  | PFloat f => float_text f
  | PStr s => quote s
  | PBytes _ | PStream _ => "null"
  | PList l =>
      "[" ++ (fix items (l : list pyval) : string :=
                match l with
                | [] => EmptyString
                | [x] => dumps x
                | x :: rest => dumps x ++ ", " ++ items rest
                end) l ++ "]"
  | PDict d =>
      "{" ++ (fix items (d : list (string * pyval)) : string :=
                match d with
                | [] => EmptyString
                | [(k, x)] => quote k ++ ": " ++ dumps x
                | (k, x) :: rest => quote k ++ ": " ++ dumps x ++ ", " ++ items rest
                end) d ++ "}"
  end.

Definition JSONDecodeError (msg : string) : exn := Exn "JSONDecodeError" msg.

Definition is_ws (c : ascii) : bool :=
  let n := nat_of_ascii c in
  ((n =? 32) || (n =? 9) || (n =? 10) || (n =? 13))%nat.

Definition is_digit (c : ascii) : bool :=
  let n := nat_of_ascii c in ((48 <=? n) && (n <=? 57))%nat.

Fixpoint skip_ws (s : string) : string :=
  match s with
  | String c rest => if is_ws c then skip_ws rest else s
  | EmptyString => EmptyString
  end.

Definition hex_value (c : ascii) : option nat :=
  let n := nat_of_ascii c in
  if ((48 <=? n) && (n <=? 57))%nat then Some (n - 48)%nat
  else if ((97 <=? n) && (n <=? 102))%nat then Some (n - 87)%nat
  else if ((65 <=? n) && (n <=? 70))%nat then Some (n - 55)%nat
  else None.

Definition unescape (c : ascii) : option ascii :=
  let n := nat_of_ascii c in
  if ((n =? 34) || (n =? 92) || (n =? 47))%nat then Some c
  else if (n =? 110)%nat then Some (ascii_of_nat 10)
  else if (n =? 114)%nat then Some (ascii_of_nat 13)
  else if (n =? 116)%nat then Some (ascii_of_nat 9)
  else if (n =? 98)%nat then Some (ascii_of_nat 8)
  else if (n =? 102)%nat then Some (ascii_of_nat 12)
  else None.

(** The characters of a string literal after its opening quote. *)
Fixpoint read_string (s : string) : option (string * string) :=
  match s with
  | EmptyString => None
  | String c rest =>
      if (nat_of_ascii c =? 34)%nat then Some (EmptyString, rest)
      else if (nat_of_ascii c =? 92)%nat then
        match rest with
        | String e rest' =>
            match unescape e with
            | Some ch =>
                match read_string rest' with
                | Some (text, tail) => Some (String ch text, tail)
                | None => None
                end
            | None =>
                match rest' with
                | String h1 (String h2 (String h3 (String h4 rest''))) =>
                    match (nat_of_ascii e =? 117)%nat, hex_value h1, hex_value h2,
                          hex_value h3, hex_value h4 with
                    | true, Some 0%nat, Some 0%nat, Some a, Some b =>
                        match read_string rest'' with
                        | Some (text, tail) =>
                            Some (String (ascii_of_nat (16 * a + b)) text, tail)
                        | None => None
                        end
                    | _, _, _, _, _ => None
                    end
                | _ => None
                end
            end
        | EmptyString => None
        end
      else if (nat_of_ascii c <? 32)%nat then None
      else
        match read_string rest with
        | Some (text, tail) => Some (String c text, tail)
        | None => None
        end
  end.

Fixpoint read_digits (s : string) (acc : Z) : Z * string :=
  match s with
  | String c rest =>
      if is_digit c then read_digits rest (10 * acc + Z.of_nat (nat_of_ascii c - 48))
      else (acc, s)
  | EmptyString => (acc, s)
  end.

(** An integer literal; a fraction or an exponent is not accepted. *)
Definition read_int (s : string) : option (Z * string) :=
  let '(neg, s1) :=
    match s with
    | String c rest => if (nat_of_ascii c =? 45)%nat then (true, rest) else (false, s)
    | EmptyString => (false, s)
    end in
  match s1 with
  | String c rest =>
      if is_digit c then
        let '(n, tail) := read_digits s1 0 in
        let leading_zero :=
          (nat_of_ascii c =? 48)%nat
          && match rest with String c' _ => is_digit c' | EmptyString => false end in
        let continues :=
          match tail with
          | String c' _ =>
              let k := nat_of_ascii c' in ((k =? 46) || (k =? 101) || (k =? 69))%nat
          | EmptyString => false
          end in
        if leading_zero || continues then None
        else Some (if neg then - n else n, tail)
      else None
  | EmptyString => None
  end.

Fixpoint drop (n : nat) (s : string) : string :=
  match n, s with
  | S k, String _ rest => drop k rest
  | _, _ => s
  end.

(** In a dict a repeated key keeps its place and takes the later value. *)
Fixpoint dict_set (d : list (string * pyval)) (k : string) (v : pyval)
  : list (string * pyval) :=
  match d with
  | [] => [(k, v)]
  | (k', v') :: rest =>
      if (k' =? k)%string then (k, v) :: rest else (k', v') :: dict_set rest k v
  end.

Fixpoint read_value (fuel : nat) (s : string) : option (pyval * string) :=
  match fuel with
  | O => None
  | S fuel' =>
      let s := skip_ws s in
      match s with
      | EmptyString => None
      | String c rest =>
          let n := nat_of_ascii c in
          if (n =? 123)%nat then
            match skip_ws rest with
            | String c' rest' =>
                if (nat_of_ascii c' =? 125)%nat then Some (PDict [], rest')
                else read_members fuel' rest []
            | EmptyString => None
            end
          else if (n =? 91)%nat then
            match skip_ws rest with
            | String c' rest' =>
                if (nat_of_ascii c' =? 93)%nat then Some (PList [], rest')
                else read_elements fuel' rest []
            | EmptyString => None
            end
          else if (n =? 34)%nat then
            match read_string rest with
            | Some (text, tail) => Some (PStr text, tail)
            | None => None
            end
          else if String.prefix "null" s then Some (PNone, drop 4 s)
          else if String.prefix "true" s then Some (PBool true, drop 4 s)
          else if String.prefix "false" s then Some (PBool false, drop 5 s)
          else
            match read_int s with
            | Some (k, tail) => Some (PInt k, tail)
            | None => None
            end
      end
  end
with read_elements (fuel : nat) (s : string) (acc : list pyval)
  : option (pyval * string) :=
  match fuel with
  | O => None
  | S fuel' =>
      match read_value fuel' s with
      | Some (v, tail) =>
          match skip_ws tail with
          | String c rest =>
              if (nat_of_ascii c =? 44)%nat then read_elements fuel' rest (acc ++ [v])%list
              else if (nat_of_ascii c =? 93)%nat then Some (PList (acc ++ [v])%list, rest)
              else None
          | EmptyString => None
          end
      | None => None
      end
  end
with read_members (fuel : nat) (s : string) (acc : list (string * pyval))
  : option (pyval * string) :=
  match fuel with
  | O => None
  | S fuel' =>
      match skip_ws s with
      | String q rest =>
          if (nat_of_ascii q =? 34)%nat then
            match read_string rest with
            | Some (k, tail) =>
                match skip_ws tail with
                | String colon tail' =>
                    if (nat_of_ascii colon =? 58)%nat then
                      match read_value fuel' tail' with
                      | Some (v, tail'') =>
                          match skip_ws tail'' with
                          | String c rest' =>
                              if (nat_of_ascii c =? 44)%nat
                              then read_members fuel' rest' (dict_set acc k v)
                              else if (nat_of_ascii c =? 125)%nat
                              then Some (PDict (dict_set acc k v), rest')
                              else None
                          | EmptyString => None
                          end
                      | None => None
                      end
                    else None
                | EmptyString => None
                end
            | None => None
            end
          else None
      | EmptyString => None
      end
  end.

Definition loads (s : string) : outcome pyval :=
  match read_value (2 * String.length s + 2) s with
  | Some (v, tail) =>
      match skip_ws tail with
      | EmptyString => Returned v
      | _ => Raised (JSONDecodeError "Extra data")
      end
  | None => Raised (JSONDecodeError "Expecting value")
  end.

(** [str()] of the scalars; for floats and containers the reference uses
    the JSON text. *)
Definition text_of (v : pyval) : string :=
  match v with
  | PNone => "None"
  | PBool b => if b then "True" else "False"
  | PInt n => digits n
  | _ => dumps v
  end.

#[export] Instance runtime : PyRuntime :=
  {| json_loads_text := loads; json_dumps_text := dumps; str_of := text_of |}.

End Ref.

(* ===================================================================== *)
(** * Stub collaborators and sample requests *)
(* ===================================================================== *)

Module Sample.

Definition gym_context : string := "The gym opens at 6am.".
Definition gym_question : string := "What time does the gym open?".

(** The request object [{context, question}]. *)
Definition ask (c q : pyval) : pyval := PDict [("context", c); ("question", q)].

(** ** Function variant *)

(** A POST event whose body is the JSON text of [d]. *)
Definition post_event (d : pyval) : pyval :=
  PDict [("httpMethod", PStr "POST"); ("body", PStr (Ref.dumps d))].

(** An [invoke_model] response generating [g]. *)
Definition titan_reply (g : string) : pyval :=
  PDict [("body",
          PStream (Ref.dumps (PDict [("inputTextTokenCount", PInt 42);
                                     ("results", PList [PDict [("outputText", PStr g)]])])))].

Definition bedrock_replying (g : string) : LambdaFunction.BedrockRuntime :=
  {| LambdaFunction.invoke_model := fun _ _ _ _ => Returned (titan_reply g) |}.

Definition bedrock_failing (e : exn) : LambdaFunction.BedrockRuntime :=
  {| LambdaFunction.invoke_model := fun _ _ _ _ => Raised e |}.

Definition boto3_giving (b : LambdaFunction.BedrockRuntime) : LambdaFunction.Boto3 :=
  {| LambdaFunction.boto3_client := fun _ => Returned b |}.

Definition throttled : exn := Exn "ThrottlingException" "Too many requests".

(** ** Process variant *)

Definition chat_replying (g : string) : App.ChatCompletionsClient :=
  {| App.complete := fun _ _ _ _ =>
       Returned {| App.choices := [ {| App.message_content := Some g |} ] |} |}.

Definition chat_failing (e : exn) : App.ChatCompletionsClient :=
  {| App.complete := fun _ _ _ _ => Raised e |}.

Definition project_with (chat : App.ChatCompletionsClient) : App.Globals :=
  {| App.project_client := Some {| App.get_chat_completions_client := Returned chat |};
     App.phi4_deployment := PStr "phi-4" |}.

(** A request whose JSON body is [d]. *)
Definition json_request (d : pyval) : App.Request :=
  {| App.get_json := Returned d; App.files := [] |}.

(** A multipart request uploading [data] under the name [name]. *)
Definition upload (name data : string) : App.Request :=
  {| App.get_json := Raised (Exn "UnsupportedMediaType" "415 Unsupported Media Type");
     App.files := [("file", {| App.filename := name; App.read := Returned data |})] |}.

Definition not_a_pdf : exn := Exn "PdfReadError" "EOF marker not found".

Definition pdf_failing (e : exn) : App.PyPDF2 :=
  {| App.PdfReader := fun _ => Raised e |}.

Definition pdf_with (pages : list App.PdfPage) : App.PyPDF2 :=
  {| App.PdfReader := fun _ => Returned pages |}.

End Sample.

(* ===================================================================== *)
(** * app.py: startup *)
(* ===================================================================== *)

Module Startup.
Import App.

(** The lines startup writes with [print], one constructor per [print]
    call of the source, carrying what the call interpolates. *)
Inductive line : Type :=
| Searching (resolved : string)          (* line 29, in find_cred_json *)
| Found (candidate : string)             (* line 31, in find_cred_json *)
| ConnectionString (v : pyval)           (* line 52 *)
| TenantId (v : pyval)                   (* line 53 *)
| ModelDeploymentName (v : pyval)        (* line 54 *)
| UsingServerlessModel (v : pyval)       (* line 55 *)
| ClientCreated                          (* line 62 *)
| FileError (e : exn)                    (* line 66 *)
| JsonError (e : exn)                    (* line 69 *)
| MissingKey (e : exn)                   (* line 72 *)
| UnexpectedError (e : exn)              (* line 75 *)
| AppStarting                            (* line 173 *)
| InitFailed                             (* line 176 *)
| WillNotStart.                          (* line 177 *)

(** What startup takes from outside: the working directory, the path
    resolution [Path.resolve], the recursive search
    [Path(start).rglob(name)] (its matches in traversal order), the text
    of a file, the two Azure constructors, and standard output, which may
    refuse a line (an encoding that lacks a character, a closed pipe). *)
Class Host : Type := {
  Credential : Type;
  getcwd : outcome string;
  resolve : string -> outcome string;
  rglob : string -> string -> outcome (list string);
  open_read : string -> outcome string;
  DefaultAzureCredential : outcome Credential;
  from_connection_string : Credential -> pyval -> outcome AIProjectClient;
  print : line -> outcome unit
}.

(** Computations on the two module-level globals: an assignment made
    before an exception stays made. *)
Definition G (A : Type) : Type := Globals -> outcome A * Globals.

Definition gret {A} (a : A) : G A := fun g => (Returned a, g).

Definition gbind {A B} (m : G A) (k : A -> G B) : G B :=
  fun g =>
    match m g with
    | (Returned a, g') => k a g'
    | (Raised e, g') => (Raised e, g')
    end.

Definition glift {A} (o : outcome A) : G A := fun g => (o, g).

Definition gtry {A} (m : G A) (h : exn -> G A) : G A :=
  fun g =>
    match m g with
    | (Returned a, g') => (Returned a, g')
    | (Raised e, g') => h e g'
    end.

(** [phi4_deployment = v] and [project_client = c] under [global]. *)
Definition assign_phi4_deployment (v : pyval) : G unit :=
  fun g => (Returned tt, {| project_client := project_client g; phi4_deployment := v |}).

Definition assign_project_client (c : AIProjectClient) : G unit :=
  fun g => (Returned tt, {| project_client := Some c; phi4_deployment := phi4_deployment g |}).

Declare Scope startup_scope.
Delimit Scope startup_scope with startup.
Notation "x <- m ;; k" := (gbind m (fun x => k))
  (at level 100, m at next level, right associativity) : startup_scope.
Local Open Scope startup_scope.

(** The first match of the search, or [None]; the search is announced
    with the resolved start path, and the match is announced too. *)
Definition find_cred_json `{Host} (start_path : string) : G (option string) :=
  resolved <- glift (resolve start_path) ;;
  _ <- glift (print (Searching resolved)) ;;
  candidates <- glift (rglob start_path "cred.json") ;;
  match candidates with
  | candidate :: _ =>
      _ <- glift (print (Found candidate)) ;;
      gret (Some candidate)
  | [] => gret None
  end.

Definition FileNotFoundError (msg : string) : exn := Exn "FileNotFoundError" msg.

(** [v[key]] for a [str] key. *)
Definition py_getitem (v : pyval) (key : string) : outcome pyval :=
  match v with
  | PDict d =>
      match dict_get d key with
      | Some x => Returned x
      | None => Raised (KeyError ("'" ++ key ++ "'"))
      end
  | PList _ => Raised (TypeError "list indices must be integers or slices, not str")
  | PStr _ => Raised (TypeError "string indices must be integers, not 'str'")
  | PBytes _ => Raised (TypeError "byte indices must be integers or slices, not str")
  | _ => Raised (TypeError ("'" ++ type_name v ++ "' object is not subscriptable"))
  end.

(** The line the [except] clause that catches [e] prints: the clauses
    are tried in order, by the class of the exception. *)
Definition except_line (e : exn) : line :=
  if (exn_class e =? "FileNotFoundError")%string then FileError e
  else if (exn_class e =? "JSONDecodeError")%string then JsonError e
  else if (exn_class e =? "KeyError")%string then MissingKey e
  else UnexpectedError e.

(** Each [except] clause prints its line and returns [False]; a [print]
    that raises there is caught by nothing. *)
Definition initialize_azure_client `{PyRuntime} `{Host} : G bool :=
  gtry
    (cwd <- glift getcwd ;;
     file_path <- find_cred_json cwd ;;
     path <- glift (match file_path with
                    | Some p =>
                        if (p =? EmptyString)%string
                        then Raised (FileNotFoundError
                                       "cred.json not found under the current directory")
                        else Returned p
                    | None =>
                        Raised (FileNotFoundError
                                  "cred.json not found under the current directory")
                    end) ;;
     text <- glift (open_read path) ;;
     cfg <- glift (json_loads_text text) ;;
     model <- glift (py_get cfg "SERVERLESS_MODEL_NAME" (PStr "phi-4")) ;;
     _ <- assign_phi4_deployment model ;;
     connection <- glift (py_getitem cfg "PROJECT_CONNECTION_STRING") ;;
     _ <- glift (print (ConnectionString connection)) ;;
     tenant <- glift (py_getitem cfg "TENANT_ID") ;;
     _ <- glift (print (TenantId tenant)) ;;
     deployment <- glift (py_getitem cfg "MODEL_DEPLOYMENT_NAME") ;;
     _ <- glift (print (ModelDeploymentName deployment)) ;;
     _ <- glift (print (UsingServerlessModel model)) ;;
     credential <- glift DefaultAzureCredential ;;
     conn_str <- glift (py_getitem cfg "PROJECT_CONNECTION_STRING") ;;
     client <- glift (from_connection_string credential conn_str) ;;
     _ <- assign_project_client client ;;
     _ <- glift (print ClientCreated) ;;
     gret true)
    (fun e =>
       _ <- glift (print (except_line e)) ;;
       gret false).

(** The [__main__] block: the app serves only after a successful
    initialization; an exception that leaves it ends the process. *)
Inductive Process : Type :=
| Serving (g : Globals)
| NotStarted (g : Globals)
| Crashed (e : exn) (g : Globals).

Definition main `{PyRuntime} `{Host} (g0 : Globals) : Process :=
  match initialize_azure_client g0 with
  | (Returned true, g) =>
      match print AppStarting with
      | Returned _ => Serving g
      | Raised e => Crashed e g
      end
  | (Returned false, g) =>
      match print InitFailed with
      | Returned _ =>
          match print WillNotStart with
          | Returned _ => NotStarted g
          | Raised e => Crashed e g
          end
      | Raised e => Crashed e g
      end
  | (Raised e, g) => Crashed e g
  end.

(** Standard output accepts every line. *)
Definition stdout_accepts `{Host} : Prop := forall l, print l = Returned tt.

(** The three keys the configuration must hold. *)
Definition required_keys : list string :=
  ["PROJECT_CONNECTION_STRING"; "TENANT_ID"; "MODEL_DEPLOYMENT_NAME"].

End Startup.

(* ===================================================================== *)
(** * Vocabulary for the further properties *)
(* ===================================================================== *)

(** How many of the recorded calls satisfy [f]. *)
Definition count_calls {E} (f : E -> bool) (tr : list E) : nat :=
  List.length (filter f tr).

(** The computation only adds calls, at most [n] of them of kind [f]. *)
Definition adds_at_most {E A} (f : E -> bool) (n : nat) (m : M E A) : Prop :=
  forall tr, exists more,
    snd (m tr) = (tr ++ more)%list /\ (count_calls f more <= n)%nat.

(** The computation does not look at the calls made before it: from any
    earlier trace it has the same outcome and adds the same calls. *)
Definition uniform {E A} (m : M E A) : Prop :=
  forall tr, m tr = (fst (m []), (tr ++ snd (m []))%list).

Fixpoint no_dot (s : string) : bool :=
  match s with
  | EmptyString => true
  | String c rest => negb (Ascii.eqb c "."%char) && no_dot rest
  end.

(** The three letters [pdf], each in either case. *)
Definition pdf_letters (ext : string) : Prop :=
  exists c1 c2 c3,
    ext = String c1 (String c2 (String c3 EmptyString)) /\
    (c1 = "p"%char \/ c1 = "P"%char) /\
    (c2 = "d"%char \/ c2 = "D"%char) /\
    (c3 = "f"%char \/ c3 = "F"%char).

(** The value a request object gives for a field, as [d.get(k, '')]. *)
Definition field (d : list (string * pyval)) (k : string) : pyval :=
  match dict_get d k with Some x => x | None => PStr EmptyString end.

Definition is_dict (v : pyval) : bool :=
  match v with PDict _ => true | _ => false end.

Definition is_complete (c : App.call) : bool :=
  match c with App.Complete _ _ _ _ => true | _ => false end.

Definition is_file_read (c : App.call) : bool :=
  match c with App.FileRead _ => true | _ => false end.

(** The upload as Flask hands it to the route: [request.files] is parsed
    on first access, which the route makes at line 126, outside any
    [try]; the parse raises for a body it refuses (one larger than the
    [MAX_CONTENT_LENGTH] of line 14 gives [RequestEntityTooLarge]). *)
Record Incoming : Type := {
  incoming_json : outcome pyval;
  incoming_files : outcome (list (string * App.FileStorage))
}.

Definition upload_pdf_route `{App.PyPDF2} (incoming : Incoming)
  : M App.call App.Response :=
  files <- lift (incoming_files incoming) ;;
  App.upload_pdf {| App.get_json := incoming_json incoming; App.files := files |}.

(** A string that [strip] leaves alone on both sides. *)
Definition trimmed (s : string) : Prop :=
  lstrip isspace s = s /\ rstrip isspace s = s.

Module StartupSample.

Definition connection : string := "eastus.api.azureml.ms;sub-1;rg-1;project-1".

Definition full_config : pyval :=
  PDict [ ("PROJECT_CONNECTION_STRING", PStr connection);
          ("TENANT_ID", PStr "tenant-1");
          ("MODEL_DEPLOYMENT_NAME", PStr "gpt-4o");
          ("SERVERLESS_MODEL_NAME", PStr "Phi-4-mini") ].

(** The same without [TENANT_ID], which startup only prints. *)
Definition no_tenant_config : pyval :=
  PDict [ ("PROJECT_CONNECTION_STRING", PStr connection);
          ("MODEL_DEPLOYMENT_NAME", PStr "gpt-4o");
          ("SERVERLESS_MODEL_NAME", PStr "Phi-4-mini") ].

Definition client : App.AIProjectClient :=
  {| App.get_chat_completions_client := Returned (Sample.chat_replying "6am") |}.

(** A host whose search finds the given files, in that order, and whose
    standard output behaves as [stdout] says. *)
Definition host_printing (stdout : Startup.line -> outcome unit)
  (found : list (string * string)) : Startup.Host :=
  {| Startup.Credential := unit;
     Startup.getcwd := Returned "/srv/app";
     Startup.resolve := fun path => Returned path;
     Startup.rglob := fun _ _ => Returned (map fst found);
     Startup.open_read := fun path =>
       match dict_get found path with
       | Some text => Returned text
       | None => Raised (Startup.FileNotFoundError path)
       end;
     Startup.DefaultAzureCredential := Returned tt;
     Startup.from_connection_string := fun _ _ => Returned client;
     Startup.print := stdout |}.

(** The same with a standard output that accepts everything. *)
Definition host_with (found : list (string * string)) : Startup.Host :=
  host_printing (fun _ => Returned tt) found.



(** A standard output that fails once, on the line announcing the
    client. *)
Definition stdout_failing_after_install (l : Startup.line) : outcome unit :=
  match l with
  | Startup.ClientCreated => Raised (Exn "OSError" "No space left on device")
  | _ => Returned tt
  end.

End StartupSample.

(* ===================================================================== *)
(** * Properties *)
(* ===================================================================== *)

(** ** The examples of the specification, run on the reference runtime *)

(** [{context: "The gym opens at 6am.", question: "What time does the gym
    open?"}] with the model answering "6am": 200 and
    [{answer: "6am", success: true}]. *)
Example gym_example_process :
  fst (@App.ask_question Ref.runtime (Sample.project_with (Sample.chat_replying "6am"))
         (Sample.json_request (Sample.ask (PStr Sample.gym_context)
                                          (PStr Sample.gym_question))) [])
  = Returned {| App.status := 200;
                App.json := PDict [("answer", PStr "6am"); ("success", PBool true)] |}.
Proof. vm_compute. reflexivity. Qed.

Example gym_example_function :
  fst (@LambdaFunction.lambda_handler Ref.runtime
         (Sample.boto3_giving (Sample.bedrock_replying (nl ++ "6am ")))
         (Sample.post_event (Sample.ask (PStr Sample.gym_context)
                                        (PStr Sample.gym_question))) PNone [])
  = Returned {| LambdaFunction.statusCode := 200;
                LambdaFunction.headers := LambdaFunction.json_headers;
                LambdaFunction.body := "{" ++ dq ++ "answer" ++ dq ++ ": "
                                       ++ dq ++ "6am" ++ dq ++ "}" |}.
Proof. vm_compute. reflexivity. Qed.

(** [{context: "", question: "X?"}]: 400 and
    [{error: "Missing context or question"}]. *)
Example empty_context_example :
  @App.ask_question Ref.runtime (Sample.project_with (Sample.chat_replying "6am"))
    (Sample.json_request (Sample.ask (PStr EmptyString) (PStr "X?"))) []
  = (Returned {| App.status := 400;
                 App.json := PDict [("error", PStr "Missing context or question")] |},
     []).
Proof. reflexivity. Qed.

(** A falsy value that is not a string is rejected too, and a body that
    is not an object ends in the [except] block. *)
Example zero_context_example :
  fst (@App.ask_question Ref.runtime App.initial_globals
         (Sample.json_request (Sample.ask (PInt 0) (PStr "X?"))) [])
  = Returned {| App.status := 400;
                App.json := PDict [("error", PStr "Missing context or question")] |}.
Proof. reflexivity. Qed.

Example list_body_example :
  fst (@App.ask_question Ref.runtime App.initial_globals
         (Sample.json_request (PList [])) [])
  = Returned {| App.status := 500;
                App.json := PDict [("error",
                                    PStr "'list' object has no attribute 'get'")] |}.
Proof. reflexivity. Qed.

Example prompt_example :
  containsb (@LambdaFunction.prompt_data Ref.runtime (PStr Sample.gym_context)
                                         (PStr Sample.gym_question))
            ("#" ++ nl ++ "The gym opens at 6am." ++ nl ++ "#" ++ nl ++ nl
             ++ "Question: What time does the gym open?" ++ nl ++ "Answer:")
  = true.
Proof. vm_compute. reflexivity. Qed.

Example allowed_file_examples :
  App.allowed_file "report.pdf" = true /\ App.allowed_file "a.b.PdF" = true /\
  App.allowed_file "pdf" = false /\ App.allowed_file "report.pdf.txt" = false /\
  App.allowed_file "report." = false.
Proof. repeat split. Qed.

Example reference_codec_example :
  Ref.loads (Ref.dumps (PDict [("context", PStr ("a" ++ dq ++ nl ++ "b"));
                               ("n", PList [PInt (-3); PNone; PBool true; PDict []])]))
  = Returned (PDict [("context", PStr ("a" ++ dq ++ nl ++ "b"));
                     ("n", PList [PInt (-3); PNone; PBool true; PDict []])]).
Proof. vm_compute. reflexivity. Qed.

(** ** Strings *)

Lemma append_assoc (a b c : string) : (a ++ b) ++ c = a ++ (b ++ c).
Proof.
  induction a as [| ch a IH]; simpl.
  - reflexivity.
  - now rewrite IH.
Qed.

Lemma append_empty_r (a : string) : a ++ EmptyString = a.
Proof.
  induction a as [| ch a IH]; simpl; [reflexivity | now rewrite IH].
Qed.

Lemma contains_here (pre sub post : string) : contains (pre ++ sub ++ post) sub.
Proof. now exists pre, post. Qed.

Lemma contains_after (a s sub : string) : contains s sub -> contains (a ++ s) sub.
Proof.
  intros (pre & post & ->). exists (a ++ pre), post.
  now rewrite append_assoc.
Qed.

Lemma contains_before (s b sub : string) : contains s sub -> contains (s ++ b) sub.
Proof.
  intros (pre & post & ->). exists pre, (post ++ b).
  now rewrite !append_assoc.
Qed.

Lemma contains_prefix (sub post : string) : contains (sub ++ post) sub.
Proof. exists EmptyString, post. reflexivity. Qed.

Lemma contains_refl (s : string) : contains s s.
Proof. exists EmptyString, EmptyString. simpl. now rewrite append_empty_r. Qed.

(** ** The reference codec reads back what it writes *)

(** A string literal written by [Ref.escape] is read back as the string,
    whatever characters it holds. *)
Lemma read_string_escape (s rest : string) :
  Ref.read_string (Ref.escape s ++ dq ++ rest) = Some (s, rest).
Proof.
  induction s as [| c s IH].
  - reflexivity.
  - change (Ref.escape (String c s)) with (Ref.escape_char c ++ Ref.escape s).
    rewrite append_assoc.
    remember (Ref.escape s ++ dq ++ rest) as tail eqn:Etail. clear Etail.
    destruct c as [[] [] [] [] [] [] [] []];
      match goal with
      | |- context [Ref.escape_char ?c] =>
          let e := eval vm_compute in (Ref.escape_char c) in
          change (Ref.escape_char c) with e
      end;
      cbn; rewrite IH; reflexivity.
Qed.

Lemma dumps_single (k v : string) :
  Ref.dumps (PDict [(k, PStr v)])
  = "{" ++ dq ++ (Ref.escape k ++ dq ++ (": " ++ dq ++ (Ref.escape v ++ dq ++ "}"))).
Proof.
  cbn [Ref.dumps]. unfold Ref.quote.
  rewrite !append_assoc. reflexivity.
Qed.

Lemma read_members_single (X Y k v : string) (fuel : nat) :
  Ref.read_string X = Some (k, String ":" (String " " (dq ++ Y))) ->
  Ref.read_string Y = Some (v, "}") ->
  Ref.read_value (S (S (S fuel))) ("{" ++ dq ++ X)
  = Some (PDict [(k, PStr v)], EmptyString).
Proof.
  intros HX HY. simpl. rewrite HX. simpl. rewrite HY. reflexivity.
Qed.

(** The one-field bodies the handlers send, [{"error": msg}] and
    [{"answer": text}], decode to the dict they were made from. *)
Lemma loads_dumps_single (k v : string) :
  Ref.loads (Ref.dumps (PDict [(k, PStr v)])) = Returned (PDict [(k, PStr v)]).
Proof.
  unfold Ref.loads.
  assert (Hfuel : exists fuel,
             (2 * String.length (Ref.dumps (PDict [(k, PStr v)])) + 2)%nat
             = S (S (S fuel))).
  { rewrite dumps_single. cbn [String.length append].
    match goal with
    | |- exists _, (2 * S ?n + 2)%nat = _ => exists (2 * n + 1)%nat; lia
    end. }
  destruct Hfuel as (fuel & ->).
  rewrite dumps_single.
  rewrite (read_members_single _ (Ref.escape v ++ dq ++ "}") k v fuel);
    [reflexivity | apply read_string_escape | apply read_string_escape].
Qed.

(** ** Reasoning rules for computations *)

Section Rules.
Context {E A B : Type}.
Implicit Types (m : M E A) (k : A -> M E B) (h : exn -> M E A).

Lemma post_ret (a : A) (P : A -> Prop) : P a -> post (E:=E) (ret a) P.
Proof. intros Ha tr a' tr' Heq. inversion Heq; now subst. Qed.

Lemma post_lift (o : outcome A) (P : A -> Prop) :
  (forall a, o = Returned a -> P a) -> post (E:=E) (lift o) P.
Proof. intros Ho tr a tr' Heq. inversion Heq; subst. now apply Ho. Qed.

Lemma post_extern (ev : E) (o : outcome A) (P : A -> Prop) :
  (forall a, o = Returned a -> P a) -> post (extern ev o) P.
Proof. intros Ho tr a tr' Heq. inversion Heq; subst. now apply Ho. Qed.

Lemma post_bind m k (Q : A -> Prop) (P : B -> Prop) :
  post m Q -> (forall a, Q a -> post (k a) P) -> post (bind m k) P.
Proof.
  intros Hm Hk tr b tr' Heq. unfold bind in Heq.
  destruct (m tr) as [[a | e] tr1] eqn:Em; [| discriminate].
  eapply Hk; [eapply Hm; exact Em | exact Heq].
Qed.

Lemma post_try_except m h (P : A -> Prop) :
  post m P -> (forall e, post (h e) P) -> post (try_except m h) P.
Proof.
  intros Hm Hh tr a tr' Heq. unfold try_except in Heq.
  destruct (m tr) as [[a1 | e] tr1] eqn:Em.
  - inversion Heq; subst. eapply Hm; exact Em.
  - eapply Hh; exact Heq.
Qed.

Lemma total_ret (a : A) : total (E:=E) (ret a).
Proof. intros tr. now exists a, tr. Qed.

Lemma total_bind m k : total m -> (forall a, total (k a)) -> total (bind m k).
Proof.
  intros Hm Hk tr. unfold bind.
  destruct (Hm tr) as (a & tr1 & ->). apply Hk.
Qed.

(** A [try] whose handler always returns always returns. *)
Lemma total_try_except m h : (forall e, total (h e)) -> total (try_except m h).
Proof.
  intros Hh tr. unfold try_except.
  destruct (m tr) as [[a | e] tr1].
  - now exists a, tr1.
  - apply Hh.
Qed.

Lemma growing_ret (a : A) : growing (E:=E) (ret a).
Proof. intros tr. exists []. simpl. now rewrite app_nil_r. Qed.

Lemma growing_lift (o : outcome A) : growing (E:=E) (lift o).
Proof. intros tr. exists []. simpl. now rewrite app_nil_r. Qed.

Lemma growing_extern (ev : E) (o : outcome A) : growing (extern ev o).
Proof. intros tr. now exists [ev]. Qed.

Lemma growing_bind m k : growing m -> (forall a, growing (k a)) -> growing (bind m k).
Proof.
  intros Hm Hk tr. unfold bind.
  destruct (Hm tr) as (more1 & H1).
  destruct (m tr) as [[a | e] tr1]; simpl in H1; subst tr1.
  - destruct (Hk a (tr ++ more1)%list) as (more2 & H2).
    exists (more1 ++ more2)%list. now rewrite H2, app_assoc.
  - now exists more1.
Qed.

Lemma growing_try_except m h :
  growing m -> (forall e, growing (h e)) -> growing (try_except m h).
Proof.
  intros Hm Hh tr. unfold try_except.
  destruct (Hm tr) as (more1 & H1).
  destruct (m tr) as [[a | e] tr1]; simpl in H1; subst tr1.
  - now exists more1.
  - destruct (Hh e (tr ++ more1)%list) as (more2 & H2).
    exists (more1 ++ more2)%list. now rewrite H2, app_assoc.
Qed.
End Rules.

Lemma post_bind_any {E A B} (m : M E A) (k : A -> M E B) (P : B -> Prop) :
  (forall a, post (k a) P) -> post (bind m k) P.
Proof.
  intros Hk. apply post_bind with (Q := fun _ => True); [| auto].
  intros tr a tr' _. exact I.
Qed.

Lemma json_dumps_returns `{PyRuntime} (v : pyval) (out : string) :
  json_dumps v = Returned out -> out = json_dumps_text v.
Proof.
  unfold json_dumps. destruct (unserializable_in v); [discriminate |].
  now inversion 1.
Qed.

(** Whatever [json.dumps(v)] returns is the JSON text of [v]. *)
Lemma post_bind_dumps `{PyRuntime} {E B} (v : pyval) (k : string -> M E B)
  (P : B -> Prop) :
  post (k (json_dumps_text v)) P -> post (bind (lift (json_dumps v)) k) P.
Proof.
  intros Hk. apply post_bind with (Q := fun out => out = json_dumps_text v).
  - apply post_lift. intros out. apply json_dumps_returns.
  - now intros out ->.
Qed.

Lemma post_weaken {E A} (m : M E A) (P Q : A -> Prop) :
  post m P -> (forall a, P a -> Q a) -> post m Q.
Proof. intros Hm HPQ tr a tr' Heq. apply HPQ. eapply Hm; exact Heq. Qed.

(** ** The function variant, step by step *)

Section LambdaSteps.
Import LambdaFunction.
Context {R : PyRuntime} {B : Boto3}.
Variable bedrock : BedrockRuntime.
Hypothesis client_ok : boto3_client "bedrock-runtime" = Returned bedrock.

Lemma not_options (ev : list (string * pyval)) :
  dict_get ev "httpMethod" <> Some (PStr "OPTIONS") ->
  py_eq_str (match dict_get ev "httpMethod" with Some x => x | None => PNone end)
            "OPTIONS" = false.
Proof.
  intros Hm. destruct (dict_get ev "httpMethod") as [[]|]; simpl; try reflexivity.
  destruct (String.eqb_spec s "OPTIONS"); [subst; congruence | reflexivity].
Qed.

(** An OPTIONS event stops right after the client is made. *)
Lemma preflight_run (ev : list (string * pyval)) (ctx : pyval) :
  dict_get ev "httpMethod" = Some (PStr "OPTIONS") ->
  lambda_handler (PDict ev) ctx [] =
  (Returned preflight_response, [Boto3Client "bedrock-runtime"]).
Proof.
  intros Hm. unfold lambda_handler, bind, extern, lift, ret.
  rewrite client_ok. simpl. rewrite Hm. reflexivity.
Qed.

(** Any other dict event enters the [try] block. *)
Lemma handler_enters_try (ev : list (string * pyval)) (ctx : pyval) :
  dict_get ev "httpMethod" <> Some (PStr "OPTIONS") ->
  lambda_handler (PDict ev) ctx [] =
  try_except (try_block bedrock (PDict ev)) except_block
             [Boto3Client "bedrock-runtime"].
Proof.
  intros Hm. unfold lambda_handler, bind, extern, lift.
  rewrite client_ok. simpl. now rewrite (not_options ev Hm).
Qed.

(** A body that does not decode leads to the [except] block. *)
Lemma try_block_undecodable (ev : list (string * pyval)) (e : exn) tr :
  decode (body_of_event ev) = Raised e ->
  try_block bedrock (PDict ev) tr =
  (Raised e, (tr ++ [JsonLoads (body_of_event ev)])%list).
Proof.
  intros Hd. unfold try_block, bind, lift, json_loads, extern. simpl.
  fold (body_of_event ev). now rewrite Hd.
Qed.

(** A body that decodes to an object is validated. *)
Lemma try_block_validates (ev d : list (string * pyval)) tr :
  decode (body_of_event ev) = Returned (PDict d) ->
  try_block bedrock (PDict ev) tr =
  (let pdf_text := match dict_get d "context" with
                   | Some x => x | None => PStr EmptyString end in
   let question := match dict_get d "question" with
                   | Some x => x | None => PStr EmptyString end in
   if negb (truthy pdf_text) || negb (truthy question) then
     ret {| statusCode := 400; headers := json_headers;
            body := json_dumps_text
                      (PDict [("error", PStr "Missing context or question")]) |}
   else invoke_and_unwrap bedrock pdf_text question)
    (tr ++ [JsonLoads (body_of_event ev)])%list.
Proof.
  intros Hd. unfold try_block, bind, lift, json_loads, extern. simpl.
  fold (body_of_event ev). rewrite Hd. unfold py_get. cbv beta iota zeta.
  destruct (negb _ || negb _); reflexivity.
Qed.

Lemma except_block_run (e : exn) tr :
  except_block e tr =
  (Returned {| statusCode := 500; headers := json_headers;
               body := json_dumps_text (PDict [("error", PStr (exn_str e))]) |},
   tr).
Proof. reflexivity. Qed.

(** The model is invoked with the JSON text of [bedrock_request]. *)
Lemma invoke_and_unwrap_calls (pdf_text question : pyval) tr :
  exists o more,
    invoke_and_unwrap bedrock pdf_text question tr =
    (o, (tr ++ InvokeModel (json_dumps_text (bedrock_request pdf_text question))
                           model_id "application/json" "application/json"
            :: more)%list).
Proof.
  unfold invoke_and_unwrap.
  set (rest := fun response : pyval => bind (lift (py_get response "body" PNone)) _).
  assert (Hrest : forall r, growing (rest r)).
  { intros r. unfold rest, json_loads.
    repeat first [ apply growing_bind; [| intros ?]
                 | apply growing_lift | apply growing_extern | apply growing_ret ]. }
  unfold bind at 1 2. unfold lift at 1. unfold extern at 1.
  change (json_dumps (bedrock_request pdf_text question))
    with (Returned (json_dumps_text (bedrock_request pdf_text question))).
  cbv beta iota.
  destruct (invoke_model bedrock _ _ _ _) as [resp | e].
  - destruct (Hrest resp (tr ++ [InvokeModel (json_dumps_text (bedrock_request pdf_text question))
                                   model_id "application/json" "application/json"])%list)
      as (more & Hmore).
    destruct (rest resp _) as [o tr1] eqn:Er. simpl in Hmore. subst tr1.
    exists o, more. now rewrite <- app_assoc.
  - now exists (Raised e), [].
Qed.

Lemma invoke_and_unwrap_failure (pdf_text question : pyval) (e : exn) tr :
  invoke_model bedrock (json_dumps_text (bedrock_request pdf_text question))
               model_id "application/json" "application/json" = Raised e ->
  invoke_and_unwrap bedrock pdf_text question tr =
  (Raised e,
   (tr ++ [InvokeModel (json_dumps_text (bedrock_request pdf_text question))
                       model_id "application/json" "application/json"])%list).
Proof.
  intros He. unfold invoke_and_unwrap.
  unfold bind at 1 2. unfold lift at 1. unfold extern at 1.
  change (json_dumps (bedrock_request pdf_text question))
    with (Returned (json_dumps_text (bedrock_request pdf_text question))).
  cbv beta iota. now rewrite He.
Qed.

Lemma invoke_and_unwrap_success (pdf_text question response : pyval) (g : string) tr :
  invoke_model bedrock (json_dumps_text (bedrock_request pdf_text question))
               model_id "application/json" "application/json" = Returned response ->
  generates response g ->
  exists payload,
    invoke_and_unwrap bedrock pdf_text question tr =
    (Returned {| statusCode := 200; headers := json_headers;
                 body := json_dumps_text (PDict [("answer", PStr (strip g))]) |},
     (tr ++ [InvokeModel (json_dumps_text (bedrock_request pdf_text question))
                         model_id "application/json" "application/json";
             JsonLoads (PBytes payload)])%list).
Proof.
  intros Hr (resp & payload & rb & first & others & -> & Hb & Hp & Hres & Hout).
  exists payload.
  unfold invoke_and_unwrap.
  unfold bind at 1 2. unfold lift at 1. unfold extern at 1.
  change (json_dumps (bedrock_request pdf_text question))
    with (Returned (json_dumps_text (bedrock_request pdf_text question))).
  cbv beta iota. rewrite Hr.
  unfold bind, lift, json_loads, extern, py_get. rewrite Hb. cbv beta iota.
  unfold py_read, decode. rewrite Hp. cbv beta iota. rewrite Hres.
  unfold py_index0. cbv beta iota. rewrite Hout. unfold py_strip. cbv beta iota.
  rewrite <- app_assoc. reflexivity.
Qed.

Lemma except_block_post (e : exn) : post (except_block e) json_reply.
Proof.
  intros tr r tr' Heq. rewrite except_block_run in Heq. inversion Heq; subst.
  split; [reflexivity |]. now eexists.
Qed.

Lemma try_block_post (event : pyval) : post (try_block bedrock event) json_reply.
Proof.
  unfold try_block.
  do 4 (apply post_bind_any; intros ?).
  destruct (negb _ || negb _).
  - apply post_bind_dumps, post_ret. split; [reflexivity |]. now eexists.
  - unfold invoke_and_unwrap.
    repeat first [ apply post_bind_dumps | apply post_bind_any; intros ? ].
    apply post_ret. split; [reflexivity |]. now eexists.
Qed.

(** Past the preflight check the handler always answers, in one of the
    two JSON shapes. *)
Lemma guarded_total (event : pyval) :
  total (try_except (try_block bedrock event) except_block).
Proof.
  apply total_try_except. intros e tr. rewrite except_block_run. now eexists _, _.
Qed.

Lemma guarded_post (event : pyval) :
  post (try_except (try_block bedrock event) except_block) json_reply.
Proof. apply post_try_except; [apply try_block_post | apply except_block_post]. Qed.
End LambdaSteps.

(** Every response of the handler carries the CORS header, whatever the
    event and whatever the collaborators do. *)
Lemma lambda_handler_post `{PyRuntime} `{LambdaFunction.Boto3} (event ctx : pyval) :
  post (LambdaFunction.lambda_handler event ctx)
       (fun r => LambdaFunction.has_cors r = true).
Proof.
  unfold LambdaFunction.lambda_handler.
  do 2 (apply post_bind_any; intros ?).
  destruct (py_eq_str _ _).
  - now apply post_ret.
  - eapply post_weaken; [apply guarded_post |].
    intros r [Hh _]. unfold LambdaFunction.has_cors. now rewrite Hh.
Qed.

(** ** The process variant, step by step *)

Lemma nonempty_truthy (s : string) : s <> EmptyString -> truthy (PStr s) = true.
Proof. intros Hs. simpl. now rewrite (proj2 (String.eqb_neq s EmptyString) Hs). Qed.

Lemma missing_not_truthy (d : list (string * pyval)) (k : string) :
  field_missing d k ->
  truthy (match dict_get d k with Some x => x | None => PStr EmptyString end) = false.
Proof. intros [-> | ->]; reflexivity. Qed.

Section AppSteps.
Import App.
Context {R : PyRuntime}.

Lemma jsonify_returns (v : pyval) (r : Response) :
  jsonify v = Returned r -> r = {| status := 200; json := v |}.
Proof.
  unfold jsonify. destruct (unserializable_in v); [discriminate |].
  now inversion 1.
Qed.

(** The gateway with no client: the fixed string, and no call. *)
Lemma chat_uninitialized (g : Globals) (q c : pyval) tr :
  project_client g = None ->
  chat_with_phi4_rag g q c tr = (Returned (PStr not_initialized), tr).
Proof. intros Hg. unfold chat_with_phi4_rag. now rewrite Hg. Qed.

Section WithClient.
Variables (g : Globals) (client : AIProjectClient) (chat : ChatCompletionsClient).
Hypothesis Hclient : project_client g = Some client.
Hypothesis Hchat : get_chat_completions_client client = Returned chat.

Lemma chat_failure (q c : pyval) (e : exn) tr :
  complete chat (phi4_deployment g) (chat_messages q c) float_0_3 300 = Raised e ->
  chat_with_phi4_rag g q c tr =
  (Returned (PStr ("Error communicating with Azure AI Project: " ++ exn_str e)),
   (tr ++ [GetChatCompletionsClient;
           Complete (phi4_deployment g) (chat_messages q c) float_0_3 300])%list).
Proof.
  intros He. unfold chat_with_phi4_rag. rewrite Hclient.
  unfold try_except, bind, extern. rewrite Hchat. cbv beta iota.
  fold (chat_messages q c). rewrite He. unfold ret.
  now rewrite <- app_assoc.
Qed.

Lemma chat_success (q c : pyval) (text : string) (others : list ChatChoice) tr :
  complete chat (phi4_deployment g) (chat_messages q c) float_0_3 300
  = Returned {| choices := {| message_content := Some text |} :: others |} ->
  chat_with_phi4_rag g q c tr =
  (Returned (PStr text),
   (tr ++ [GetChatCompletionsClient;
           Complete (phi4_deployment g) (chat_messages q c) float_0_3 300])%list).
Proof.
  intros He. unfold chat_with_phi4_rag. rewrite Hclient.
  unfold try_except, bind, extern. rewrite Hchat. cbv beta iota.
  fold (chat_messages q c). rewrite He. unfold ret. simpl.
  now rewrite <- app_assoc.
Qed.

(** With a client at hand the model is always called, with the two
    messages, whatever it then does. *)
Lemma chat_calls (q c : pyval) tr :
  exists o,
    chat_with_phi4_rag g q c tr =
    (o, (tr ++ [GetChatCompletionsClient;
                Complete (phi4_deployment g) (chat_messages q c) float_0_3 300])%list).
Proof.
  unfold chat_with_phi4_rag. rewrite Hclient.
  unfold try_except, bind, extern. rewrite Hchat. cbv beta iota.
  fold (chat_messages q c). rewrite <- app_assoc.
  destruct (complete chat _ _ _ _) as [[[| first others]] | e];
    unfold lift, ret; now eexists.
Qed.
End WithClient.

(** The gateway never raises, and what it returns is a [str] or [None]. *)
Lemma chat_total (g : Globals) (q c : pyval) : total (chat_with_phi4_rag g q c).
Proof.
  unfold chat_with_phi4_rag. destruct (project_client g).
  - apply total_try_except. intros e. apply total_ret.
  - apply total_ret.
Qed.

Lemma chat_post (g : Globals) (q c : pyval) :
  post (chat_with_phi4_rag g q c) (fun a => unserializable_in a = None).
Proof.
  unfold chat_with_phi4_rag. destruct (project_client g).
  - apply post_try_except.
    + do 2 (apply post_bind_any; intros ?).
      destruct (choices _) as [| first others].
      * apply post_lift. discriminate.
      * apply post_ret. now destruct (message_content first).
    + intros e. now apply post_ret.
  - now apply post_ret.
Qed.

Lemma jsonify_status_run (v : pyval) (code : Z) tr :
  unserializable_in v = None ->
  jsonify_status v code tr = (Returned {| status := code; json := v |}, tr).
Proof.
  intros Hv. unfold jsonify_status, bind, lift, jsonify. now rewrite Hv.
Qed.

Section WithBody.
Variables (g : Globals) (request : Request) (d : list (string * pyval)).
Hypothesis Hjson : get_json request = Returned (PDict d).

Lemma ask_question_rejects tr :
  field_missing d "context" \/ field_missing d "question" ->
  ask_question g request tr =
  (Returned {| status := 400;
               json := PDict [("error", PStr "Missing context or question")] |},
   tr).
Proof.
  intros Hmiss. unfold ask_question, try_except, bind, lift.
  rewrite Hjson. unfold py_get. cbv beta iota.
  assert (Hbad : negb (truthy match dict_get d "context" with
                              | Some x => x | None => PStr EmptyString end)
                 || negb (truthy match dict_get d "question" with
                                 | Some x => x | None => PStr EmptyString end)
                 = true).
  { destruct Hmiss as [Hm | Hm]; rewrite (missing_not_truthy _ _ Hm);
      [reflexivity | apply orb_true_r]. }
  rewrite Hbad. reflexivity.
Qed.

Lemma ask_question_answers (c q : string) (answer : pyval) tr tr' :
  well_formed d c q ->
  chat_with_phi4_rag g (PStr q) (PStr c) tr = (Returned answer, tr') ->
  ask_question g request tr =
  (Returned {| status := 200;
               json := PDict [("answer", answer); ("success", PBool true)] |},
   tr').
Proof.
  intros (Hc & Hcne & Hq & Hqne) Hchat.
  assert (Hser : unserializable_in answer = None)
    by (eapply chat_post; exact Hchat).
  unfold ask_question, try_except, bind, lift.
  rewrite Hjson. unfold py_get. cbv beta iota. rewrite Hc, Hq.
  rewrite (nonempty_truthy c Hcne), (nonempty_truthy q Hqne).
  change (negb true || negb true) with false. cbv beta iota.
  rewrite Hchat. unfold jsonify. simpl unserializable_in. now rewrite Hser.
Qed.
End WithBody.

Lemma ask_question_total (g : Globals) (request : Request) :
  total (ask_question g request).
Proof.
  apply total_try_except. intros e tr. rewrite jsonify_status_run by reflexivity.
  now eexists _, _.
Qed.

Lemma ask_question_post (g : Globals) (request : Request) :
  post (ask_question g request)
       (fun r => exists d, json r = PDict d /\ one_shape d = true).
Proof.
  apply post_try_except.
  - do 3 (apply post_bind_any; intros ?).
    destruct (negb _ || negb _).
    + intros tr r tr' Heq. rewrite jsonify_status_run in Heq by reflexivity.
      inversion Heq; subst. now eexists.
    + apply post_bind_any. intros answer. apply post_lift. intros r Hr.
      apply jsonify_returns in Hr. subst r. now eexists.
  - intros e tr r tr' Heq. rewrite jsonify_status_run in Heq by reflexivity.
    inversion Heq; subst. now eexists.
Qed.
End AppSteps.

Section UploadSteps.
Import App.
Context {P : PyPDF2}.

(** The page loop stops at the first page that raises. *)
Lemma extract_pages_fails (before : list PdfPage) (bad : PdfPage)
  (after : list PdfPage) (e : exn) :
  Forall (fun page => exists t, extract_text page = Returned t) before ->
  extract_text bad = Raised e ->
  forall text tr, exists tr',
    extract_pages (before ++ bad :: after) text tr = (Raised e, tr').
Proof.
  intros Hbefore Hbad.
  induction Hbefore as [| page before (t & Ht) _ IH]; intros text tr.
  - simpl. unfold bind, extern. rewrite Hbad. now eexists.
  - simpl. unfold bind, extern. rewrite Ht.
    apply (IH (text ++ t) (tr ++ [ExtractText])%list).
Qed.

Lemma extract_text_from_pdf_fails (data : string) (e : exn) tr :
  parsing_fails data e ->
  exists tr',
    extract_text_from_pdf data tr =
    (Returned ("Error extracting text: " ++ exn_str e), tr').
Proof.
  intros [Hr | (before & bad & after & Hr & Hbefore & Hbad)];
    unfold extract_text_from_pdf, try_except, bind, extern; rewrite Hr.
  - now eexists.
  - destruct (extract_pages_fails before bad after e Hbefore Hbad
                EmptyString (tr ++ [PdfReaderOpen data])%list) as (tr' & ->).
    now eexists.
Qed.

Lemma upload_pdf_parsing_fails (request : Request) (file : FileStorage)
  (data : string) (e : exn) tr :
  dict_get (files request) "file" = Some file ->
  filename file <> EmptyString ->
  allowed_file (filename file) = true ->
  read file = Returned data ->
  parsing_fails data e ->
  exists tr',
    upload_pdf request tr =
    (Returned {| status := 200;
                 json := PDict [("success", PBool true);
                                ("text", PStr ("Error extracting text: " ++ exn_str e))] |},
     tr').
Proof.
  intros Hfile Hname Hallowed Hread Hfail.
  unfold upload_pdf. rewrite Hfile.
  rewrite (proj2 (String.eqb_neq _ _) Hname), Hallowed.
  change (negb false && true) with true. cbv beta iota.
  unfold try_except, bind, extern. rewrite Hread. cbv beta iota.
  destruct (extract_text_from_pdf_fails data e
              (tr ++ [FileRead (filename file)])%list Hfail) as (tr' & ->).
  now eexists.
Qed.
End UploadSteps.

(** ** The request/response contract *)

Lemma lambda_handler_total `{PyRuntime} `{LambdaFunction.Boto3}
  (bedrock : LambdaFunction.BedrockRuntime) (ev : list (string * pyval)) (ctx : pyval) :
  LambdaFunction.boto3_client "bedrock-runtime" = Returned bedrock ->
  total (LambdaFunction.lambda_handler (PDict ev) ctx).
Proof.
  intros Hc tr. unfold LambdaFunction.lambda_handler, bind, extern, lift.
  rewrite Hc. simpl py_get. cbv beta iota.
  destruct (py_eq_str _ _).
  - now eexists _, _.
  - apply guarded_total.
Qed.

(** C1.  A request to the ask-question operation whose [context] or
    [question] is absent or the empty string is answered with status 400
    and a body holding an [error] field, and the Model Inference
    collaborator is not invoked.  Function variant: any event other than
    the OPTIONS preflight whose body decodes to such an object; process
    variant: any request whose JSON body is such an object. *)
Theorem missing_field_rejected :
  (forall (R : PyRuntime) (B : LambdaFunction.Boto3)
          (bedrock : LambdaFunction.BedrockRuntime)
          (ev : list (string * pyval)) (ctx : pyval) (d : list (string * pyval)),
      LambdaFunction.boto3_client "bedrock-runtime" = Returned bedrock ->
      dict_get ev "httpMethod" <> Some (PStr "OPTIONS") ->
      LambdaFunction.decode (LambdaFunction.body_of_event ev) = Returned (PDict d) ->
      field_missing d "context" \/ field_missing d "question" ->
      exists r tr,
        LambdaFunction.lambda_handler (PDict ev) ctx [] = (Returned r, tr) /\
        LambdaFunction.statusCode r = 400 /\
        LambdaFunction.body r
        = json_dumps_text (PDict [("error", PStr "Missing context or question")]) /\
        existsb LambdaFunction.is_inference tr = false)
  /\
  (forall (R : PyRuntime) (g : App.Globals) (request : App.Request)
          (d : list (string * pyval)),
      App.get_json request = Returned (PDict d) ->
      field_missing d "context" \/ field_missing d "question" ->
      exists r tr,
        App.ask_question g request [] = (Returned r, tr) /\
        App.status r = 400 /\
        App.json r = PDict [("error", PStr "Missing context or question")] /\
        existsb App.is_inference tr = false).
Proof.
  split.
  - intros R B bedrock ev ctx d Hclient Hmethod Hbody Hmiss.
    rewrite (handler_enters_try bedrock Hclient ev ctx Hmethod).
    unfold try_except. rewrite (try_block_validates bedrock ev d _ Hbody).
    cbv zeta.
    assert (Hbad : negb (truthy match dict_get d "context" with
                                | Some x => x | None => PStr EmptyString end)
                   || negb (truthy match dict_get d "question" with
                                   | Some x => x | None => PStr EmptyString end)
                   = true).
    { destruct Hmiss as [Hm | Hm]; rewrite (missing_not_truthy _ _ Hm);
        [reflexivity | apply orb_true_r]. }
    rewrite Hbad. unfold ret.
    eexists _, _. repeat split.
  - intros R g request d Hjson Hmiss.
    rewrite (ask_question_rejects g request d Hjson [] Hmiss).
    eexists _, _. repeat split.
Qed.

Lemma missing_field_rejected_witness :
  (exists r tr,
      @LambdaFunction.lambda_handler Ref.runtime
        (Sample.boto3_giving (Sample.bedrock_replying "6am"))
        (Sample.post_event (Sample.ask (PStr EmptyString) (PStr "X?"))) PNone []
      = (Returned r, tr) /\
      LambdaFunction.statusCode r = 400 /\
      LambdaFunction.body r
      = Ref.dumps (PDict [("error", PStr "Missing context or question")]) /\
      existsb LambdaFunction.is_inference tr = false)
  /\
  (exists r tr,
      @App.ask_question Ref.runtime App.initial_globals
        (Sample.json_request (PDict [("question", PStr "X?")])) []
      = (Returned r, tr) /\
      App.status r = 400 /\
      App.json r = PDict [("error", PStr "Missing context or question")] /\
      existsb App.is_inference tr = false).
Proof.
  split.
  - apply (proj1 missing_field_rejected Ref.runtime
             (Sample.boto3_giving (Sample.bedrock_replying "6am"))
             (Sample.bedrock_replying "6am")
             [("httpMethod", PStr "POST");
              ("body", PStr (Ref.dumps (Sample.ask (PStr EmptyString) (PStr "X?"))))]
             PNone
             [("context", PStr EmptyString); ("question", PStr "X?")]).
    + reflexivity.
    + discriminate.
    + vm_compute. reflexivity.
    + left. right. reflexivity.
  - apply (proj2 missing_field_rejected Ref.runtime App.initial_globals
             (Sample.json_request (PDict [("question", PStr "X?")]))
             [("question", PStr "X?")]).
    + reflexivity.
    + left. left. reflexivity.
Defined.

(** C6.  An event whose [httpMethod] is OPTIONS is answered with status
    200, the CORS headers and an empty body; the body of the event is not
    parsed and nothing is validated: the response is the same whatever
    else the event holds, and no [json.loads] call is made. *)
Theorem options_preflight :
  forall (R : PyRuntime) (B : LambdaFunction.Boto3)
         (bedrock : LambdaFunction.BedrockRuntime)
         (ev : list (string * pyval)) (ctx : pyval),
    LambdaFunction.boto3_client "bedrock-runtime" = Returned bedrock ->
    dict_get ev "httpMethod" = Some (PStr "OPTIONS") ->
    exists r tr,
      LambdaFunction.lambda_handler (PDict ev) ctx [] = (Returned r, tr) /\
      LambdaFunction.statusCode r = 200 /\
      LambdaFunction.headers r
      = [ ("Access-Control-Allow-Origin", "*");
          ("Access-Control-Allow-Headers", "Content-Type");
          ("Access-Control-Allow-Methods", "POST,OPTIONS") ] /\
      LambdaFunction.body r = EmptyString /\
      existsb LambdaFunction.is_parse tr = false /\
      existsb LambdaFunction.is_inference tr = false.
Proof.
  intros R B bedrock ev ctx Hclient Hmethod.
  rewrite (preflight_run bedrock Hclient ev ctx Hmethod).
  eexists _, _. repeat split.
Qed.

Lemma options_preflight_witness :
  exists r tr,
    @LambdaFunction.lambda_handler Ref.runtime
      (Sample.boto3_giving (Sample.bedrock_failing Sample.throttled))
      (PDict [("httpMethod", PStr "OPTIONS"); ("body", PStr "not json")]) PNone []
    = (Returned r, tr) /\
    LambdaFunction.statusCode r = 200 /\
    LambdaFunction.headers r
    = [ ("Access-Control-Allow-Origin", "*");
        ("Access-Control-Allow-Headers", "Content-Type");
        ("Access-Control-Allow-Methods", "POST,OPTIONS") ] /\
    LambdaFunction.body r = EmptyString /\
    existsb LambdaFunction.is_parse tr = false /\
    existsb LambdaFunction.is_inference tr = false.
Proof.
  apply (options_preflight Ref.runtime
           (Sample.boto3_giving (Sample.bedrock_failing Sample.throttled))
           (Sample.bedrock_failing Sample.throttled)
           [("httpMethod", PStr "OPTIONS"); ("body", PStr "not json")] PNone).
  - reflexivity.
  - reflexivity.
Defined.

(** C7.  Every response the function-variant handler produces -- the
    OPTIONS preflight, the 400 of a failed validation, the 200 of a
    success and the 500 of the [except] block -- carries the
    [Access-Control-Allow-Origin] header; and once the Bedrock client is
    made, every dict event does get a response. *)
Theorem every_response_has_cors :
  (forall (R : PyRuntime) (B : LambdaFunction.Boto3) (event ctx : pyval)
          (tr : list LambdaFunction.call) (r : LambdaFunction.Response)
          (tr' : list LambdaFunction.call),
      LambdaFunction.lambda_handler event ctx tr = (Returned r, tr') ->
      dict_has (LambdaFunction.headers r) "Access-Control-Allow-Origin" = true)
  /\
  (forall (R : PyRuntime) (B : LambdaFunction.Boto3)
          (bedrock : LambdaFunction.BedrockRuntime)
          (ev : list (string * pyval)) (ctx : pyval),
      LambdaFunction.boto3_client "bedrock-runtime" = Returned bedrock ->
      exists r tr,
        LambdaFunction.lambda_handler (PDict ev) ctx [] = (Returned r, tr)).
Proof.
  split.
  - intros R B event ctx tr r tr' Hrun.
    exact (lambda_handler_post event ctx tr r tr' Hrun).
  - intros R B bedrock ev ctx Hclient.
    apply (lambda_handler_total bedrock ev ctx Hclient).
Qed.

Lemma every_response_has_cors_witness :
  (* OPTIONS preflight *)
  (exists r tr,
      @LambdaFunction.lambda_handler Ref.runtime
        (Sample.boto3_giving (Sample.bedrock_replying "6am"))
        (PDict [("httpMethod", PStr "OPTIONS")]) PNone [] = (Returned r, tr) /\
      LambdaFunction.statusCode r = 200 /\
      dict_has (LambdaFunction.headers r) "Access-Control-Allow-Origin" = true)
  /\
  (* failed validation *)
  (exists r tr,
      @LambdaFunction.lambda_handler Ref.runtime
        (Sample.boto3_giving (Sample.bedrock_replying "6am"))
        (Sample.post_event (Sample.ask (PStr EmptyString) (PStr "X?"))) PNone []
      = (Returned r, tr) /\
      LambdaFunction.statusCode r = 400 /\
      dict_has (LambdaFunction.headers r) "Access-Control-Allow-Origin" = true)
  /\
  (* success *)
  (exists r tr,
      @LambdaFunction.lambda_handler Ref.runtime
        (Sample.boto3_giving (Sample.bedrock_replying "6am"))
        (Sample.post_event (Sample.ask (PStr Sample.gym_context)
                                       (PStr Sample.gym_question))) PNone []
      = (Returned r, tr) /\
      LambdaFunction.statusCode r = 200 /\
      dict_has (LambdaFunction.headers r) "Access-Control-Allow-Origin" = true)
  /\
  (* the except block *)
  (exists r tr,
      @LambdaFunction.lambda_handler Ref.runtime
        (Sample.boto3_giving (Sample.bedrock_failing Sample.throttled))
        (Sample.post_event (Sample.ask (PStr Sample.gym_context)
                                       (PStr Sample.gym_question))) PNone []
      = (Returned r, tr) /\
      LambdaFunction.statusCode r = 500 /\
      dict_has (LambdaFunction.headers r) "Access-Control-Allow-Origin" = true)
  /\
  (exists r tr,
      @LambdaFunction.lambda_handler Ref.runtime
        (Sample.boto3_giving (Sample.bedrock_replying "6am"))
        (PDict [("body", PNone)]) PNone [] = (Returned r, tr)).
Proof.
  repeat apply conj.
  1-4: match goal with
       | |- exists r tr, @LambdaFunction.lambda_handler ?R ?B ?event ?ctx [] = _ /\ _ =>
           eexists _, _; split; [vm_compute; reflexivity |];
           (split; [reflexivity |]);
           apply (proj1 every_response_has_cors R B event ctx []
                        _ _ ltac:(vm_compute; reflexivity))
       end.
  apply (proj2 every_response_has_cors Ref.runtime
           (Sample.boto3_giving (Sample.bedrock_replying "6am"))
           (Sample.bedrock_replying "6am") [("body", PNone)] PNone).
  reflexivity.
Defined.

(** C9.  The body of a response to an ask-question request has exactly
    one of the two shapes: it holds an [answer] field or an [error] field,
    never both and never neither.  Function variant: any dict event other
    than the OPTIONS preflight, the body being the JSON text of such a
    dict; process variant: any request at all. *)
Theorem exactly_one_shape :
  (forall (R : PyRuntime) (B : LambdaFunction.Boto3)
          (bedrock : LambdaFunction.BedrockRuntime)
          (ev : list (string * pyval)) (ctx : pyval),
      LambdaFunction.boto3_client "bedrock-runtime" = Returned bedrock ->
      dict_get ev "httpMethod" <> Some (PStr "OPTIONS") ->
      exists r tr d,
        LambdaFunction.lambda_handler (PDict ev) ctx [] = (Returned r, tr) /\
        LambdaFunction.body r = json_dumps_text (PDict d) /\
        xorb (dict_has d "answer") (dict_has d "error") = true)
  /\
  (forall (R : PyRuntime) (g : App.Globals) (request : App.Request),
      exists r tr d,
        App.ask_question g request [] = (Returned r, tr) /\
        App.json r = PDict d /\
        xorb (dict_has d "answer") (dict_has d "error") = true).
Proof.
  split.
  - intros R B bedrock ev ctx Hclient Hmethod.
    rewrite (handler_enters_try bedrock Hclient ev ctx Hmethod).
    destruct (guarded_total bedrock (PDict ev) [LambdaFunction.Boto3Client "bedrock-runtime"])
      as (r & tr & Hrun).
    destruct (guarded_post bedrock (PDict ev) _ _ _ Hrun) as (_ & d & Hbody & Hshape).
    exists r, tr, d. now rewrite Hrun.
  - intros R g request.
    destruct (ask_question_total g request []) as (r & tr & Hrun).
    destruct (ask_question_post g request _ _ _ Hrun) as (d & Hjson & Hshape).
    now exists r, tr, d.
Qed.

Lemma exactly_one_shape_witness :
  (exists r tr d,
      @LambdaFunction.lambda_handler Ref.runtime
        (Sample.boto3_giving (Sample.bedrock_replying "6am"))
        (PDict [("httpMethod", PStr "POST"); ("body", PStr "[1, 2]")]) PNone []
      = (Returned r, tr) /\
      LambdaFunction.body r = Ref.dumps (PDict d) /\
      xorb (dict_has d "answer") (dict_has d "error") = true)
  /\
  (exists r tr d,
      @App.ask_question Ref.runtime App.initial_globals
        (Sample.json_request (PList [PInt 1; PInt 2])) []
      = (Returned r, tr) /\
      App.json r = PDict d /\
      xorb (dict_has d "answer") (dict_has d "error") = true).
Proof.
  split.
  - apply (proj1 exactly_one_shape Ref.runtime
             (Sample.boto3_giving (Sample.bedrock_replying "6am"))
             (Sample.bedrock_replying "6am")
             [("httpMethod", PStr "POST"); ("body", PStr "[1, 2]")] PNone).
    + reflexivity.
    + discriminate.
  - apply (proj2 exactly_one_shape Ref.runtime App.initial_globals
             (Sample.json_request (PList [PInt 1; PInt 2]))).
Defined.

(** C10.  In the function variant, for an event other than the OPTIONS
    preflight: a [body] entry that [json.loads] refuses gives status 500
    with an [error] field holding the exception text (and the CORS
    header), not the 400 of a failed validation; an event with no [body]
    key is read as the empty object and gives the 400 for a missing
    field. *)
Theorem undecodable_body_500_absent_body_400 :
  forall (R : PyRuntime) (B : LambdaFunction.Boto3)
         (bedrock : LambdaFunction.BedrockRuntime)
         (ev : list (string * pyval)) (ctx : pyval),
    LambdaFunction.boto3_client "bedrock-runtime" = Returned bedrock ->
    dict_get ev "httpMethod" <> Some (PStr "OPTIONS") ->
    (forall (raw : pyval) (e : exn),
        dict_get ev "body" = Some raw ->
        LambdaFunction.decode raw = Raised e ->
        exists r tr,
          LambdaFunction.lambda_handler (PDict ev) ctx [] = (Returned r, tr) /\
          LambdaFunction.statusCode r = 500 /\
          LambdaFunction.body r = json_dumps_text (PDict [("error", PStr (exn_str e))]) /\
          LambdaFunction.has_cors r = true /\
          existsb LambdaFunction.is_inference tr = false)
    /\
    (dict_get ev "body" = None ->
     json_loads_text "{}" = Returned (PDict []) ->
     exists r tr,
       LambdaFunction.lambda_handler (PDict ev) ctx [] = (Returned r, tr) /\
       LambdaFunction.statusCode r = 400 /\
       LambdaFunction.body r
       = json_dumps_text (PDict [("error", PStr "Missing context or question")]) /\
       LambdaFunction.has_cors r = true /\
       existsb LambdaFunction.is_inference tr = false).
Proof.
  intros R B bedrock ev ctx Hclient Hmethod.
  rewrite (handler_enters_try bedrock Hclient ev ctx Hmethod).
  unfold try_except. split.
  - intros raw e Hbody Hdecode.
    assert (Hd : LambdaFunction.decode (LambdaFunction.body_of_event ev) = Raised e).
    { unfold LambdaFunction.body_of_event. now rewrite Hbody. }
    rewrite (try_block_undecodable bedrock ev e _ Hd), except_block_run.
    eexists _, _. split; [reflexivity |].
    rewrite existsb_app. repeat split.
  - intros Hbody Hempty.
    assert (Hd : LambdaFunction.decode (LambdaFunction.body_of_event ev)
                 = Returned (PDict [])).
    { unfold LambdaFunction.body_of_event. now rewrite Hbody. }
    rewrite (try_block_validates bedrock ev [] _ Hd).
    eexists _, _. split; [reflexivity |].
    rewrite existsb_app. repeat split.
Qed.

Lemma undecodable_body_500_absent_body_400_witness :
  (exists r tr,
      @LambdaFunction.lambda_handler Ref.runtime
        (Sample.boto3_giving (Sample.bedrock_replying "6am"))
        (PDict [("httpMethod", PStr "POST"); ("body", PStr "not json")]) PNone []
      = (Returned r, tr) /\
      LambdaFunction.statusCode r = 500 /\
      LambdaFunction.body r = Ref.dumps (PDict [("error", PStr "Expecting value")]) /\
      LambdaFunction.has_cors r = true /\
      existsb LambdaFunction.is_inference tr = false)
  /\
  (exists r tr,
      @LambdaFunction.lambda_handler Ref.runtime
        (Sample.boto3_giving (Sample.bedrock_replying "6am"))
        (PDict [("httpMethod", PStr "POST")]) PNone []
      = (Returned r, tr) /\
      LambdaFunction.statusCode r = 400 /\
      LambdaFunction.body r
      = Ref.dumps (PDict [("error", PStr "Missing context or question")]) /\
      LambdaFunction.has_cors r = true /\
      existsb LambdaFunction.is_inference tr = false).
Proof.
  split.
  - apply (proj1 (undecodable_body_500_absent_body_400 Ref.runtime
                    (Sample.boto3_giving (Sample.bedrock_replying "6am"))
                    (Sample.bedrock_replying "6am")
                    [("httpMethod", PStr "POST"); ("body", PStr "not json")] PNone
                    eq_refl ltac:(discriminate))
                 (PStr "not json") (Ref.JSONDecodeError "Expecting value")).
    + reflexivity.
    + vm_compute. reflexivity.
  - apply (proj2 (undecodable_body_500_absent_body_400 Ref.runtime
                    (Sample.boto3_giving (Sample.bedrock_replying "6am"))
                    (Sample.bedrock_replying "6am")
                    [("httpMethod", PStr "POST")] PNone
                    eq_refl ltac:(discriminate))).
    + reflexivity.
    + vm_compute. reflexivity.
Defined.

(** ** The prompt *)

Ltac find_in_prompt :=
  repeat first [ apply contains_prefix | apply contains_after ].

Lemma prompt_data_contains `{PyRuntime} (c q : string) :
  contains (LambdaFunction.prompt_data (PStr c) (PStr q)) c /\
  contains (LambdaFunction.prompt_data (PStr c) (PStr q)) q /\
  contains (LambdaFunction.prompt_data (PStr c) (PStr q))
           ("Only answer the question if you can find relevant information in the context, otherwise, answer "
            ++ dq ++ "I don't have enough information to answer this question" ++ dq ++ ".").
Proof.
  unfold LambdaFunction.prompt_data, py_format. repeat split; [find_in_prompt .. |].
  exists ("Answer the question based only on the information provided between ##."
          ++ nl),
         (nl ++ "#" ++ nl ++ c ++ nl ++ "#" ++ nl ++ nl
          ++ "Question: " ++ q ++ nl ++ "Answer:").
  reflexivity.
Qed.

Lemma chat_messages_contain `{PyRuntime} (c q : string) :
  App.prompt_contains (App.chat_messages (PStr q) (PStr c)) c /\
  App.prompt_contains (App.chat_messages (PStr q) (PStr c)) q /\
  App.prompt_contains (App.chat_messages (PStr q) (PStr c))
                      "If the context doesn't help, say so.".
Proof.
  unfold App.chat_messages. repeat split.
  - exists (App.SystemMessage (App.system_prompt (PStr c))), (App.system_prompt (PStr c)).
    repeat split; [now left |]. unfold App.system_prompt, py_format. find_in_prompt.
  - exists (App.UserMessage (PStr q)), q.
    repeat split; [right; now left | apply contains_refl].
  - exists (App.SystemMessage (App.system_prompt (PStr c))), (App.system_prompt (PStr c)).
    repeat split; [now left |]. unfold App.system_prompt, py_format.
    exists ("You are Phi-4, helpful fitness AI." ++ nl
            ++ "We have some context from the user's knowledge base: " ++ nl
            ++ c ++ nl ++ "Please use this context to help your answer. "),
           nl.
    rewrite !append_assoc. reflexivity.
Qed.

(** C5.  For a non-empty context string and a non-empty question string
    the prompt built before the model call holds the context text, the
    question text and the fallback instruction, and it is the prompt the
    model is called with.  Function variant: [prompt_data], sent as the
    [inputText] of the request; its instruction is the sentence
    [Only answer the question if you can find relevant information in the
    context, otherwise, answer "I don't have enough information to answer
    this question".]  Process variant: the system and user messages; the
    system message holds the context and the sentence
    [If the context doesn't help, say so.], the user message is the
    question.  Both sentences are written out in the statement. *)
Theorem prompt_holds_context_question_fallback :
  (forall (R : PyRuntime) (c q : string),
      contains (LambdaFunction.prompt_data (PStr c) (PStr q)) c /\
      contains (LambdaFunction.prompt_data (PStr c) (PStr q)) q /\
      contains (LambdaFunction.prompt_data (PStr c) (PStr q))
               ("Only answer the question if you can find relevant information in the context, otherwise, answer "
                ++ dq ++ "I don't have enough information to answer this question" ++ dq ++ "."))
  /\
  (forall (R : PyRuntime) (c q : string),
      App.prompt_contains (App.chat_messages (PStr q) (PStr c)) c /\
      App.prompt_contains (App.chat_messages (PStr q) (PStr c)) q /\
      App.prompt_contains (App.chat_messages (PStr q) (PStr c))
                          "If the context doesn't help, say so.")
  /\
  (forall (R : PyRuntime) (B : LambdaFunction.Boto3)
          (bedrock : LambdaFunction.BedrockRuntime)
          (ev : list (string * pyval)) (ctx : pyval)
          (d : list (string * pyval)) (c q : string),
      LambdaFunction.boto3_client "bedrock-runtime" = Returned bedrock ->
      dict_get ev "httpMethod" <> Some (PStr "OPTIONS") ->
      LambdaFunction.decode (LambdaFunction.body_of_event ev) = Returned (PDict d) ->
      well_formed d c q ->
      exists o more prompt,
        LambdaFunction.lambda_handler (PDict ev) ctx [] =
        (o, [ LambdaFunction.Boto3Client "bedrock-runtime";
              LambdaFunction.JsonLoads (LambdaFunction.body_of_event ev);
              LambdaFunction.InvokeModel
                (json_dumps_text
                   (PDict [ ("inputText", PStr prompt);
                            ("textGenerationConfig", LambdaFunction.parameters) ]))
                LambdaFunction.model_id "application/json" "application/json" ]
            ++ more)%list /\
        contains prompt c /\ contains prompt q /\
        contains prompt
          ("Only answer the question if you can find relevant information in the context, otherwise, answer "
           ++ dq ++ "I don't have enough information to answer this question" ++ dq ++ "."))
  /\
  (forall (R : PyRuntime) (g : App.Globals) (client : App.AIProjectClient)
          (chat : App.ChatCompletionsClient) (request : App.Request)
          (d : list (string * pyval)) (c q : string),
      App.project_client g = Some client ->
      App.get_chat_completions_client client = Returned chat ->
      App.get_json request = Returned (PDict d) ->
      well_formed d c q ->
      exists r messages,
        App.ask_question g request [] =
        (Returned r,
         [ App.GetChatCompletionsClient;
           App.Complete (App.phi4_deployment g) messages App.float_0_3 300 ]) /\
        App.prompt_contains messages c /\ App.prompt_contains messages q /\
        App.prompt_contains messages "If the context doesn't help, say so.").
Proof.
  split; [intros R c q; apply prompt_data_contains |].
  split; [intros R c q; apply chat_messages_contain |].
  split.
  - intros R B bedrock ev ctx d c q Hclient Hmethod Hbody (Hc & Hcne & Hq & Hqne).
    rewrite (handler_enters_try bedrock Hclient ev ctx Hmethod).
    unfold try_except. rewrite (try_block_validates bedrock ev d _ Hbody).
    cbv zeta. rewrite Hc, Hq.
    rewrite (nonempty_truthy c Hcne), (nonempty_truthy q Hqne).
    change (negb true || negb true) with false. cbv beta iota.
    destruct (invoke_and_unwrap_calls bedrock (PStr c) (PStr q)
                ([LambdaFunction.Boto3Client "bedrock-runtime"]
                   ++ [LambdaFunction.JsonLoads (LambdaFunction.body_of_event ev)])%list)
      as (o & more & ->).
    destruct (prompt_data_contains c q) as (H1 & H2 & H3).
    destruct o as [r | e]; [| rewrite except_block_run];
      eexists _, more, (LambdaFunction.prompt_data (PStr c) (PStr q));
      (split; [reflexivity | now repeat split]).
  - intros R g client chat request d c q Hclient Hchat Hjson Hwf.
    destruct (chat_calls g client chat Hclient Hchat (PStr q) (PStr c) []) as (o & Hcalls).
    destruct (chat_total g (PStr q) (PStr c) []) as (answer & tr' & Hrun).
    rewrite Hrun in Hcalls. inversion Hcalls; subst o tr'.
    rewrite (ask_question_answers g request d Hjson c q answer [] _ Hwf Hrun).
    destruct (chat_messages_contain c q) as (H1 & H2 & H3).
    eexists _, (App.chat_messages (PStr q) (PStr c)).
    split; [reflexivity | now repeat split].
Qed.

Lemma prompt_holds_context_question_fallback_witness :
  (exists o more prompt,
      @LambdaFunction.lambda_handler Ref.runtime
        (Sample.boto3_giving (Sample.bedrock_replying "6am"))
        (Sample.post_event (Sample.ask (PStr Sample.gym_context)
                                       (PStr Sample.gym_question))) PNone [] =
      (o, [ LambdaFunction.Boto3Client "bedrock-runtime";
            LambdaFunction.JsonLoads
              (PStr (Ref.dumps (Sample.ask (PStr Sample.gym_context)
                                           (PStr Sample.gym_question))));
            LambdaFunction.InvokeModel
              (Ref.dumps
                 (PDict [ ("inputText", PStr prompt);
                          ("textGenerationConfig", LambdaFunction.parameters) ]))
              LambdaFunction.model_id "application/json" "application/json" ]
          ++ more)%list /\
      contains prompt Sample.gym_context /\ contains prompt Sample.gym_question /\
      contains prompt
          ("Only answer the question if you can find relevant information in the context, otherwise, answer "
           ++ dq ++ "I don't have enough information to answer this question" ++ dq ++ "."))
  /\
  (exists r messages,
      @App.ask_question Ref.runtime (Sample.project_with (Sample.chat_replying "6am"))
        (Sample.json_request (Sample.ask (PStr Sample.gym_context)
                                         (PStr Sample.gym_question))) [] =
      (Returned r,
       [ App.GetChatCompletionsClient;
         App.Complete (PStr "phi-4") messages App.float_0_3 300 ]) /\
      App.prompt_contains messages Sample.gym_context /\
      App.prompt_contains messages Sample.gym_question /\
      App.prompt_contains messages "If the context doesn't help, say so.").
Proof.
  split.
  - apply (proj1 (proj2 (proj2 prompt_holds_context_question_fallback)) Ref.runtime
             (Sample.boto3_giving (Sample.bedrock_replying "6am"))
             (Sample.bedrock_replying "6am")
             [("httpMethod", PStr "POST");
              ("body", PStr (Ref.dumps (Sample.ask (PStr Sample.gym_context)
                                                   (PStr Sample.gym_question))))]
             PNone
             [("context", PStr Sample.gym_context);
              ("question", PStr Sample.gym_question)]
             Sample.gym_context Sample.gym_question).
    + reflexivity.
    + discriminate.
    + vm_compute. reflexivity.
    + repeat split; discriminate.
  - apply (proj2 (proj2 (proj2 prompt_holds_context_question_fallback)) Ref.runtime
             (Sample.project_with (Sample.chat_replying "6am"))
             {| App.get_chat_completions_client := Returned (Sample.chat_replying "6am") |}
             (Sample.chat_replying "6am")
             (Sample.json_request (Sample.ask (PStr Sample.gym_context)
                                              (PStr Sample.gym_question)))
             [("context", PStr Sample.gym_context);
              ("question", PStr Sample.gym_question)]
             Sample.gym_context Sample.gym_question).
    + reflexivity.
    + reflexivity.
    + reflexivity.
    + repeat split; discriminate.
Defined.

(** ** Where the process variant reports a failure as an answer *)

(** C2, as stated, fails.  In the process variant a well-formed request
    whose model call raises gets a 200 whose body has [answer] and
    [success] and no [error]; in the function variant an exception with an
    empty text gets a 500 whose [error] field is the empty string. *)
Lemma inference_failure_not_500_with_nonempty_error :
  @App.ask_question Ref.runtime (Sample.project_with (Sample.chat_failing Sample.throttled))
    (Sample.json_request (Sample.ask (PStr Sample.gym_context)
                                     (PStr Sample.gym_question))) []
  = (Returned
       {| App.status := 200;
          App.json :=
            PDict [ ("answer",
                     PStr "Error communicating with Azure AI Project: Too many requests");
                    ("success", PBool true) ] |},
     [ App.GetChatCompletionsClient;
       App.Complete (PStr "phi-4")
                    (@App.chat_messages Ref.runtime (PStr Sample.gym_question)
                                        (PStr Sample.gym_context))
                    App.float_0_3 300 ])
  /\ App.complete (Sample.chat_failing Sample.throttled) (PStr "phi-4")
       (@App.chat_messages Ref.runtime (PStr Sample.gym_question)
                           (PStr Sample.gym_context))
       App.float_0_3 300 = Raised Sample.throttled
  /\ ~ (exists r tr msg,
          @App.ask_question Ref.runtime
            (Sample.project_with (Sample.chat_failing Sample.throttled))
            (Sample.json_request (Sample.ask (PStr Sample.gym_context)
                                             (PStr Sample.gym_question))) []
          = (Returned r, tr)
          /\ App.status r = 500
          /\ dict_get match App.json r with PDict d => d | _ => [] end "error"
             = Some (PStr msg)
          /\ msg <> EmptyString)
  /\ @LambdaFunction.lambda_handler Ref.runtime
       (Sample.boto3_giving (Sample.bedrock_failing (Exn "TimeoutError" EmptyString)))
       (Sample.post_event (Sample.ask (PStr Sample.gym_context)
                                      (PStr Sample.gym_question))) PNone []
     = (Returned
          {| LambdaFunction.statusCode := 500;
             LambdaFunction.headers := LambdaFunction.json_headers;
             LambdaFunction.body := Ref.dumps (PDict [("error", PStr EmptyString)]) |},
        [ LambdaFunction.Boto3Client "bedrock-runtime";
          LambdaFunction.JsonLoads
            (PStr (Ref.dumps (Sample.ask (PStr Sample.gym_context)
                                         (PStr Sample.gym_question))));
          LambdaFunction.InvokeModel
            (Ref.dumps (@LambdaFunction.bedrock_request Ref.runtime
                          (PStr Sample.gym_context) (PStr Sample.gym_question)))
            LambdaFunction.model_id "application/json" "application/json" ]).
Proof.
  assert (Hrun :
    @App.ask_question Ref.runtime
      (Sample.project_with (Sample.chat_failing Sample.throttled))
      (Sample.json_request (Sample.ask (PStr Sample.gym_context)
                                       (PStr Sample.gym_question))) []
    = (Returned
         {| App.status := 200;
            App.json :=
              PDict [ ("answer",
                       PStr "Error communicating with Azure AI Project: Too many requests");
                      ("success", PBool true) ] |},
       [ App.GetChatCompletionsClient;
         App.Complete (PStr "phi-4")
                      (@App.chat_messages Ref.runtime (PStr Sample.gym_question)
                                          (PStr Sample.gym_context))
                      App.float_0_3 300 ])) by (vm_compute; reflexivity).
  split; [exact Hrun |]. split; [reflexivity |].
  split; [| vm_compute; reflexivity].
  intros (r & tr & msg & Heq & Hstatus & _).
  rewrite Hrun in Heq. inversion Heq; subst r. discriminate Hstatus.
Qed.

(** C2, amended.  For a well-formed request whose model call raises [e]:
    the function variant answers 500 with a body whose [error] field is
    [str(e)], empty or not; the process variant catches the exception inside the gateway
    and answers 200 with [answer] set to the text
    "Error communicating with Azure AI Project: " followed by [str(e)]. *)
Theorem inference_failure_reported :
  (forall (R : PyRuntime) (B : LambdaFunction.Boto3)
          (bedrock : LambdaFunction.BedrockRuntime)
          (ev : list (string * pyval)) (ctx : pyval)
          (d : list (string * pyval)) (c q : string) (e : exn),
      LambdaFunction.boto3_client "bedrock-runtime" = Returned bedrock ->
      dict_get ev "httpMethod" <> Some (PStr "OPTIONS") ->
      LambdaFunction.decode (LambdaFunction.body_of_event ev) = Returned (PDict d) ->
      well_formed d c q ->
      LambdaFunction.invoke_model bedrock
        (json_dumps_text (LambdaFunction.bedrock_request (PStr c) (PStr q)))
        LambdaFunction.model_id "application/json" "application/json" = Raised e ->
      exists r tr,
        LambdaFunction.lambda_handler (PDict ev) ctx [] = (Returned r, tr) /\
        LambdaFunction.statusCode r = 500 /\
        LambdaFunction.body r = json_dumps_text (PDict [("error", PStr (exn_str e))]))
  /\
  (forall (R : PyRuntime) (g : App.Globals) (client : App.AIProjectClient)
          (chat : App.ChatCompletionsClient) (request : App.Request)
          (d : list (string * pyval)) (c q : string) (e : exn),
      App.project_client g = Some client ->
      App.get_chat_completions_client client = Returned chat ->
      App.get_json request = Returned (PDict d) ->
      well_formed d c q ->
      App.complete chat (App.phi4_deployment g)
                   (App.chat_messages (PStr q) (PStr c)) App.float_0_3 300 = Raised e ->
      exists tr,
        App.ask_question g request [] =
        (Returned
           {| App.status := 200;
              App.json :=
                PDict [ ("answer",
                         PStr ("Error communicating with Azure AI Project: " ++ exn_str e));
                        ("success", PBool true) ] |},
         tr)).
Proof.
  split.
  - intros R B bedrock ev ctx d c q e Hclient Hmethod Hbody (Hc & Hcne & Hq & Hqne) He.
    rewrite (handler_enters_try bedrock Hclient ev ctx Hmethod).
    unfold try_except. rewrite (try_block_validates bedrock ev d _ Hbody).
    cbv zeta. rewrite Hc, Hq.
    rewrite (nonempty_truthy c Hcne), (nonempty_truthy q Hqne).
    change (negb true || negb true) with false. cbv beta iota.
    rewrite (invoke_and_unwrap_failure bedrock (PStr c) (PStr q) e _ He).
    rewrite except_block_run. eexists _, _. repeat split.
  - intros R g client chat request d c q e Hclient Hchat Hjson Hwf He.
    eexists.
    apply (ask_question_answers g request d Hjson c q _ [] _ Hwf).
    apply (chat_failure g client chat Hclient Hchat (PStr q) (PStr c) e [] He).
Qed.

Lemma inference_failure_reported_witness :
  (exists r tr,
      @LambdaFunction.lambda_handler Ref.runtime
        (Sample.boto3_giving (Sample.bedrock_failing Sample.throttled))
        (Sample.post_event (Sample.ask (PStr Sample.gym_context)
                                       (PStr Sample.gym_question))) PNone []
      = (Returned r, tr) /\
      LambdaFunction.statusCode r = 500 /\
      LambdaFunction.body r = Ref.dumps (PDict [("error", PStr "Too many requests")]))
  /\
  (exists tr,
      @App.ask_question Ref.runtime
        (Sample.project_with (Sample.chat_failing Sample.throttled))
        (Sample.json_request (Sample.ask (PStr Sample.gym_context)
                                         (PStr Sample.gym_question))) [] =
      (Returned
         {| App.status := 200;
            App.json :=
              PDict [ ("answer",
                       PStr ("Error communicating with Azure AI Project: "
                             ++ "Too many requests"));
                      ("success", PBool true) ] |},
       tr)).
Proof.
  split.
  - apply (proj1 inference_failure_reported Ref.runtime
             (Sample.boto3_giving (Sample.bedrock_failing Sample.throttled))
             (Sample.bedrock_failing Sample.throttled)
             [("httpMethod", PStr "POST");
              ("body", PStr (Ref.dumps (Sample.ask (PStr Sample.gym_context)
                                                   (PStr Sample.gym_question))))]
             PNone
             [("context", PStr Sample.gym_context);
              ("question", PStr Sample.gym_question)]
             Sample.gym_context Sample.gym_question Sample.throttled).
    + reflexivity.
    + discriminate.
    + vm_compute. reflexivity.
    + repeat split; discriminate.
    + reflexivity.
  - apply (proj2 inference_failure_reported Ref.runtime
             (Sample.project_with (Sample.chat_failing Sample.throttled))
             {| App.get_chat_completions_client :=
                  Returned (Sample.chat_failing Sample.throttled) |}
             (Sample.chat_failing Sample.throttled)
             (Sample.json_request (Sample.ask (PStr Sample.gym_context)
                                              (PStr Sample.gym_question)))
             [("context", PStr Sample.gym_context);
              ("question", PStr Sample.gym_question)]
             Sample.gym_context Sample.gym_question Sample.throttled).
    + reflexivity.
    + reflexivity.
    + reflexivity.
    + repeat split; discriminate.
    + reflexivity.
Defined.

(** C3, as stated, fails in the process variant: the generated text is
    returned as it is, surrounding whitespace included. *)
Lemma process_variant_answer_not_trimmed :
  @App.ask_question Ref.runtime (Sample.project_with (Sample.chat_replying " 6am "))
    (Sample.json_request (Sample.ask (PStr Sample.gym_context)
                                     (PStr Sample.gym_question))) []
  = (Returned {| App.status := 200;
                 App.json := PDict [("answer", PStr " 6am "); ("success", PBool true)] |},
     [ App.GetChatCompletionsClient;
       App.Complete (PStr "phi-4")
                    (@App.chat_messages Ref.runtime (PStr Sample.gym_question)
                                        (PStr Sample.gym_context))
                    App.float_0_3 300 ])
  /\ strip " 6am " = "6am"
  /\ PStr " 6am " <> PStr (strip " 6am ").
Proof.
  split; [vm_compute; reflexivity |]. split; [reflexivity | discriminate].
Qed.

(** C3, amended.  For a well-formed request and a model that generates
    the text [g]: the function variant answers 200 with [answer] equal to
    [g] with surrounding whitespace trimmed; the process variant answers
    200 with [answer] equal to [g] as generated, and [success] true. *)
Theorem answer_is_generated_text :
  (forall (R : PyRuntime) (B : LambdaFunction.Boto3)
          (bedrock : LambdaFunction.BedrockRuntime)
          (ev : list (string * pyval)) (ctx : pyval)
          (d : list (string * pyval)) (c q : string) (response : pyval) (g : string),
      LambdaFunction.boto3_client "bedrock-runtime" = Returned bedrock ->
      dict_get ev "httpMethod" <> Some (PStr "OPTIONS") ->
      LambdaFunction.decode (LambdaFunction.body_of_event ev) = Returned (PDict d) ->
      well_formed d c q ->
      LambdaFunction.invoke_model bedrock
        (json_dumps_text (LambdaFunction.bedrock_request (PStr c) (PStr q)))
        LambdaFunction.model_id "application/json" "application/json"
      = Returned response ->
      LambdaFunction.generates response g ->
      exists r tr,
        LambdaFunction.lambda_handler (PDict ev) ctx [] = (Returned r, tr) /\
        LambdaFunction.statusCode r = 200 /\
        LambdaFunction.body r = json_dumps_text (PDict [("answer", PStr (strip g))]))
  /\
  (forall (R : PyRuntime) (g : App.Globals) (client : App.AIProjectClient)
          (chat : App.ChatCompletionsClient) (request : App.Request)
          (d : list (string * pyval)) (c q : string)
          (text : string) (others : list App.ChatChoice),
      App.project_client g = Some client ->
      App.get_chat_completions_client client = Returned chat ->
      App.get_json request = Returned (PDict d) ->
      well_formed d c q ->
      App.complete chat (App.phi4_deployment g)
                   (App.chat_messages (PStr q) (PStr c)) App.float_0_3 300
      = Returned {| App.choices := {| App.message_content := Some text |} :: others |} ->
      exists tr,
        App.ask_question g request [] =
        (Returned {| App.status := 200;
                     App.json := PDict [("answer", PStr text); ("success", PBool true)] |},
         tr)).
Proof.
  split.
  - intros R B bedrock ev ctx d c q response g Hclient Hmethod Hbody
           (Hc & Hcne & Hq & Hqne) Hresp Hgen.
    rewrite (handler_enters_try bedrock Hclient ev ctx Hmethod).
    unfold try_except. rewrite (try_block_validates bedrock ev d _ Hbody).
    cbv zeta. rewrite Hc, Hq.
    rewrite (nonempty_truthy c Hcne), (nonempty_truthy q Hqne).
    change (negb true || negb true) with false. cbv beta iota.
    destruct (invoke_and_unwrap_success bedrock (PStr c) (PStr q) response g
                ([LambdaFunction.Boto3Client "bedrock-runtime"]
                   ++ [LambdaFunction.JsonLoads (LambdaFunction.body_of_event ev)])%list
                Hresp Hgen) as (payload & ->).
    eexists _, _. repeat split.
  - intros R g client chat request d c q text others Hclient Hchat Hjson Hwf Hresp.
    eexists.
    apply (ask_question_answers g request d Hjson c q _ [] _ Hwf).
    apply (chat_success g client chat Hclient Hchat (PStr q) (PStr c) text others [] Hresp).
Qed.

Lemma answer_is_generated_text_witness :
  (exists r tr,
      @LambdaFunction.lambda_handler Ref.runtime
        (Sample.boto3_giving (Sample.bedrock_replying " 6am "))
        (Sample.post_event (Sample.ask (PStr Sample.gym_context)
                                       (PStr Sample.gym_question))) PNone []
      = (Returned r, tr) /\
      LambdaFunction.statusCode r = 200 /\
      LambdaFunction.body r = Ref.dumps (PDict [("answer", PStr (strip " 6am "))]))
  /\
  (exists tr,
      @App.ask_question Ref.runtime (Sample.project_with (Sample.chat_replying " 6am "))
        (Sample.json_request (Sample.ask (PStr Sample.gym_context)
                                         (PStr Sample.gym_question))) [] =
      (Returned {| App.status := 200;
                   App.json := PDict [("answer", PStr " 6am "); ("success", PBool true)] |},
       tr)).
Proof.
  split.
  - apply (proj1 answer_is_generated_text Ref.runtime
             (Sample.boto3_giving (Sample.bedrock_replying " 6am "))
             (Sample.bedrock_replying " 6am ")
             [("httpMethod", PStr "POST");
              ("body", PStr (Ref.dumps (Sample.ask (PStr Sample.gym_context)
                                                   (PStr Sample.gym_question))))]
             PNone
             [("context", PStr Sample.gym_context);
              ("question", PStr Sample.gym_question)]
             Sample.gym_context Sample.gym_question
             (Sample.titan_reply " 6am ") " 6am ").
    + reflexivity.
    + discriminate.
    + vm_compute. reflexivity.
    + repeat split; discriminate.
    + reflexivity.
    + unfold LambdaFunction.generates, Sample.titan_reply.
      eexists _, _, [("inputTextTokenCount", PInt 42);
                     ("results", PList [PDict [("outputText", PStr " 6am ")]])],
              [("outputText", PStr " 6am ")], [].
      split; [reflexivity |]. split; [reflexivity |].
      split; [vm_compute; reflexivity |]. split; reflexivity.
  - apply (proj2 answer_is_generated_text Ref.runtime
             (Sample.project_with (Sample.chat_replying " 6am "))
             {| App.get_chat_completions_client :=
                  Returned (Sample.chat_replying " 6am ") |}
             (Sample.chat_replying " 6am ")
             (Sample.json_request (Sample.ask (PStr Sample.gym_context)
                                              (PStr Sample.gym_question)))
             [("context", PStr Sample.gym_context);
              ("question", PStr Sample.gym_question)]
             Sample.gym_context Sample.gym_question " 6am " []).
    + reflexivity.
    + reflexivity.
    + reflexivity.
    + repeat split; discriminate.
    + reflexivity.
Defined.

(** C4, as stated, fails: with no client the gateway returns an ordinary
    string, and the adapter sends it as the [answer] of a 200 response. *)
Lemma uninitialized_client_is_200 :
  @App.chat_with_phi4_rag Ref.runtime App.initial_globals
    (PStr Sample.gym_question) (PStr Sample.gym_context) []
  = (Returned (PStr "Error: Azure AI Project client not initialized"), [])
  /\ @App.ask_question Ref.runtime App.initial_globals
       (Sample.json_request (Sample.ask (PStr Sample.gym_context)
                                        (PStr Sample.gym_question))) []
     = (Returned
          {| App.status := 200;
             App.json :=
               PDict [ ("answer", PStr "Error: Azure AI Project client not initialized");
                       ("success", PBool true) ] |},
        [])
  /\ ~ (exists e tr,
          @App.chat_with_phi4_rag Ref.runtime App.initial_globals
            (PStr Sample.gym_question) (PStr Sample.gym_context) [] = (Raised e, tr))
  /\ ~ (exists r tr,
          @App.ask_question Ref.runtime App.initial_globals
            (Sample.json_request (Sample.ask (PStr Sample.gym_context)
                                             (PStr Sample.gym_question))) []
          = (Returned r, tr)
          /\ App.status r = 500).
Proof.
  split; [reflexivity |]. split; [reflexivity |]. split.
  - intros (e & tr & Heq). discriminate Heq.
  - intros (r & tr & Heq & Hstatus). inversion Heq; subst r. discriminate Hstatus.
Qed.

(** C4, amended.  Called while the client is uninitialized, the gateway
    makes no call and returns the string
    "Error: Azure AI Project client not initialized" as an ordinary value;
    for a well-formed request the adapter answers 200 with that string as
    [answer] and [success] true. *)
Theorem uninitialized_client_reported_as_answer :
  forall (R : PyRuntime) (g : App.Globals),
    App.project_client g = None ->
    (forall (user_question retrieved_doc : pyval) (tr : list App.call),
        App.chat_with_phi4_rag g user_question retrieved_doc tr
        = (Returned (PStr "Error: Azure AI Project client not initialized"), tr))
    /\
    (forall (request : App.Request) (d : list (string * pyval)) (c q : string),
        App.get_json request = Returned (PDict d) ->
        well_formed d c q ->
        App.ask_question g request [] =
        (Returned
           {| App.status := 200;
              App.json :=
                PDict [ ("answer", PStr "Error: Azure AI Project client not initialized");
                        ("success", PBool true) ] |},
         [])).
Proof.
  intros R g Hnone. split.
  - intros uq doc tr. apply (chat_uninitialized g uq doc tr Hnone).
  - intros request d c q Hjson Hwf.
    apply (ask_question_answers g request d Hjson c q _ [] [] Hwf).
    apply (chat_uninitialized g (PStr q) (PStr c) [] Hnone).
Qed.

Lemma uninitialized_client_reported_as_answer_witness :
  @App.chat_with_phi4_rag Ref.runtime App.initial_globals
    (PStr Sample.gym_question) (PStr Sample.gym_context) []
  = (Returned (PStr "Error: Azure AI Project client not initialized"), [])
  /\
  @App.ask_question Ref.runtime App.initial_globals
    (Sample.json_request (Sample.ask (PStr Sample.gym_context)
                                     (PStr Sample.gym_question))) []
  = (Returned
       {| App.status := 200;
          App.json :=
            PDict [ ("answer", PStr "Error: Azure AI Project client not initialized");
                    ("success", PBool true) ] |},
     []).
Proof.
  split.
  - apply (proj1 (uninitialized_client_reported_as_answer Ref.runtime
                    App.initial_globals eq_refl)).
  - apply (proj2 (uninitialized_client_reported_as_answer Ref.runtime
                    App.initial_globals eq_refl)
                 (Sample.json_request (Sample.ask (PStr Sample.gym_context)
                                                  (PStr Sample.gym_question)))
                 [("context", PStr Sample.gym_context);
                  ("question", PStr Sample.gym_question)]
                 Sample.gym_context Sample.gym_question).
    + reflexivity.
    + repeat split; discriminate.
Defined.

(** C8, as stated, fails: an upload whose bytes the PDF reader refuses is
    answered with a 200 whose [text] field holds the error text. *)
Lemma parsing_failure_is_200 :
  @App.upload_pdf (Sample.pdf_failing Sample.not_a_pdf)
    (Sample.upload "report.pdf" "not a pdf") []
  = (Returned
       {| App.status := 200;
          App.json :=
            PDict [ ("success", PBool true);
                    ("text", PStr "Error extracting text: EOF marker not found") ] |},
     [ App.FileRead "report.pdf"; App.PdfReaderOpen "not a pdf" ])
  /\ @App.PdfReader (Sample.pdf_failing Sample.not_a_pdf) "not a pdf"
     = Raised Sample.not_a_pdf
  /\ ~ (exists r tr,
          @App.upload_pdf (Sample.pdf_failing Sample.not_a_pdf)
            (Sample.upload "report.pdf" "not a pdf") [] = (Returned r, tr)
          /\ App.status r = 500).
Proof.
  split; [vm_compute; reflexivity |]. split; [reflexivity |].
  intros (r & tr & Heq & Hstatus).
  vm_compute in Heq. inversion Heq; subst r. discriminate Hstatus.
Qed.

(** C8, amended.  For an upload of an allowed file whose parsing fails
    with [e] (the reader raises, or a page does while its text is
    extracted), the response is a 200 whose body has [success] true and
    [text] equal to "Error extracting text: " followed by [str(e)]. *)
Theorem parsing_failure_returned_as_text :
  forall (P : App.PyPDF2) (request : App.Request) (file : App.FileStorage)
         (data : string) (e : exn),
    dict_get (App.files request) "file" = Some file ->
    App.filename file <> EmptyString ->
    App.allowed_file (App.filename file) = true ->
    App.read file = Returned data ->
    App.parsing_fails data e ->
    exists tr,
      App.upload_pdf request [] =
      (Returned
         {| App.status := 200;
            App.json :=
              PDict [ ("success", PBool true);
                      ("text", PStr ("Error extracting text: " ++ exn_str e)) ] |},
       tr).
Proof.
  intros P request file data e Hfile Hname Hallowed Hread Hfail.
  exact (upload_pdf_parsing_fails request file data e [] Hfile Hname Hallowed Hread Hfail).
Qed.

Lemma parsing_failure_returned_as_text_witness :
  exists tr,
    @App.upload_pdf
      (Sample.pdf_with [ {| App.extract_text := Returned "Opening hours" |};
                         {| App.extract_text := Raised Sample.not_a_pdf |} ])
      (Sample.upload "Report.PDF" "%PDF-1.4") [] =
    (Returned
       {| App.status := 200;
          App.json :=
            PDict [ ("success", PBool true);
                    ("text", PStr ("Error extracting text: " ++ "EOF marker not found")) ] |},
     tr).
Proof.
  apply (parsing_failure_returned_as_text
           (Sample.pdf_with [ {| App.extract_text := Returned "Opening hours" |};
                              {| App.extract_text := Raised Sample.not_a_pdf |} ])
           (Sample.upload "Report.PDF" "%PDF-1.4")
           {| App.filename := "Report.PDF"; App.read := Returned "%PDF-1.4" |}
           "%PDF-1.4" Sample.not_a_pdf).
  - reflexivity.
  - discriminate.
  - reflexivity.
  - reflexivity.
  - right.
    exists [ {| App.extract_text := Returned "Opening hours" |} ],
           {| App.extract_text := Raised Sample.not_a_pdf |}, [].
    split; [reflexivity |]. split; [| reflexivity].
    constructor; [now exists "Opening hours" | constructor].
Defined.

(* ===================================================================== *)
(** * Further properties of the two files *)
(* ===================================================================== *)

(** ** Which file names are accepted *)

Lemma after_last_dot_none (s : string) :
  App.after_last_dot s = None <-> no_dot s = true.
Proof.
  induction s as [| c s IH]; simpl.
  - tauto.
  - destruct (App.after_last_dot s) as [ext |].
    + split; [discriminate |]. intros H. apply andb_true_iff in H as [_ H].
      apply IH in H. discriminate.
    + destruct (Ascii.eqb c "."); simpl.
      * split; discriminate.
      * split; [intros _; now apply IH | reflexivity].
Qed.

Lemma after_last_dot_spec (s ext : string) :
  App.after_last_dot s = Some ext <->
  exists base, s = base ++ "." ++ ext /\ no_dot ext = true.
Proof.
  split.
  - revert ext. induction s as [| c s IH]; simpl; intros ext H; [discriminate |].
    destruct (App.after_last_dot s) as [ext' |] eqn:E.
    + inversion H; subst ext'. destruct (IH ext eq_refl) as (base & -> & Hd).
      now exists (String c base).
    + destruct (Ascii.eqb_spec c "."); [| discriminate].
      inversion H; subst. exists EmptyString. split; [reflexivity |].
      now apply after_last_dot_none.
  - intros (base & -> & Hd). induction base as [| c base IH]; simpl.
    + now rewrite (proj2 (after_last_dot_none ext) Hd).
    + simpl in IH. now rewrite IH.
Qed.

Lemma lower_char_p (c : ascii) :
  App.lower_char c = "p"%char <-> c = "p"%char \/ c = "P"%char.
Proof.
  split.
  - destruct c as [[] [] [] [] [] [] [] []]; vm_compute; intros H;
      first [discriminate H | now left | now right].
  - intros [-> | ->]; reflexivity.
Qed.

Lemma lower_char_d (c : ascii) :
  App.lower_char c = "d"%char <-> c = "d"%char \/ c = "D"%char.
Proof.
  split.
  - destruct c as [[] [] [] [] [] [] [] []]; vm_compute; intros H;
      first [discriminate H | now left | now right].
  - intros [-> | ->]; reflexivity.
Qed.

Lemma lower_char_f (c : ascii) :
  App.lower_char c = "f"%char <-> c = "f"%char \/ c = "F"%char.
Proof.
  split.
  - destruct c as [[] [] [] [] [] [] [] []]; vm_compute; intros H;
      first [discriminate H | now left | now right].
  - intros [-> | ->]; reflexivity.
Qed.

Lemma lower_is_pdf (ext : string) : App.lower ext = "pdf" <-> pdf_letters ext.
Proof.
  split.
  - destruct ext as [| c1 [| c2 [| c3 [| c4 rest]]]]; simpl; try discriminate.
    intros H. injection H as H1 H2 H3.
    exists c1, c2, c3. split; [reflexivity |].
    now rewrite <- lower_char_p, <- lower_char_d, <- lower_char_f.
  - intros (c1 & c2 & c3 & -> & H1 & H2 & H3). simpl.
    apply lower_char_p in H1. apply lower_char_d in H2. apply lower_char_f in H3.
    now rewrite H1, H2, H3.
Qed.

Lemma pdf_letters_no_dot (ext : string) : pdf_letters ext -> no_dot ext = true.
Proof.
  intros (c1 & c2 & c3 & -> & [-> | ->] & [-> | ->] & [-> | ->]); reflexivity.
Qed.

(** X1.  [allowed_file] accepts exactly the names in which the last dot
    is followed by the three letters [pdf], each in either case: a name
    without a dot, or with anything else after its last dot, is refused. *)
Theorem allowed_file_iff (name : string) :
  App.allowed_file name = true <->
  exists base ext, name = base ++ "." ++ ext /\ pdf_letters ext.
Proof.
  unfold App.allowed_file. split.
  - destruct (App.after_last_dot name) as [ext |] eqn:E; [| discriminate].
    intros H. apply String.eqb_eq in H.
    apply after_last_dot_spec in E as (base & -> & _).
    exists base, ext. split; [reflexivity | now apply lower_is_pdf].
  - intros (base & ext & -> & Hext).
    rewrite (proj2 (after_last_dot_spec (base ++ "." ++ ext) ext)).
    + apply String.eqb_eq. now apply lower_is_pdf.
    + exists base. split; [reflexivity | now apply pdf_letters_no_dot].
Qed.

Lemma allowed_file_iff_witness :
  App.allowed_file "scans/2024.report.PdF" = true.
Proof.
  apply (proj2 (allowed_file_iff "scans/2024.report.PdF")).
  exists "scans/2024.report", "PdF". split; [reflexivity |].
  exists "P"%char, "d"%char, "F"%char. repeat split; auto.
Defined.
(** ** Further rules: what a step yields, counting calls, uniformity *)

Lemma post_bind_lift {E A B} (o : outcome A) (k : A -> M E B) (P : B -> Prop) :
  (forall a, o = Returned a -> post (k a) P) -> post (bind (lift o) k) P.
Proof.
  intros Hk. apply post_bind with (Q := fun a => o = Returned a).
  - apply post_lift. auto.
  - exact Hk.
Qed.

Lemma post_bind_extern {E A B} (ev : E) (o : outcome A) (k : A -> M E B)
  (P : B -> Prop) :
  (forall a, o = Returned a -> post (k a) P) -> post (bind (extern ev o) k) P.
Proof.
  intros Hk. apply post_bind with (Q := fun a => o = Returned a).
  - apply post_extern. auto.
  - exact Hk.
Qed.

Lemma count_calls_app {E} (f : E -> bool) (a b : list E) :
  count_calls f (a ++ b) = (count_calls f a + count_calls f b)%nat.
Proof. unfold count_calls. now rewrite filter_app, length_app. Qed.

Section CountRules.
Context {E A B : Type} (f : E -> bool).

Lemma at_most_ret (a : A) : adds_at_most f 0 (ret a).
Proof. intros tr. exists []. simpl. rewrite app_nil_r. auto. Qed.

Lemma at_most_lift (o : outcome A) : adds_at_most f 0 (lift o).
Proof. intros tr. exists []. simpl. rewrite app_nil_r. auto. Qed.

Lemma at_most_extern (ev : E) (o : outcome A) :
  adds_at_most f (if f ev then 1 else 0) (extern ev o).
Proof.
  intros tr. exists [ev]. split; [reflexivity |].
  unfold count_calls. simpl. destruct (f ev); simpl; lia.
Qed.

Lemma at_most_bind (n1 n2 : nat) (m : M E A) (k : A -> M E B) :
  adds_at_most f n1 m -> (forall a, adds_at_most f n2 (k a)) ->
  adds_at_most f (n1 + n2) (bind m k).
Proof.
  intros Hm Hk tr. unfold bind.
  destruct (Hm tr) as (more1 & H1 & C1).
  destruct (m tr) as [[a | e] tr1]; simpl in H1; subst tr1.
  - destruct (Hk a (tr ++ more1)%list) as (more2 & H2 & C2).
    exists (more1 ++ more2)%list. rewrite H2, app_assoc, count_calls_app.
    split; [reflexivity | lia].
  - exists more1. split; [reflexivity | lia].
Qed.

Lemma at_most_try_except (n1 n2 : nat) (m : M E A) (h : exn -> M E A) :
  adds_at_most f n1 m -> (forall e, adds_at_most f n2 (h e)) ->
  adds_at_most f (n1 + n2) (try_except m h).
Proof.
  intros Hm Hh tr. unfold try_except.
  destruct (Hm tr) as (more1 & H1 & C1).
  destruct (m tr) as [[a | e] tr1]; simpl in H1; subst tr1.
  - exists more1. split; [reflexivity | lia].
  - destruct (Hh e (tr ++ more1)%list) as (more2 & H2 & C2).
    exists (more1 ++ more2)%list. rewrite H2, app_assoc, count_calls_app.
    split; [reflexivity | lia].
Qed.

Lemma at_most_weaken (n n' : nat) (m : M E A) :
  (n <= n')%nat -> adds_at_most f n m -> adds_at_most f n' m.
Proof.
  intros Hn Hm tr. destruct (Hm tr) as (more & H & C).
  exists more. split; [exact H | lia].
Qed.

Lemma uniform_ret (a : A) : uniform (E:=E) (ret a).
Proof. intros tr. simpl. unfold ret. now rewrite app_nil_r. Qed.

Lemma uniform_lift (o : outcome A) : uniform (E:=E) (lift o).
Proof. intros tr. unfold lift. simpl. now rewrite app_nil_r. Qed.

Lemma uniform_extern (ev : E) (o : outcome A) : uniform (extern ev o).
Proof. intros tr. reflexivity. Qed.

Lemma uniform_bind (m : M E A) (k : A -> M E B) :
  uniform m -> (forall a, uniform (k a)) -> uniform (bind m k).
Proof.
  intros Hm Hk tr. unfold bind. rewrite (Hm tr).
  destruct (m []) as [[a | e] more]; simpl.
  - rewrite (Hk a (tr ++ more)%list), (Hk a more). simpl.
    now rewrite app_assoc.
  - reflexivity.
Qed.

Lemma uniform_try_except (m : M E A) (h : exn -> M E A) :
  uniform m -> (forall e, uniform (h e)) -> uniform (try_except m h).
Proof.
  intros Hm Hh tr. unfold try_except. rewrite (Hm tr).
  destruct (m []) as [[a | e] more]; simpl.
  - reflexivity.
  - rewrite (Hh e (tr ++ more)%list), (Hh e more). simpl.
    now rewrite app_assoc.
Qed.
End CountRules.

Ltac uniform_steps :=
  repeat first
    [ apply uniform_ret | apply uniform_lift | apply uniform_extern
    | apply uniform_bind; [| intros ?]
    | apply uniform_try_except; [| intros ?]
    | match goal with
      | |- uniform (if ?b then _ else _) => destruct b
      | |- uniform (match ?x with _ => _ end) => destruct x
      end ].

Lemma invoke_and_unwrap_uniform `{PyRuntime} bedrock (c q : pyval) :
  uniform (LambdaFunction.invoke_and_unwrap bedrock c q).
Proof. unfold LambdaFunction.invoke_and_unwrap, LambdaFunction.json_loads. uniform_steps. Qed.

Lemma chat_uniform `{PyRuntime} g (q c : pyval) :
  uniform (App.chat_with_phi4_rag g q c).
Proof. unfold App.chat_with_phi4_rag. uniform_steps. Qed.

(** ** The function variant: calls, failures, and what a 200 means *)

Section LambdaMore.
Import LambdaFunction.
Context {R : PyRuntime} {B : Boto3}.

Lemma invoke_and_unwrap_at_most (bedrock : BedrockRuntime) (c q : pyval) :
  adds_at_most is_inference 1 (invoke_and_unwrap bedrock c q).
Proof.
  unfold invoke_and_unwrap, json_loads.
  apply (at_most_bind is_inference 0 1); [apply at_most_lift | intros bedrock_body].
  apply (at_most_bind is_inference 1 0); [apply (at_most_extern is_inference) | intros response].
  repeat first [ apply at_most_ret
               | apply (at_most_bind is_inference 0 0);
                 [first [apply at_most_lift | apply (at_most_extern is_inference)]
                 | intros ?] ].
Qed.

Lemma lambda_handler_at_most (event ctx : pyval) :
  adds_at_most is_inference 1 (lambda_handler event ctx).
Proof.
  unfold lambda_handler.
  apply (at_most_bind is_inference 0 1);
    [apply (at_most_extern is_inference) | intros bedrock].
  apply (at_most_bind is_inference 0 1); [apply at_most_lift | intros method].
  destruct (py_eq_str method "OPTIONS").
  - apply (at_most_weaken is_inference 0 1); [lia | apply at_most_ret].
  - apply (at_most_try_except is_inference 1 0).
    + unfold try_block, json_loads.
      apply (at_most_bind is_inference 0 1); [apply at_most_lift | intros raw].
      apply (at_most_bind is_inference 0 1);
        [apply (at_most_extern is_inference) | intros body].
      apply (at_most_bind is_inference 0 1); [apply at_most_lift | intros pdf_text].
      apply (at_most_bind is_inference 0 1); [apply at_most_lift | intros question].
      destruct (negb _ || negb _).
      * apply (at_most_weaken is_inference 0 1); [lia |].
        apply (at_most_bind is_inference 0 0); [apply at_most_lift | intros out].
        apply at_most_ret.
      * apply invoke_and_unwrap_at_most.
    + intros e. unfold except_block.
      apply (at_most_bind is_inference 0 0); [apply at_most_lift | intros out].
      apply at_most_ret.
Qed.

(** What a returned response of [invoke_and_unwrap] tells. *)
Lemma invoke_and_unwrap_post (bedrock : BedrockRuntime) (c q : pyval) :
  post (invoke_and_unwrap bedrock c q)
       (fun r =>
          exists response g,
            invoke_model bedrock (json_dumps_text (bedrock_request c q))
                         model_id "application/json" "application/json"
            = Returned response /\
            generates response g /\
            r = {| statusCode := 200; headers := json_headers;
                   body := json_dumps_text (PDict [("answer", PStr (strip g))]) |}).
Proof.
  unfold invoke_and_unwrap, json_loads.
  apply post_bind_lift. intros bedrock_body Hbody.
  apply json_dumps_returns in Hbody. subst bedrock_body.
  apply post_bind_extern. intros response Hresponse.
  apply post_bind_lift. intros stream Hstream.
  apply post_bind_lift. intros payload Hpayload.
  apply post_bind_extern. intros response_body Hdecode.
  apply post_bind_lift. intros results Hresults.
  apply post_bind_lift. intros first Hfirst.
  apply post_bind_lift. intros answer Hanswer.
  apply post_bind_lift. intros stripped Hstripped.
  apply post_bind_lift. intros out Hout.
  apply post_ret.
  destruct response as [| | | | | | | resp |]; try discriminate Hstream.
  simpl in Hstream. inversion Hstream as [Hs]; clear Hstream.
  destruct stream as [| | | | | | | | data]; try discriminate Hpayload.
  simpl in Hpayload. inversion Hpayload; subst payload; clear Hpayload.
  simpl in Hdecode.
  destruct response_body as [| | | | | | | rb |]; try discriminate Hresults.
  simpl in Hresults. inversion Hresults as [Hr]; clear Hresults.
  destruct first as [| | | | | | | fields |]; try discriminate Hanswer.
  simpl in Hanswer. inversion Hanswer as [Ha]; clear Hanswer.
  destruct results as [| | | | s | s | l | |]; try discriminate Hfirst.
  { destruct s; discriminate Hfirst. }
  { destruct s; discriminate Hfirst. }
  destruct l as [| x others]; [discriminate Hfirst |].
  simpl in Hfirst. inversion Hfirst; subst x; clear Hfirst.
  destruct answer as [| | | | g | g | | |]; try discriminate Hstripped;
    simpl in Hstripped; inversion Hstripped; subst stripped; clear Hstripped.
  2: { discriminate Hout. }
  apply json_dumps_returns in Hout. subst out.
  exists (PDict resp), g. split; [exact Hresponse |]. split; [| reflexivity].
  exists resp, data, rb, fields, others. split; [reflexivity |].
  split.
  { destruct (dict_get resp "body"); [now subst | discriminate Hs]. }
  split; [exact Hdecode |]. split.
  { destruct (dict_get rb "results"); [now subst | discriminate Hr]. }
  destruct (dict_get fields "outputText"); [now subst | discriminate Ha].
Qed.

(** What a returned response of the [try] block tells. *)
Lemma try_block_post_cases (bedrock : BedrockRuntime) (ev : list (string * pyval)) :
  post (try_block bedrock (PDict ev))
       (fun r =>
          exists d,
            decode (body_of_event ev) = Returned (PDict d) /\
            ((truthy (field d "context") && truthy (field d "question") = false /\
              r = {| statusCode := 400; headers := json_headers;
                     body := json_dumps_text
                               (PDict [("error", PStr "Missing context or question")]) |})
             \/
             (truthy (field d "context") && truthy (field d "question") = true /\
              exists response g,
                invoke_model bedrock
                  (json_dumps_text (bedrock_request (field d "context")
                                                    (field d "question")))
                  model_id "application/json" "application/json"
                = Returned response /\
                generates response g /\
                r = {| statusCode := 200; headers := json_headers;
                       body := json_dumps_text
                                 (PDict [("answer", PStr (strip g))]) |}))).
Proof.
  unfold try_block, json_loads.
  apply post_bind_lift. intros raw Hraw.
  simpl in Hraw. inversion Hraw; subst raw; clear Hraw.
  fold (body_of_event ev).
  apply post_bind_extern. intros body Hdecode.
  apply post_bind_lift. intros pdf_text Hc.
  apply post_bind_lift. intros question Hq.
  destruct body as [| | | | | | | d |]; try discriminate Hc.
  simpl in Hc, Hq. inversion Hc; subst pdf_text. inversion Hq; subst question.
  fold (field d "context"). fold (field d "question").
  destruct (truthy (field d "context")) eqn:Tc,
           (truthy (field d "question")) eqn:Tq; simpl.
  2-4: apply post_bind_dumps, post_ret; exists d; split; [exact Hdecode |];
       left; rewrite Tc, Tq; split; reflexivity.
  eapply post_weaken; [apply invoke_and_unwrap_post |].
  intros r (response & g & H1 & H2 & H3).
  exists d. split; [exact Hdecode |]. right. rewrite Tc, Tq. split; [reflexivity |].
  now exists response, g.
Qed.
End LambdaMore.

(** ** [strip] leaves nothing to strip *)

Section Strip.
Variable ws : ascii -> bool.

Lemma rstrip_idempotent (s : string) : rstrip ws (rstrip ws s) = rstrip ws s.
Proof.
  induction s as [| c s IH]; simpl; [reflexivity |].
  destruct (rstrip ws s) as [| c' kept] eqn:E.
  - destruct (ws c) eqn:Ec; simpl; [reflexivity | now rewrite Ec].
  - simpl. simpl in IH. now rewrite IH.
Qed.

Lemma lstrip_head (s : string) :
  match lstrip ws s with
  | EmptyString => True
  | String c _ => ws c = false
  end.
Proof.
  induction s as [| c s IH]; simpl; [exact I |].
  destruct (ws c) eqn:Ec; [exact IH | exact Ec].
Qed.

Lemma lstrip_rstrip_lstrip (s : string) :
  lstrip ws (rstrip ws (lstrip ws s)) = rstrip ws (lstrip ws s).
Proof.
  pose proof (lstrip_head s) as Hh.
  destruct (lstrip ws s) as [| c t]; [reflexivity |].
  simpl. destruct (rstrip ws t); rewrite ?Hh; simpl; now rewrite ?Hh.
Qed.
End Strip.

Lemma strip_trimmed (s : string) : trimmed (strip s).
Proof.
  unfold trimmed, strip. split.
  - apply lstrip_rstrip_lstrip.
  - apply rstrip_idempotent.
Qed.

Lemma trimmed_strip (s : string) : trimmed s -> strip s = s.
Proof. intros [Hl Hr]. unfold strip. now rewrite Hl, Hr. Qed.

(** ** Extras for the function variant *)

(** X2.  Whatever the event and whatever the collaborators do, one
    invocation of the handler calls [invoke_model] at most once: nothing
    is retried. *)
Theorem lambda_invokes_model_at_most_once :
  forall (R : PyRuntime) (B : LambdaFunction.Boto3) (event ctx : pyval),
    (count_calls LambdaFunction.is_inference
       (snd (LambdaFunction.lambda_handler event ctx [])) <= 1)%nat.
Proof.
  intros R B event ctx.
  destruct (lambda_handler_at_most event ctx []) as (more & Hmore & Hcount).
  now rewrite Hmore.
Qed.

(** X3.  Two exceptions leave the handler instead of becoming a 500:
    one raised by [boto3.client], for every event, the OPTIONS preflight
    included, since the client is made before anything else and outside
    the [try]; and the [AttributeError] of [event.get] when the event is
    not a dict. *)
Theorem lambda_unhandled_exceptions :
  (forall (R : PyRuntime) (B : LambdaFunction.Boto3) (event ctx : pyval) (e : exn),
      LambdaFunction.boto3_client "bedrock-runtime" = Raised e ->
      LambdaFunction.lambda_handler event ctx []
      = (Raised e, [LambdaFunction.Boto3Client "bedrock-runtime"]))
  /\
  (forall (R : PyRuntime) (B : LambdaFunction.Boto3)
          (bedrock : LambdaFunction.BedrockRuntime) (event ctx : pyval),
      LambdaFunction.boto3_client "bedrock-runtime" = Returned bedrock ->
      is_dict event = false ->
      LambdaFunction.lambda_handler event ctx []
      = (Raised (AttributeError event "get"),
         [LambdaFunction.Boto3Client "bedrock-runtime"])).
Proof.
  split.
  - intros R B event ctx e He.
    unfold LambdaFunction.lambda_handler, bind, extern. now rewrite He.
  - intros R B bedrock event ctx Hc Hd.
    unfold LambdaFunction.lambda_handler, bind, extern, lift. rewrite Hc.
    destruct event; try reflexivity. discriminate Hd.
Qed.

Lemma lambda_unhandled_exceptions_witness :
  @LambdaFunction.lambda_handler Ref.runtime
    {| LambdaFunction.boto3_client := fun _ =>
         Raised (Exn "NoRegionError" "You must specify a region.") |}
    (PDict [("httpMethod", PStr "OPTIONS")]) PNone []
  = (Raised (Exn "NoRegionError" "You must specify a region."),
     [LambdaFunction.Boto3Client "bedrock-runtime"])
  /\
  @LambdaFunction.lambda_handler Ref.runtime
    (Sample.boto3_giving (Sample.bedrock_replying "6am"))
    (PList [PStr "OPTIONS"]) PNone []
  = (Raised (Exn "AttributeError" "'list' object has no attribute 'get'"),
     [LambdaFunction.Boto3Client "bedrock-runtime"]).
Proof.
  split.
  - apply (proj1 lambda_unhandled_exceptions Ref.runtime
             {| LambdaFunction.boto3_client := fun _ =>
                  Raised (Exn "NoRegionError" "You must specify a region.") |}
             (PDict [("httpMethod", PStr "OPTIONS")]) PNone
             (Exn "NoRegionError" "You must specify a region.")).
    reflexivity.
  - apply (proj2 lambda_unhandled_exceptions Ref.runtime
             (Sample.boto3_giving (Sample.bedrock_replying "6am"))
             (Sample.bedrock_replying "6am") (PList [PStr "OPTIONS"]) PNone).
    + reflexivity.
    + reflexivity.
Defined.

Section LambdaGuarded.
Import LambdaFunction.
Context {R : PyRuntime} {B : Boto3}.
Variable bedrock : BedrockRuntime.
Hypothesis client_ok : boto3_client "bedrock-runtime" = Returned bedrock.

(** Past the preflight check: the response, case by case. *)
Lemma guarded_cases (ev : list (string * pyval)) (ctx : pyval)
  (r : Response) (tr : list call) :
  dict_get ev "httpMethod" <> Some (PStr "OPTIONS") ->
  lambda_handler (PDict ev) ctx [] = (Returned r, tr) ->
  (exists e, r = {| statusCode := 500; headers := json_headers;
                    body := json_dumps_text (PDict [("error", PStr (exn_str e))]) |})
  \/
  (exists d,
      decode (body_of_event ev) = Returned (PDict d) /\
      ((truthy (field d "context") && truthy (field d "question") = false /\
        r = {| statusCode := 400; headers := json_headers;
               body := json_dumps_text
                         (PDict [("error", PStr "Missing context or question")]) |})
       \/
       (truthy (field d "context") && truthy (field d "question") = true /\
        exists response g,
          invoke_model bedrock
            (json_dumps_text (bedrock_request (field d "context") (field d "question")))
            model_id "application/json" "application/json"
          = Returned response /\
          generates response g /\
          r = {| statusCode := 200; headers := json_headers;
                 body := json_dumps_text (PDict [("answer", PStr (strip g))]) |}))).
Proof.
  intros Hm Hrun.
  rewrite (handler_enters_try bedrock client_ok ev ctx Hm) in Hrun.
  unfold try_except in Hrun.
  destruct (try_block bedrock (PDict ev) _) as [[r' | e] tr'] eqn:Etry.
  - inversion Hrun; subst r' tr'. right.
    exact (try_block_post_cases bedrock ev _ _ _ Etry).
  - rewrite except_block_run in Hrun. inversion Hrun; subst. left. now exists e.
Qed.
End LambdaGuarded.

(** X4.  Apart from the preflight, a 200 is returned only when the body
    decoded to an object with a truthy [context] and [question], the model
    was invoked with the prompt built from them, and its response carried
    a text as first result; the body is then that text, trimmed, under
    [answer]. *)
Theorem lambda_200_only_from_generated_text :
  forall (R : PyRuntime) (B : LambdaFunction.Boto3)
         (bedrock : LambdaFunction.BedrockRuntime)
         (ev : list (string * pyval)) (ctx : pyval)
         (r : LambdaFunction.Response) (tr : list LambdaFunction.call),
    LambdaFunction.boto3_client "bedrock-runtime" = Returned bedrock ->
    dict_get ev "httpMethod" <> Some (PStr "OPTIONS") ->
    LambdaFunction.lambda_handler (PDict ev) ctx [] = (Returned r, tr) ->
    LambdaFunction.statusCode r = 200 ->
    exists d response g,
      LambdaFunction.decode (LambdaFunction.body_of_event ev) = Returned (PDict d) /\
      truthy (field d "context") = true /\
      truthy (field d "question") = true /\
      LambdaFunction.invoke_model bedrock
        (json_dumps_text (LambdaFunction.bedrock_request (field d "context")
                                                         (field d "question")))
        LambdaFunction.model_id "application/json" "application/json"
      = Returned response /\
      LambdaFunction.generates response g /\
      LambdaFunction.body r = json_dumps_text (PDict [("answer", PStr (strip g))]).
Proof.
  intros R B bedrock ev ctx r tr Hclient Hmethod Hrun Hstatus.
  destruct (guarded_cases bedrock Hclient ev ctx r tr Hmethod Hrun)
    as [(e & ->) | (d & Hd & [(_ & ->) | (Ht & response & g & Hinv & Hgen & ->)])];
    try discriminate Hstatus.
  apply andb_true_iff in Ht as [Hc Hq].
  now exists d, response, g.
Qed.

Lemma lambda_200_only_from_generated_text_witness :
  exists d response g,
    @LambdaFunction.decode Ref.runtime
      (LambdaFunction.body_of_event
         [("httpMethod", PStr "POST");
          ("body", PStr (Ref.dumps (Sample.ask (PInt 7) (PStr Sample.gym_question))))])
    = Returned (PDict d) /\
    truthy (field d "context") = true /\
    truthy (field d "question") = true /\
    LambdaFunction.invoke_model (Sample.bedrock_replying " 6am ")
      (Ref.dumps (@LambdaFunction.bedrock_request Ref.runtime (field d "context")
                                                  (field d "question")))
      LambdaFunction.model_id "application/json" "application/json"
    = Returned response /\
    @LambdaFunction.generates Ref.runtime response g /\
    Ref.dumps (PDict [("answer", PStr "6am")])
    = Ref.dumps (PDict [("answer", PStr (strip g))]).
Proof.
  apply (lambda_200_only_from_generated_text Ref.runtime
           (Sample.boto3_giving (Sample.bedrock_replying " 6am "))
           (Sample.bedrock_replying " 6am ")
           [("httpMethod", PStr "POST");
            ("body", PStr (Ref.dumps (Sample.ask (PInt 7) (PStr Sample.gym_question))))]
           PNone
           {| LambdaFunction.statusCode := 200;
              LambdaFunction.headers := LambdaFunction.json_headers;
              LambdaFunction.body := Ref.dumps (PDict [("answer", PStr "6am")]) |}
           [ LambdaFunction.Boto3Client "bedrock-runtime";
             LambdaFunction.JsonLoads
               (PStr (Ref.dumps (Sample.ask (PInt 7) (PStr Sample.gym_question))));
             LambdaFunction.InvokeModel
               (Ref.dumps (@LambdaFunction.bedrock_request Ref.runtime
                             (PInt 7) (PStr Sample.gym_question)))
               LambdaFunction.model_id "application/json" "application/json";
             LambdaFunction.JsonLoads
               (PBytes (Ref.dumps
                          (PDict [("inputTextTokenCount", PInt 42);
                                  ("results",
                                   PList [PDict [("outputText", PStr " 6am ")]])]))) ]).
  - reflexivity.
  - discriminate.
  - vm_compute. reflexivity.
  - reflexivity.
Defined.

(** X5.  Apart from the preflight, the [answer] of a 200 has no
    whitespace left at either end: stripping it again changes nothing. *)
Theorem lambda_answer_is_trimmed :
  forall (R : PyRuntime) (B : LambdaFunction.Boto3)
         (bedrock : LambdaFunction.BedrockRuntime)
         (ev : list (string * pyval)) (ctx : pyval)
         (r : LambdaFunction.Response) (tr : list LambdaFunction.call),
    LambdaFunction.boto3_client "bedrock-runtime" = Returned bedrock ->
    dict_get ev "httpMethod" <> Some (PStr "OPTIONS") ->
    LambdaFunction.lambda_handler (PDict ev) ctx [] = (Returned r, tr) ->
    LambdaFunction.statusCode r = 200 ->
    exists answer,
      LambdaFunction.body r = json_dumps_text (PDict [("answer", PStr answer)]) /\
      lstrip isspace answer = answer /\ rstrip isspace answer = answer /\
      strip answer = answer.
Proof.
  intros R B bedrock ev ctx r tr Hclient Hmethod Hrun Hstatus.
  destruct (guarded_cases bedrock Hclient ev ctx r tr Hmethod Hrun)
    as [(e & ->) | (d & Hd & [(_ & ->) | (Ht & response & g & Hinv & Hgen & ->)])];
    try discriminate Hstatus.
  exists (strip g). split; [reflexivity |].
  destruct (strip_trimmed g) as [Hl Hr].
  repeat split; [exact Hl | exact Hr | now apply trimmed_strip].
Qed.

Lemma lambda_answer_is_trimmed_witness :
  exists answer,
    Ref.dumps (PDict [("answer", PStr "6am")])
    = Ref.dumps (PDict [("answer", PStr answer)]) /\
    lstrip isspace answer = answer /\ rstrip isspace answer = answer /\
    strip answer = answer.
Proof.
  apply (lambda_answer_is_trimmed Ref.runtime
           (Sample.boto3_giving (Sample.bedrock_replying (nl ++ " 6am " ++ nl)))
           (Sample.bedrock_replying (nl ++ " 6am " ++ nl))
           [("httpMethod", PStr "POST");
            ("body", PStr (Ref.dumps (Sample.ask (PStr Sample.gym_context)
                                                 (PStr Sample.gym_question))))]
           PNone
           {| LambdaFunction.statusCode := 200;
              LambdaFunction.headers := LambdaFunction.json_headers;
              LambdaFunction.body := Ref.dumps (PDict [("answer", PStr "6am")]) |}
           [ LambdaFunction.Boto3Client "bedrock-runtime";
             LambdaFunction.JsonLoads
               (PStr (Ref.dumps (Sample.ask (PStr Sample.gym_context)
                                            (PStr Sample.gym_question))));
             LambdaFunction.InvokeModel
               (Ref.dumps (@LambdaFunction.bedrock_request Ref.runtime
                             (PStr Sample.gym_context) (PStr Sample.gym_question)))
               LambdaFunction.model_id "application/json" "application/json";
             LambdaFunction.JsonLoads
               (PBytes (Ref.dumps
                          (PDict [("inputTextTokenCount", PInt 42);
                                  ("results",
                                   PList [PDict [("outputText",
                                                  PStr (nl ++ " 6am " ++ nl))]])]))) ]).
  - reflexivity.
  - discriminate.
  - vm_compute. reflexivity.
  - reflexivity.
Defined.

(** X6.  A body that is valid JSON but not an object (a list, a string,
    a number, [null]) gives the 500 of the [except] block, with the text of
    the [AttributeError] raised by [body.get], and the model is not
    invoked. *)
Theorem lambda_non_object_body_500 :
  forall (R : PyRuntime) (B : LambdaFunction.Boto3)
         (bedrock : LambdaFunction.BedrockRuntime)
         (ev : list (string * pyval)) (ctx : pyval) (v : pyval),
    LambdaFunction.boto3_client "bedrock-runtime" = Returned bedrock ->
    dict_get ev "httpMethod" <> Some (PStr "OPTIONS") ->
    LambdaFunction.decode (LambdaFunction.body_of_event ev) = Returned v ->
    is_dict v = false ->
    LambdaFunction.lambda_handler (PDict ev) ctx [] =
    (Returned {| LambdaFunction.statusCode := 500;
                 LambdaFunction.headers := LambdaFunction.json_headers;
                 LambdaFunction.body :=
                   json_dumps_text
                     (PDict [("error",
                              PStr ("'" ++ type_name v
                                    ++ "' object has no attribute 'get'"))]) |},
     [ LambdaFunction.Boto3Client "bedrock-runtime";
       LambdaFunction.JsonLoads (LambdaFunction.body_of_event ev) ]).
Proof.
  intros R B bedrock ev ctx v Hclient Hmethod Hdecode Hv.
  rewrite (handler_enters_try bedrock Hclient ev ctx Hmethod).
  unfold try_except, LambdaFunction.try_block, bind, lift,
    LambdaFunction.json_loads, extern.
  simpl py_get. fold (LambdaFunction.body_of_event ev). cbv beta iota.
  rewrite Hdecode.
  destruct v; try discriminate Hv; reflexivity.
Qed.

Lemma lambda_non_object_body_500_witness :
  @LambdaFunction.lambda_handler Ref.runtime
    (Sample.boto3_giving (Sample.bedrock_replying "6am"))
    (PDict [("httpMethod", PStr "POST"); ("body", PStr "null")]) PNone [] =
  (Returned {| LambdaFunction.statusCode := 500;
               LambdaFunction.headers := LambdaFunction.json_headers;
               LambdaFunction.body :=
                 Ref.dumps
                   (PDict [("error",
                            PStr ("'" ++ type_name PNone
                                  ++ "' object has no attribute 'get'"))]) |},
   [ LambdaFunction.Boto3Client "bedrock-runtime";
     LambdaFunction.JsonLoads (PStr "null") ]).
Proof.
  apply (lambda_non_object_body_500 Ref.runtime
           (Sample.boto3_giving (Sample.bedrock_replying "6am"))
           (Sample.bedrock_replying "6am")
           [("httpMethod", PStr "POST"); ("body", PStr "null")] PNone PNone).
  - reflexivity.
  - discriminate.
  - vm_compute. reflexivity.
  - reflexivity.
Defined.

(** X7.  For a body that decodes to an object, the 400 is decided by
    truthiness alone: the status is 400 exactly when [context] or
    [question] is absent or falsy (the empty string, but also [0], [false],
    [null], an empty list or object); then the model is not invoked, and
    otherwise it is invoked exactly once. *)
Theorem lambda_rejects_exactly_the_falsy :
  forall (R : PyRuntime) (B : LambdaFunction.Boto3)
         (bedrock : LambdaFunction.BedrockRuntime)
         (ev : list (string * pyval)) (ctx : pyval) (d : list (string * pyval)),
    LambdaFunction.boto3_client "bedrock-runtime" = Returned bedrock ->
    dict_get ev "httpMethod" <> Some (PStr "OPTIONS") ->
    LambdaFunction.decode (LambdaFunction.body_of_event ev) = Returned (PDict d) ->
    exists r tr,
      LambdaFunction.lambda_handler (PDict ev) ctx [] = (Returned r, tr) /\
      (LambdaFunction.statusCode r = 400 <->
       truthy (field d "context") && truthy (field d "question") = false) /\
      (truthy (field d "context") && truthy (field d "question") = false ->
       existsb LambdaFunction.is_inference tr = false) /\
      (truthy (field d "context") && truthy (field d "question") = true ->
       count_calls LambdaFunction.is_inference tr = 1%nat).
Proof.
  intros R B bedrock ev ctx d Hclient Hmethod Hdecode.
  destruct (lambda_handler_total bedrock ev ctx Hclient []) as (r & tr & Hrun).
  exists r, tr. split; [exact Hrun |].
  pose proof Hrun as Hrun'.
  rewrite (handler_enters_try bedrock Hclient ev ctx Hmethod) in Hrun'.
  unfold try_except in Hrun'.
  rewrite (try_block_validates bedrock ev d _ Hdecode) in Hrun'.
  cbv zeta in Hrun'. fold (field d "context") (field d "question") in Hrun'.
  destruct (truthy (field d "context") && truthy (field d "question")) eqn:T.
  - assert (Hn : negb (truthy (field d "context")) || negb (truthy (field d "question"))
                 = false).
    { apply andb_true_iff in T as [-> ->]. reflexivity. }
    rewrite Hn in Hrun'.
    destruct (invoke_and_unwrap_calls bedrock (field d "context") (field d "question")
                ([LambdaFunction.Boto3Client "bedrock-runtime"]
                   ++ [LambdaFunction.JsonLoads (LambdaFunction.body_of_event ev)])%list)
      as (o & more & Hcalls).
    rewrite Hcalls in Hrun'.
    assert (Htr : tr = ([LambdaFunction.Boto3Client "bedrock-runtime";
                         LambdaFunction.JsonLoads (LambdaFunction.body_of_event ev)]
                          ++ LambdaFunction.InvokeModel
                               (json_dumps_text
                                  (LambdaFunction.bedrock_request (field d "context")
                                                                  (field d "question")))
                               LambdaFunction.model_id "application/json"
                               "application/json" :: more)%list).
    { destruct o; [| rewrite except_block_run in Hrun']; now inversion Hrun'. }
    assert (Hstatus : LambdaFunction.statusCode r <> 400).
    { destruct (guarded_cases bedrock Hclient ev ctx r tr Hmethod Hrun)
        as [(e & ->) | (d' & Hd' & [(Hf & ->) | (_ & response & g & _ & _ & ->)])];
        try discriminate.
      rewrite Hdecode in Hd'. inversion Hd'; subst d'. congruence. }
    split; [split; [contradiction | discriminate] |].
    split; [discriminate |]. intros _.
    pose proof (lambda_handler_at_most (PDict ev) ctx []) as (more' & Hmore' & Hle).
    rewrite Hrun in Hmore'. simpl in Hmore'. subst more'.
    rewrite Htr in Hle |- *. rewrite count_calls_app in Hle |- *.
    unfold count_calls in Hle |- *. simpl in Hle |- *. lia.
  - assert (Hn : negb (truthy (field d "context")) || negb (truthy (field d "question"))
                 = true).
    { apply andb_false_iff in T as [-> | ->]; [reflexivity | apply orb_true_r]. }
    rewrite Hn in Hrun'. inversion Hrun'; subst r tr.
    repeat split; auto; discriminate.
Qed.

Lemma lambda_rejects_exactly_the_falsy_witness :
  exists r tr,
    @LambdaFunction.lambda_handler Ref.runtime
      (Sample.boto3_giving (Sample.bedrock_replying "6am"))
      (Sample.post_event (Sample.ask (PList []) (PStr Sample.gym_question))) PNone []
    = (Returned r, tr) /\
    (LambdaFunction.statusCode r = 400 <->
     truthy (field [("context", PList []); ("question", PStr Sample.gym_question)]
                   "context")
     && truthy (field [("context", PList []); ("question", PStr Sample.gym_question)]
                      "question") = false) /\
    (truthy (field [("context", PList []); ("question", PStr Sample.gym_question)]
                   "context")
     && truthy (field [("context", PList []); ("question", PStr Sample.gym_question)]
                      "question") = false ->
     existsb LambdaFunction.is_inference tr = false) /\
    (truthy (field [("context", PList []); ("question", PStr Sample.gym_question)]
                   "context")
     && truthy (field [("context", PList []); ("question", PStr Sample.gym_question)]
                      "question") = true ->
     count_calls LambdaFunction.is_inference tr = 1%nat).
Proof.
  apply (lambda_rejects_exactly_the_falsy Ref.runtime
           (Sample.boto3_giving (Sample.bedrock_replying "6am"))
           (Sample.bedrock_replying "6am")
           [("httpMethod", PStr "POST");
            ("body", PStr (Ref.dumps (Sample.ask (PList [])
                                                 (PStr Sample.gym_question))))]
           PNone
           [("context", PList []); ("question", PStr Sample.gym_question)]).
  - reflexivity.
  - discriminate.
  - vm_compute. reflexivity.
Defined.

(** X8.  Nothing of the event but the [context] and [question] of its
    body reaches the response: two events whose bodies give the same two
    values get the same response, whatever else the bodies, the events and
    the Lambda context hold. *)
Theorem lambda_reads_only_context_and_question :
  forall (R : PyRuntime) (B : LambdaFunction.Boto3)
         (bedrock : LambdaFunction.BedrockRuntime)
         (ev1 ev2 : list (string * pyval)) (ctx1 ctx2 : pyval)
         (d1 d2 : list (string * pyval)),
    LambdaFunction.boto3_client "bedrock-runtime" = Returned bedrock ->
    dict_get ev1 "httpMethod" <> Some (PStr "OPTIONS") ->
    dict_get ev2 "httpMethod" <> Some (PStr "OPTIONS") ->
    LambdaFunction.decode (LambdaFunction.body_of_event ev1) = Returned (PDict d1) ->
    LambdaFunction.decode (LambdaFunction.body_of_event ev2) = Returned (PDict d2) ->
    field d1 "context" = field d2 "context" ->
    field d1 "question" = field d2 "question" ->
    fst (LambdaFunction.lambda_handler (PDict ev1) ctx1 [])
    = fst (LambdaFunction.lambda_handler (PDict ev2) ctx2 []).
Proof.
  intros R B bedrock ev1 ev2 ctx1 ctx2 d1 d2 Hclient Hm1 Hm2 Hd1 Hd2 Hc Hq.
  rewrite (handler_enters_try bedrock Hclient ev1 ctx1 Hm1),
          (handler_enters_try bedrock Hclient ev2 ctx2 Hm2).
  unfold try_except.
  rewrite (try_block_validates bedrock ev1 d1 _ Hd1),
          (try_block_validates bedrock ev2 d2 _ Hd2).
  cbv zeta. fold (field d1 "context") (field d1 "question")
                 (field d2 "context") (field d2 "question").
  rewrite Hc, Hq.
  destruct (negb _ || negb _).
  - reflexivity.
  - rewrite (invoke_and_unwrap_uniform bedrock _ _
               ([LambdaFunction.Boto3Client "bedrock-runtime"]
                  ++ [LambdaFunction.JsonLoads (LambdaFunction.body_of_event ev1)])%list),
            (invoke_and_unwrap_uniform bedrock _ _
               ([LambdaFunction.Boto3Client "bedrock-runtime"]
                  ++ [LambdaFunction.JsonLoads (LambdaFunction.body_of_event ev2)])%list).
    destruct (fst (LambdaFunction.invoke_and_unwrap bedrock _ _ []));
      [reflexivity |]. now rewrite !except_block_run.
Qed.

Lemma lambda_reads_only_context_and_question_witness :
  fst (@LambdaFunction.lambda_handler Ref.runtime
         (Sample.boto3_giving (Sample.bedrock_replying "6am"))
         (PDict [("httpMethod", PStr "POST");
                 ("body", PStr (Ref.dumps (PDict [("temperature", PInt 1);
                                                  ("question", PStr Sample.gym_question);
                                                  ("context", PStr Sample.gym_context)])))])
         PNone [])
  = fst (@LambdaFunction.lambda_handler Ref.runtime
           (Sample.boto3_giving (Sample.bedrock_replying "6am"))
           (Sample.post_event (Sample.ask (PStr Sample.gym_context)
                                          (PStr Sample.gym_question)))
           (PStr "ctx") []).
Proof.
  apply (lambda_reads_only_context_and_question Ref.runtime
           (Sample.boto3_giving (Sample.bedrock_replying "6am"))
           (Sample.bedrock_replying "6am")
           [("httpMethod", PStr "POST");
            ("body", PStr (Ref.dumps (PDict [("temperature", PInt 1);
                                             ("question", PStr Sample.gym_question);
                                             ("context", PStr Sample.gym_context)])))]
           [("httpMethod", PStr "POST");
            ("body", PStr (Ref.dumps (Sample.ask (PStr Sample.gym_context)
                                                 (PStr Sample.gym_question))))]
           PNone (PStr "ctx")
           [("temperature", PInt 1); ("question", PStr Sample.gym_question);
            ("context", PStr Sample.gym_context)]
           [("context", PStr Sample.gym_context);
            ("question", PStr Sample.gym_question)]).
  - reflexivity.
  - discriminate.
  - discriminate.
  - vm_compute. reflexivity.
  - vm_compute. reflexivity.
  - reflexivity.
  - reflexivity.
Defined.

(** X9.  A model response whose payload has no usable first result ends
    in the 500 of the [except] block, with the text of the exception of
    the failing step: no [results] key, an empty [results] list, or a first
    result without [outputText]. *)
Theorem lambda_unusable_model_response_500 :
  forall (R : PyRuntime) (B : LambdaFunction.Boto3)
         (bedrock : LambdaFunction.BedrockRuntime)
         (ev : list (string * pyval)) (ctx : pyval)
         (d resp rb : list (string * pyval)) (payload : string),
    LambdaFunction.boto3_client "bedrock-runtime" = Returned bedrock ->
    dict_get ev "httpMethod" <> Some (PStr "OPTIONS") ->
    LambdaFunction.decode (LambdaFunction.body_of_event ev) = Returned (PDict d) ->
    truthy (field d "context") = true ->
    truthy (field d "question") = true ->
    LambdaFunction.invoke_model bedrock
      (json_dumps_text (LambdaFunction.bedrock_request (field d "context")
                                                       (field d "question")))
      LambdaFunction.model_id "application/json" "application/json"
    = Returned (PDict resp) ->
    dict_get resp "body" = Some (PStream payload) ->
    json_loads_text payload = Returned (PDict rb) ->
    let answers_500 (message : string) :=
      exists tr,
        LambdaFunction.lambda_handler (PDict ev) ctx [] =
        (Returned {| LambdaFunction.statusCode := 500;
                     LambdaFunction.headers := LambdaFunction.json_headers;
                     LambdaFunction.body :=
                       json_dumps_text (PDict [("error", PStr message)]) |},
         tr) in
    (dict_get rb "results" = None ->
     answers_500 "'NoneType' object is not subscriptable")
    /\
    (dict_get rb "results" = Some (PList []) ->
     answers_500 "list index out of range")
    /\
    (forall first others,
        dict_get rb "results" = Some (PList (PDict first :: others)) ->
        dict_get first "outputText" = None ->
        answers_500 "'NoneType' object has no attribute 'strip'").
Proof.
  intros R B bedrock ev ctx d resp rb payload Hclient Hmethod Hdecode Hc Hq
         Hinv Hbody Hpayload answers_500. subst answers_500. cbv beta.
  assert (Hrun : forall tr,
             LambdaFunction.invoke_and_unwrap bedrock (field d "context")
                                              (field d "question") tr
             = bind (lift (py_index0 (match dict_get rb "results" with
                                      | Some x => x | None => PNone end)))
                 (fun first =>
                    bind (lift (py_get first "outputText" PNone))
                      (fun answer =>
                         bind (lift (py_strip answer))
                           (fun stripped =>
                              bind (lift (json_dumps (PDict [("answer", stripped)])))
                                (fun out =>
                                   ret {| LambdaFunction.statusCode := 200;
                                          LambdaFunction.headers :=
                                            LambdaFunction.json_headers;
                                          LambdaFunction.body := out |}))))
                 (tr ++ [LambdaFunction.InvokeModel
                           (json_dumps_text
                              (LambdaFunction.bedrock_request (field d "context")
                                                              (field d "question")))
                           LambdaFunction.model_id "application/json" "application/json";
                         LambdaFunction.JsonLoads (PBytes payload)])%list).
  { intros tr. unfold LambdaFunction.invoke_and_unwrap.
    unfold bind at 1 2. unfold lift at 1. unfold extern at 1.
    change (json_dumps (LambdaFunction.bedrock_request (field d "context")
                                                       (field d "question")))
      with (Returned (json_dumps_text
                        (LambdaFunction.bedrock_request (field d "context")
                                                        (field d "question")))).
    cbv beta iota. rewrite Hinv.
    unfold bind at 1 2 3 4. unfold lift at 1 2 3. unfold LambdaFunction.json_loads.
    unfold extern at 1. unfold py_get at 1. rewrite Hbody. cbv beta iota.
    unfold py_read, LambdaFunction.decode. rewrite Hpayload. cbv beta iota.
    unfold py_get at 1. cbv beta iota. now rewrite <- app_assoc. }
  rewrite (handler_enters_try bedrock Hclient ev ctx Hmethod).
  unfold try_except. rewrite (try_block_validates bedrock ev d _ Hdecode).
  cbv zeta. fold (field d "context") (field d "question"). rewrite Hc, Hq.
  change (negb true || negb true) with false. cbv beta iota.
  rewrite Hrun. unfold bind, lift.
  split; [| split].
  - intros Hr. rewrite Hr. now eexists.
  - intros Hr. rewrite Hr. now eexists.
  - intros first others Hr Ho. rewrite Hr. unfold py_index0, py_get.
    rewrite Ho. now eexists.
Qed.

Lemma lambda_unusable_model_response_500_witness :
  exists tr,
    @LambdaFunction.lambda_handler Ref.runtime
      (Sample.boto3_giving
         {| LambdaFunction.invoke_model := fun _ _ _ _ =>
              Returned (PDict [("body",
                                PStream (Ref.dumps (PDict [("results", PList [])])))]) |})
      (Sample.post_event (Sample.ask (PStr Sample.gym_context)
                                     (PStr Sample.gym_question))) PNone [] =
    (Returned {| LambdaFunction.statusCode := 500;
                 LambdaFunction.headers := LambdaFunction.json_headers;
                 LambdaFunction.body :=
                   Ref.dumps (PDict [("error", PStr "list index out of range")]) |},
     tr).
Proof.
  apply (proj1 (proj2
           (lambda_unusable_model_response_500 Ref.runtime
              (Sample.boto3_giving
                 {| LambdaFunction.invoke_model := fun _ _ _ _ =>
                      Returned (PDict [("body",
                                        PStream (Ref.dumps
                                                   (PDict [("results", PList [])])))]) |})
              {| LambdaFunction.invoke_model := fun _ _ _ _ =>
                   Returned (PDict [("body",
                                     PStream (Ref.dumps
                                                (PDict [("results", PList [])])))]) |}
              [("httpMethod", PStr "POST");
               ("body", PStr (Ref.dumps (Sample.ask (PStr Sample.gym_context)
                                                    (PStr Sample.gym_question))))]
              PNone
              [("context", PStr Sample.gym_context);
               ("question", PStr Sample.gym_question)]
              [("body", PStream (Ref.dumps (PDict [("results", PList [])])))]
              [("results", PList [])]
              (Ref.dumps (PDict [("results", PList [])]))
              eq_refl ltac:(discriminate) ltac:(vm_compute; reflexivity)
              eq_refl eq_refl eq_refl eq_refl ltac:(vm_compute; reflexivity)))).
  reflexivity.
Defined.

(** ** Extras for the process variant: the question route *)

Section AskMore.
Import App.
Context {R : PyRuntime}.

Lemma chat_at_most (g : Globals) (q c : pyval) :
  adds_at_most is_complete 1 (chat_with_phi4_rag g q c).
Proof.
  unfold chat_with_phi4_rag. destruct (project_client g) as [client |].
  - apply (at_most_try_except is_complete 1 0).
    + apply (at_most_bind is_complete 0 1);
        [apply (at_most_extern is_complete) | intros chat].
      apply (at_most_bind is_complete 1 0);
        [apply (at_most_extern is_complete) | intros response].
      destruct (choices response); [apply at_most_lift | apply at_most_ret].
    + intros e. apply at_most_ret.
  - apply (at_most_weaken is_complete 0 1); [lia | apply at_most_ret].
Qed.

Lemma jsonify_status_at_most (v : pyval) (code : Z) :
  adds_at_most is_complete 0 (jsonify_status v code).
Proof.
  unfold jsonify_status.
  apply (at_most_bind is_complete 0 0); [apply at_most_lift | intros r].
  apply at_most_ret.
Qed.

Lemma ask_question_at_most (g : Globals) (request : Request) :
  adds_at_most is_complete 1 (ask_question g request).
Proof.
  unfold ask_question.
  apply (at_most_try_except is_complete 1 0).
  - apply (at_most_bind is_complete 0 1); [apply at_most_lift | intros data].
    apply (at_most_bind is_complete 0 1); [apply at_most_lift | intros pdf_text].
    apply (at_most_bind is_complete 0 1); [apply at_most_lift | intros question].
    destruct (negb _ || negb _).
    + apply (at_most_weaken is_complete 0 1); [lia | apply jsonify_status_at_most].
    + apply (at_most_bind is_complete 1 0); [apply chat_at_most | intros answer].
      apply at_most_lift.
  - intros e. apply jsonify_status_at_most.
Qed.

(** A dict body leads to the validation, then to the gateway. *)
Lemma ask_question_dict (g : Globals) (request : Request)
  (d : list (string * pyval)) tr :
  get_json request = Returned (PDict d) ->
  ask_question g request tr =
  (if truthy (field d "context") && truthy (field d "question")
   then
     match chat_with_phi4_rag g (field d "question") (field d "context") tr with
     | (Returned answer, tr') =>
         (Returned {| status := 200;
                      json := PDict [("answer", answer); ("success", PBool true)] |},
          tr')
     | (Raised e, tr') =>
         (Returned {| status := 500; json := PDict [("error", PStr (exn_str e))] |}, tr')
     end
   else
     (Returned {| status := 400;
                  json := PDict [("error", PStr "Missing context or question")] |},
      tr)).
Proof.
  intros Hjson. unfold ask_question, try_except, bind, lift.
  rewrite Hjson. unfold py_get. cbv beta iota.
  fold (field d "context") (field d "question").
  destruct (truthy (field d "context")), (truthy (field d "question")); simpl;
    try reflexivity.
  destruct (chat_with_phi4_rag g _ _ tr) as [[answer | e] tr'] eqn:Echat;
    [| reflexivity].
  unfold jsonify. simpl unserializable_in.
  now rewrite (chat_post g _ _ _ _ _ Echat).
Qed.
End AskMore.

(** X10.  When [request.get_json()] raises, or returns something that is
    not an object, the question route answers 500 with the text of the
    exception as [error], and makes no call. *)
Theorem ask_question_unreadable_body_500 :
  (forall (R : PyRuntime) (g : App.Globals) (request : App.Request) (e : exn)
          (tr : list App.call),
      App.get_json request = Raised e ->
      App.ask_question g request tr =
      (Returned {| App.status := 500;
                   App.json := PDict [("error", PStr (exn_str e))] |}, tr))
  /\
  (forall (R : PyRuntime) (g : App.Globals) (request : App.Request) (v : pyval)
          (tr : list App.call),
      App.get_json request = Returned v ->
      is_dict v = false ->
      App.ask_question g request tr =
      (Returned {| App.status := 500;
                   App.json :=
                     PDict [("error",
                             PStr ("'" ++ type_name v
                                   ++ "' object has no attribute 'get'"))] |}, tr)).
Proof.
  split.
  - intros R g request e tr He.
    unfold App.ask_question, try_except, bind, lift. now rewrite He.
  - intros R g request v tr Hv Hd.
    unfold App.ask_question, try_except, bind, lift. rewrite Hv.
    destruct v; try discriminate Hd; reflexivity.
Qed.

Lemma ask_question_unreadable_body_500_witness :
  @App.ask_question Ref.runtime App.initial_globals
    (Sample.upload "report.pdf" "%PDF-1.4") [] =
  (Returned {| App.status := 500;
               App.json := PDict [("error", PStr "415 Unsupported Media Type")] |}, [])
  /\
  @App.ask_question Ref.runtime App.initial_globals (Sample.json_request PNone) [] =
  (Returned {| App.status := 500;
               App.json :=
                 PDict [("error",
                         PStr ("'" ++ type_name PNone
                               ++ "' object has no attribute 'get'"))] |}, []).
Proof.
  split.
  - apply (proj1 ask_question_unreadable_body_500 Ref.runtime App.initial_globals
             (Sample.upload "report.pdf" "%PDF-1.4")
             (Exn "UnsupportedMediaType" "415 Unsupported Media Type") []).
    reflexivity.
  - apply (proj2 ask_question_unreadable_body_500 Ref.runtime App.initial_globals
             (Sample.json_request PNone) PNone []).
    + reflexivity.
    + reflexivity.
Defined.

(** X11.  For an object body the question route answers 400, without
    any call, when [context] or [question] is absent or falsy, and 200 with
    [answer] and [success] otherwise; the answer is then a string or
    [null].  The route has no other outcome for an object body: the 500 of
    its [except] is not reachable from the gateway. *)
Theorem ask_question_status_by_truthiness :
  forall (R : PyRuntime) (g : App.Globals) (request : App.Request)
         (d : list (string * pyval)),
    App.get_json request = Returned (PDict d) ->
    exists r tr,
      App.ask_question g request [] = (Returned r, tr) /\
      (truthy (field d "context") && truthy (field d "question") = false ->
       r = {| App.status := 400;
              App.json := PDict [("error", PStr "Missing context or question")] |}
       /\ tr = []) /\
      (truthy (field d "context") && truthy (field d "question") = true ->
       App.status r = 200 /\
       exists answer,
         App.json r = PDict [("answer", answer); ("success", PBool true)] /\
         (answer = PNone \/ exists text, answer = PStr text)).
Proof.
  intros R g request d Hjson.
  rewrite (ask_question_dict g request d [] Hjson).
  destruct (truthy (field d "context") && truthy (field d "question")).
  - destruct (chat_total g (field d "question") (field d "context") [])
      as (answer & tr & Hrun).
    rewrite Hrun. eexists _, _. split; [reflexivity |].
    split; [discriminate |]. intros _. split; [reflexivity |].
    exists answer. split; [reflexivity |].
    pose proof (chat_post g _ _ _ _ _ Hrun) as Hser.
    unfold App.chat_with_phi4_rag in Hrun.
    destruct (App.project_client g) as [client |].
    + unfold try_except, bind, extern in Hrun.
      destruct (App.get_chat_completions_client client) as [chat | e].
      * destruct (App.complete chat _ _ _ _) as [[[| first others]] | e];
          simpl in Hrun; inversion Hrun; subst; eauto.
        destruct (App.message_content first); eauto.
      * inversion Hrun; eauto.
    + inversion Hrun; eauto.
  - eexists _, _. split; [reflexivity |]. split; [auto | discriminate].
Qed.

Lemma ask_question_status_by_truthiness_witness :
  exists r tr,
    @App.ask_question Ref.runtime (Sample.project_with (Sample.chat_replying "6am"))
      (Sample.json_request (Sample.ask (PBool false) (PStr "X?"))) []
    = (Returned r, tr) /\
    (truthy (field [("context", PBool false); ("question", PStr "X?")] "context")
     && truthy (field [("context", PBool false); ("question", PStr "X?")] "question")
     = false ->
     r = {| App.status := 400;
            App.json := PDict [("error", PStr "Missing context or question")] |}
     /\ tr = []) /\
    (truthy (field [("context", PBool false); ("question", PStr "X?")] "context")
     && truthy (field [("context", PBool false); ("question", PStr "X?")] "question")
     = true ->
     App.status r = 200 /\
     exists answer,
       App.json r = PDict [("answer", answer); ("success", PBool true)] /\
       (answer = PNone \/ exists text, answer = PStr text)).
Proof.
  apply (ask_question_status_by_truthiness Ref.runtime
           (Sample.project_with (Sample.chat_replying "6am"))
           (Sample.json_request (Sample.ask (PBool false) (PStr "X?")))
           [("context", PBool false); ("question", PStr "X?")]).
  reflexivity.
Defined.

(** X12.  The question route reads nothing of the request but the
    [context] and [question] of its JSON body: two requests that give the
    same two values behave the same, whatever else they hold. *)
Theorem ask_question_reads_only_context_and_question :
  forall (R : PyRuntime) (g : App.Globals) (request1 request2 : App.Request)
         (d1 d2 : list (string * pyval)) (tr : list App.call),
    App.get_json request1 = Returned (PDict d1) ->
    App.get_json request2 = Returned (PDict d2) ->
    field d1 "context" = field d2 "context" ->
    field d1 "question" = field d2 "question" ->
    App.ask_question g request1 tr = App.ask_question g request2 tr.
Proof.
  intros R g request1 request2 d1 d2 tr H1 H2 Hc Hq.
  rewrite (ask_question_dict g request1 d1 tr H1),
          (ask_question_dict g request2 d2 tr H2).
  now rewrite Hc, Hq.
Qed.

Lemma ask_question_reads_only_context_and_question_witness :
  @App.ask_question Ref.runtime (Sample.project_with (Sample.chat_replying "6am"))
    {| App.get_json :=
         Returned (PDict [("max_tokens", PInt 9000);
                          ("question", PStr Sample.gym_question);
                          ("context", PStr Sample.gym_context)]);
       App.files := [("file", {| App.filename := "x.pdf"; App.read := Returned "x" |})] |}
    []
  = @App.ask_question Ref.runtime (Sample.project_with (Sample.chat_replying "6am"))
      (Sample.json_request (Sample.ask (PStr Sample.gym_context)
                                       (PStr Sample.gym_question))) [].
Proof.
  apply (ask_question_reads_only_context_and_question Ref.runtime
           (Sample.project_with (Sample.chat_replying "6am")) _ _
           [("max_tokens", PInt 9000); ("question", PStr Sample.gym_question);
            ("context", PStr Sample.gym_context)]
           [("context", PStr Sample.gym_context);
            ("question", PStr Sample.gym_question)] []).
  - reflexivity.
  - reflexivity.
  - reflexivity.
  - reflexivity.
Defined.

(** X13.  Whatever the request and whatever the SDK does, the question
    route asks for at most one completion: nothing is retried. *)
Theorem process_calls_model_at_most_once :
  forall (R : PyRuntime) (g : App.Globals) (request : App.Request),
    (count_calls is_complete (snd (App.ask_question g request [])) <= 1)%nat.
Proof.
  intros R g request.
  destruct (ask_question_at_most g request []) as (more & Hmore & Hcount).
  now rewrite Hmore.
Qed.

(** X14.  Past its guard the gateway turns what goes wrong into its
    return value: a failure to obtain the chat client becomes the text
    "Error communicating with Azure AI Project: ..." with no completion
    asked for; a completion without choices becomes the same text with
    "list index out of range"; a first choice without content is returned
    as [None]. *)
Theorem gateway_reports_failures_as_text :
  forall (R : PyRuntime) (g : App.Globals) (client : App.AIProjectClient)
         (user_question retrieved_doc : pyval) (tr : list App.call),
    App.project_client g = Some client ->
    (forall e,
        App.get_chat_completions_client client = Raised e ->
        App.chat_with_phi4_rag g user_question retrieved_doc tr =
        (Returned (PStr ("Error communicating with Azure AI Project: " ++ exn_str e)),
         (tr ++ [App.GetChatCompletionsClient])%list))
    /\
    (forall chat,
        App.get_chat_completions_client client = Returned chat ->
        App.complete chat (App.phi4_deployment g)
                     (App.chat_messages user_question retrieved_doc) App.float_0_3 300
        = Returned {| App.choices := [] |} ->
        App.chat_with_phi4_rag g user_question retrieved_doc tr =
        (Returned (PStr ("Error communicating with Azure AI Project: "
                         ++ "list index out of range")),
         (tr ++ [App.GetChatCompletionsClient;
                 App.Complete (App.phi4_deployment g)
                              (App.chat_messages user_question retrieved_doc)
                              App.float_0_3 300])%list))
    /\
    (forall chat others,
        App.get_chat_completions_client client = Returned chat ->
        App.complete chat (App.phi4_deployment g)
                     (App.chat_messages user_question retrieved_doc) App.float_0_3 300
        = Returned {| App.choices := {| App.message_content := None |} :: others |} ->
        App.chat_with_phi4_rag g user_question retrieved_doc tr =
        (Returned PNone,
         (tr ++ [App.GetChatCompletionsClient;
                 App.Complete (App.phi4_deployment g)
                              (App.chat_messages user_question retrieved_doc)
                              App.float_0_3 300])%list)).
Proof.
  intros R g client uq doc tr Hclient. split; [| split].
  - intros e He. unfold App.chat_with_phi4_rag. rewrite Hclient.
    unfold try_except, bind, extern. now rewrite He.
  - intros chat Hchat Hc. unfold App.chat_with_phi4_rag. rewrite Hclient.
    unfold try_except, bind, extern. rewrite Hchat. cbv beta iota.
    fold (App.chat_messages uq doc). rewrite Hc. simpl.
    unfold lift, ret. now rewrite <- app_assoc.
  - intros chat others Hchat Hc. unfold App.chat_with_phi4_rag. rewrite Hclient.
    unfold try_except, bind, extern. rewrite Hchat. cbv beta iota.
    fold (App.chat_messages uq doc). rewrite Hc. simpl.
    unfold ret. now rewrite <- app_assoc.
Qed.

Lemma gateway_reports_failures_as_text_witness :
  @App.chat_with_phi4_rag Ref.runtime
    {| App.project_client :=
         Some {| App.get_chat_completions_client := Raised Sample.throttled |};
       App.phi4_deployment := PStr "phi-4" |}
    (PStr Sample.gym_question) (PStr Sample.gym_context) [] =
  (Returned (PStr ("Error communicating with Azure AI Project: " ++ "Too many requests")),
   [App.GetChatCompletionsClient]).
Proof.
  apply (proj1 (gateway_reports_failures_as_text Ref.runtime
                  {| App.project_client :=
                       Some {| App.get_chat_completions_client :=
                                 Raised Sample.throttled |};
                     App.phi4_deployment := PStr "phi-4" |}
                  {| App.get_chat_completions_client := Raised Sample.throttled |}
                  (PStr Sample.gym_question) (PStr Sample.gym_context) [] eq_refl)
               Sample.throttled).
  reflexivity.
Defined.

(** ** Extras for the process variant: the upload route *)

Lemma concat_cons (t : string) (ts : list string) :
  String.concat EmptyString (t :: ts) = t ++ String.concat EmptyString ts.
Proof.
  destruct ts as [| t' ts]; simpl; [now rewrite append_empty_r | reflexivity].
Qed.

Section UploadMore.
Import App.
Context {P : PyPDF2}.

(** The page loop, when every page gives its text. *)
Lemma extract_pages_all (pages : list PdfPage) (texts : list string) :
  Forall2 (fun page t => extract_text page = Returned t) pages texts ->
  forall acc tr,
    extract_pages pages acc tr =
    (Returned (acc ++ String.concat EmptyString texts),
     (tr ++ repeat ExtractText (List.length pages))%list).
Proof.
  induction 1 as [| page t pages texts Ht _ IH]; intros acc tr.
  - simpl. unfold ret. now rewrite append_empty_r, app_nil_r.
  - cbn [extract_pages]. unfold bind, extern. rewrite Ht.
    rewrite IH, concat_cons, append_assoc, <- app_assoc. reflexivity.
Qed.

Lemma extract_text_from_pdf_total (data : string) : total (extract_text_from_pdf data).
Proof. apply total_try_except. intros e. apply total_ret. Qed.

Lemma upload_pdf_allowed (request : Request) (file : FileStorage) tr :
  dict_get (files request) "file" = Some file ->
  filename file <> EmptyString ->
  allowed_file (filename file) = true ->
  upload_pdf request tr =
  match read file with
  | Returned data =>
      match extract_text_from_pdf data (tr ++ [FileRead (filename file)])%list with
      | (Returned text, tr') =>
          (Returned {| status := 200;
                       json := PDict [("success", PBool true); ("text", PStr text)] |},
           tr')
      | (Raised e, tr') =>
          (Returned {| status := 500; json := PDict [("error", PStr (exn_str e))] |}, tr')
      end
  | Raised e =>
      (Returned {| status := 500; json := PDict [("error", PStr (exn_str e))] |},
       (tr ++ [FileRead (filename file)])%list)
  end.
Proof.
  intros Hfile Hname Hallowed. unfold upload_pdf. rewrite Hfile.
  rewrite (proj2 (String.eqb_neq _ _) Hname), Hallowed.
  change (negb false && true) with true. cbv beta iota.
  unfold try_except, bind, extern.
  destruct (read file) as [data | e]; [| reflexivity].
  destruct (extract_text_from_pdf data _) as [[text | e] tr']; reflexivity.
Qed.

Lemma upload_pdf_no_part (request : Request) tr :
  dict_get (files request) "file" = None ->
  upload_pdf request tr =
  (Returned {| status := 400; json := PDict [("error", PStr "No file part")] |}, tr).
Proof. intros Hnone. unfold upload_pdf. now rewrite Hnone. Qed.

Lemma upload_pdf_no_name (request : Request) (file : FileStorage) tr :
  dict_get (files request) "file" = Some file ->
  filename file = EmptyString ->
  upload_pdf request tr =
  (Returned {| status := 400; json := PDict [("error", PStr "No selected file")] |}, tr).
Proof. intros Hfile Hname. unfold upload_pdf. rewrite Hfile, Hname. reflexivity. Qed.

Lemma upload_pdf_bad_type (request : Request) (file : FileStorage) tr :
  dict_get (files request) "file" = Some file ->
  filename file <> EmptyString ->
  allowed_file (filename file) = false ->
  upload_pdf request tr =
  (Returned {| status := 400; json := PDict [("error", PStr "Invalid file type")] |}, tr).
Proof.
  intros Hfile Hname Hbad. unfold upload_pdf. rewrite Hfile.
  rewrite (proj2 (String.eqb_neq _ _) Hname), Hbad. reflexivity.
Qed.
End UploadMore.

(** X15.  The upload route refuses with a 400, and without reading the
    upload, a request without a [file] part ("No file part"), a part with
    an empty file name ("No selected file") and a file name that
    [allowed_file] refuses ("Invalid file type"). *)
Theorem upload_pdf_refusals :
  forall (P : App.PyPDF2) (request : App.Request) (tr : list App.call),
    (dict_get (App.files request) "file" = None ->
     App.upload_pdf request tr =
     (Returned {| App.status := 400;
                  App.json := PDict [("error", PStr "No file part")] |}, tr))
    /\
    (forall file,
        dict_get (App.files request) "file" = Some file ->
        App.filename file = EmptyString ->
        App.upload_pdf request tr =
        (Returned {| App.status := 400;
                     App.json := PDict [("error", PStr "No selected file")] |}, tr))
    /\
    (forall file,
        dict_get (App.files request) "file" = Some file ->
        App.filename file <> EmptyString ->
        App.allowed_file (App.filename file) = false ->
        App.upload_pdf request tr =
        (Returned {| App.status := 400;
                     App.json := PDict [("error", PStr "Invalid file type")] |}, tr)).
Proof.
  intros P request tr. split; [| split].
  - apply upload_pdf_no_part.
  - intros file. apply upload_pdf_no_name.
  - intros file. apply upload_pdf_bad_type.
Qed.

Lemma upload_pdf_refusals_witness :
  @App.upload_pdf (Sample.pdf_failing Sample.not_a_pdf)
    (Sample.json_request PNone) [] =
  (Returned {| App.status := 400;
               App.json := PDict [("error", PStr "No file part")] |}, [])
  /\
  @App.upload_pdf (Sample.pdf_failing Sample.not_a_pdf)
    (Sample.upload EmptyString "%PDF-1.4") [] =
  (Returned {| App.status := 400;
               App.json := PDict [("error", PStr "No selected file")] |}, [])
  /\
  @App.upload_pdf (Sample.pdf_failing Sample.not_a_pdf)
    (Sample.upload "report.pdf.exe" "MZ") [] =
  (Returned {| App.status := 400;
               App.json := PDict [("error", PStr "Invalid file type")] |}, []).
Proof.
  split; [| split].
  - apply (proj1 (upload_pdf_refusals (Sample.pdf_failing Sample.not_a_pdf)
                    (Sample.json_request PNone) [])).
    reflexivity.
  - apply (proj1 (proj2 (upload_pdf_refusals (Sample.pdf_failing Sample.not_a_pdf)
                           (Sample.upload EmptyString "%PDF-1.4") []))
                 {| App.filename := EmptyString; App.read := Returned "%PDF-1.4" |}).
    + reflexivity.
    + reflexivity.
  - apply (proj2 (proj2 (upload_pdf_refusals (Sample.pdf_failing Sample.not_a_pdf)
                           (Sample.upload "report.pdf.exe" "MZ") []))
                 {| App.filename := "report.pdf.exe"; App.read := Returned "MZ" |}).
    + reflexivity.
    + discriminate.
    + reflexivity.
Defined.

(** X16.  When the upload is read and every page gives its text, the
    upload route answers 200 with [text] equal to the page texts joined in
    page order with nothing between them, after reading the upload once,
    opening the reader once and extracting each page once. *)
Theorem upload_pdf_returns_page_texts_in_order :
  forall (P : App.PyPDF2) (request : App.Request) (file : App.FileStorage)
         (data : string) (pages : list App.PdfPage) (texts : list string)
         (tr : list App.call),
    dict_get (App.files request) "file" = Some file ->
    App.filename file <> EmptyString ->
    App.allowed_file (App.filename file) = true ->
    App.read file = Returned data ->
    App.PdfReader data = Returned pages ->
    Forall2 (fun page t => App.extract_text page = Returned t) pages texts ->
    App.upload_pdf request tr =
    (Returned {| App.status := 200;
                 App.json := PDict [("success", PBool true);
                                    ("text", PStr (String.concat EmptyString texts))] |},
     (tr ++ App.FileRead (App.filename file) :: App.PdfReaderOpen data
            :: repeat App.ExtractText (List.length pages))%list).
Proof.
  intros P request file data pages texts tr Hfile Hname Hallowed Hread Hreader Hpages.
  rewrite (upload_pdf_allowed request file tr Hfile Hname Hallowed), Hread.
  unfold App.extract_text_from_pdf, try_except, bind, extern. rewrite Hreader.
  rewrite (extract_pages_all pages texts Hpages). simpl append.
  now rewrite <- !app_assoc.
Qed.

Lemma upload_pdf_returns_page_texts_in_order_witness :
  @App.upload_pdf
    (Sample.pdf_with [ {| App.extract_text := Returned "Opening hours. " |};
                       {| App.extract_text := Returned EmptyString |};
                       {| App.extract_text := Returned "The gym opens at 6am." |} ])
    (Sample.upload "gym.pdf" "%PDF-1.4") [] =
  (Returned {| App.status := 200;
               App.json :=
                 PDict [("success", PBool true);
                        ("text", PStr (String.concat EmptyString
                                         ["Opening hours. "; EmptyString;
                                          "The gym opens at 6am."]))] |},
   ([] ++ App.FileRead "gym.pdf" :: App.PdfReaderOpen "%PDF-1.4"
       :: repeat App.ExtractText 3)%list).
Proof.
  apply (upload_pdf_returns_page_texts_in_order
           (Sample.pdf_with [ {| App.extract_text := Returned "Opening hours. " |};
                              {| App.extract_text := Returned EmptyString |};
                              {| App.extract_text := Returned "The gym opens at 6am." |} ])
           (Sample.upload "gym.pdf" "%PDF-1.4")
           {| App.filename := "gym.pdf"; App.read := Returned "%PDF-1.4" |}
           "%PDF-1.4"
           [ {| App.extract_text := Returned "Opening hours. " |};
             {| App.extract_text := Returned EmptyString |};
             {| App.extract_text := Returned "The gym opens at 6am." |} ]
           ["Opening hours. "; EmptyString; "The gym opens at 6am."] []).
  - reflexivity.
  - discriminate.
  - reflexivity.
  - reflexivity.
  - reflexivity.
  - repeat constructor.
Defined.

(** Once [request.files] is at hand the view returns a 200 with
    [success] and [text], a 400 with [error], or a 500 with [error]; and
    the 500 means that reading the upload raised, nothing else. *)
Lemma upload_pdf_shapes :
  forall (P : App.PyPDF2) (request : App.Request) (tr : list App.call),
    exists r tr',
      App.upload_pdf request tr = (Returned r, tr') /\
      ((App.status r = 200 /\
        exists text, App.json r = PDict [("success", PBool true); ("text", PStr text)])
       \/
       (App.status r = 400 /\ exists msg, App.json r = PDict [("error", PStr msg)])
       \/
       (App.status r = 500 /\
        exists file e,
          dict_get (App.files request) "file" = Some file /\
          App.read file = Raised e /\
          App.json r = PDict [("error", PStr (exn_str e))])).
Proof.
  intros P request tr.
  destruct (dict_get (App.files request) "file") as [file |] eqn:Hfile.
  - destruct (String.eqb_spec (App.filename file) EmptyString) as [Hname | Hname].
    + rewrite (upload_pdf_no_name request file tr Hfile Hname).
      eexists _, _. split; [reflexivity |]. right. left. split; [reflexivity |].
      now eexists.
    + destruct (App.allowed_file (App.filename file)) eqn:Hallowed.
      * rewrite (upload_pdf_allowed request file tr Hfile Hname Hallowed).
        destruct (App.read file) as [data | e] eqn:Hread.
        -- destruct (extract_text_from_pdf_total data
                       (tr ++ [App.FileRead (App.filename file)])%list)
             as (text & tr' & ->).
           eexists _, _. split; [reflexivity |]. left. split; [reflexivity |].
           now eexists.
        -- eexists _, _. split; [reflexivity |]. right. right.
           split; [reflexivity |]. now exists file, e.
      * rewrite (upload_pdf_bad_type request file tr Hfile Hname Hallowed).
        eexists _, _. split; [reflexivity |]. right. left. split; [reflexivity |].
        now eexists.
  - rewrite (upload_pdf_no_part request tr Hfile).
    eexists _, _. split; [reflexivity |]. right. left. split; [reflexivity |].
    now eexists.
Qed.

(** X17.  The upload route raises only where it evaluates
    [request.files], at line 126 and outside any [try]: an exception of
    that parse (such as [RequestEntityTooLarge] past [MAX_CONTENT_LENGTH])
    leaves the route with no call made.  Once the files are parsed the
    route always answers: a 200 with [success] and [text], a 400 with
    [error], or a 500 with [error]; and the 500 means that reading the
    upload raised, nothing else. *)
Theorem upload_pdf_raises_only_while_parsing :
  forall (P : App.PyPDF2) (incoming : Incoming) (tr : list App.call),
    (forall e,
        incoming_files incoming = Raised e ->
        upload_pdf_route incoming tr = (Raised e, tr))
    /\
    (forall files,
        incoming_files incoming = Returned files ->
        exists r tr',
          upload_pdf_route incoming tr = (Returned r, tr') /\
          ((App.status r = 200 /\
            exists text,
              App.json r = PDict [("success", PBool true); ("text", PStr text)])
           \/
           (App.status r = 400 /\ exists msg, App.json r = PDict [("error", PStr msg)])
           \/
           (App.status r = 500 /\
            exists file e,
              dict_get files "file" = Some file /\
              App.read file = Raised e /\
              App.json r = PDict [("error", PStr (exn_str e))]))).
Proof.
  intros P incoming tr. split.
  - intros e He. unfold upload_pdf_route, bind, lift. now rewrite He.
  - intros files Hfiles. unfold upload_pdf_route, bind, lift. rewrite Hfiles.
    apply (upload_pdf_shapes P
             {| App.get_json := incoming_json incoming; App.files := files |} tr).
Qed.

Lemma upload_pdf_raises_only_while_parsing_witness :
  @upload_pdf_route (Sample.pdf_failing Sample.not_a_pdf)
    {| incoming_json := Raised (Exn "UnsupportedMediaType" "415 Unsupported Media Type");
       incoming_files :=
         Raised (Exn "RequestEntityTooLarge" "413 Request Entity Too Large") |} []
  = (Raised (Exn "RequestEntityTooLarge" "413 Request Entity Too Large"), [])
  /\
  (exists r tr',
      @upload_pdf_route (Sample.pdf_failing Sample.not_a_pdf)
        {| incoming_json :=
             Raised (Exn "UnsupportedMediaType" "415 Unsupported Media Type");
           incoming_files :=
             Returned [("file", {| App.filename := "gym.pdf";
                                   App.read := Returned "%PDF-1.4" |})] |} []
      = (Returned r, tr') /\
      ((App.status r = 200 /\
        exists text,
          App.json r = PDict [("success", PBool true); ("text", PStr text)])
       \/
       (App.status r = 400 /\ exists msg, App.json r = PDict [("error", PStr msg)])
       \/
       (App.status r = 500 /\
        exists file e,
          dict_get [("file", {| App.filename := "gym.pdf";
                                App.read := Returned "%PDF-1.4" |})] "file"
          = Some file /\
          App.read file = Raised e /\
          App.json r = PDict [("error", PStr (exn_str e))]))).
Proof.
  split.
  - apply (proj1 (upload_pdf_raises_only_while_parsing
                    (Sample.pdf_failing Sample.not_a_pdf)
                    {| incoming_json :=
                         Raised (Exn "UnsupportedMediaType" "415 Unsupported Media Type");
                       incoming_files :=
                         Raised (Exn "RequestEntityTooLarge"
                                     "413 Request Entity Too Large") |} [])).
    reflexivity.
  - apply (proj2 (upload_pdf_raises_only_while_parsing
                    (Sample.pdf_failing Sample.not_a_pdf)
                    {| incoming_json :=
                         Raised (Exn "UnsupportedMediaType" "415 Unsupported Media Type");
                       incoming_files :=
                         Returned [("file", {| App.filename := "gym.pdf";
                                               App.read := Returned "%PDF-1.4" |})] |}
                    [])).
    reflexivity.
Defined.

(** X18.  When reading an allowed upload raises, the upload route
    answers 500 with the text of the exception as [error], and the PDF
    reader is never opened. *)
Theorem upload_pdf_unreadable_file_500 :
  forall (P : App.PyPDF2) (request : App.Request) (file : App.FileStorage)
         (e : exn) (tr : list App.call),
    dict_get (App.files request) "file" = Some file ->
    App.filename file <> EmptyString ->
    App.allowed_file (App.filename file) = true ->
    App.read file = Raised e ->
    App.upload_pdf request tr =
    (Returned {| App.status := 500;
                 App.json := PDict [("error", PStr (exn_str e))] |},
     (tr ++ [App.FileRead (App.filename file)])%list).
Proof.
  intros P request file e tr Hfile Hname Hallowed Hread.
  now rewrite (upload_pdf_allowed request file tr Hfile Hname Hallowed), Hread.
Qed.

Lemma upload_pdf_unreadable_file_500_witness :
  @App.upload_pdf (Sample.pdf_with [])
    {| App.get_json := Returned PNone;
       App.files := [("file", {| App.filename := "gym.PDF";
                                 App.read := Raised (Exn "OSError" "client disconnected") |})] |}
    [] =
  (Returned {| App.status := 500;
               App.json := PDict [("error", PStr "client disconnected")] |},
   [App.FileRead "gym.PDF"]).
Proof.
  apply (upload_pdf_unreadable_file_500 (Sample.pdf_with [])
           {| App.get_json := Returned PNone;
              App.files := [("file", {| App.filename := "gym.PDF";
                                        App.read := Raised (Exn "OSError"
                                                                "client disconnected") |})] |}
           {| App.filename := "gym.PDF";
              App.read := Raised (Exn "OSError" "client disconnected") |}
           (Exn "OSError" "client disconnected") []).
  - reflexivity.
  - discriminate.
  - reflexivity.
  - reflexivity.
Defined.


(** ** Startup *)

Section StartupMore.
Import App Startup.
Context {R : PyRuntime} {H : Host}.






(** Startup up to the parsed configuration, on a standard output that
    accepts every line. *)
Lemma initialize_reads_first_match (g : Globals) (cwd base path text : string)
  (others : list string) :
  stdout_accepts ->
  getcwd = Returned cwd ->
  resolve cwd = Returned base ->
  rglob cwd "cred.json" = Returned (path :: others) ->
  path <> EmptyString ->
  open_read path = Returned text ->
  initialize_azure_client g =
  match json_loads_text text with
  | Raised _ => (Returned false, g)
  | Returned cfg =>
      match py_get cfg "SERVERLESS_MODEL_NAME" (PStr "phi-4") with
      | Raised _ => (Returned false, g)
      | Returned model =>
          let g1 := {| project_client := project_client g; phi4_deployment := model |} in
          match py_getitem cfg "PROJECT_CONNECTION_STRING",
                py_getitem cfg "TENANT_ID",
                py_getitem cfg "MODEL_DEPLOYMENT_NAME",
                DefaultAzureCredential with
          | Returned conn_str, Returned _, Returned _, Returned credential =>
              match from_connection_string credential conn_str with
              | Returned client =>
                  (Returned true,
                   {| project_client := Some client; phi4_deployment := model |})
              | Raised _ => (Returned false, g1)
              end
          | _, _, _, _ => (Returned false, g1)
          end
      end
  end.
Proof.
  intros Hout Hcwd Hres Hglob Hpath Hopen. unfold stdout_accepts in Hout.
  unfold initialize_azure_client, gtry, find_cred_json, gbind, glift, gret.
  unfold assign_phi4_deployment, assign_project_client.
  rewrite Hcwd. cbv beta iota.
  rewrite Hres. cbv beta iota.
  rewrite (Hout (Searching base)). cbv beta iota.
  rewrite Hglob. cbv beta iota.
  rewrite (Hout (Found path)). cbv beta iota.
  rewrite (proj2 (String.eqb_neq _ _) Hpath). cbv beta iota.
  rewrite Hopen. cbv beta iota.
  destruct (json_loads_text text) as [cfg | e]; cbv beta iota;
    [| now rewrite (Hout (except_line e))].
  destruct (py_get cfg _ _) as [model | e]; cbv beta iota zeta;
    [| now rewrite (Hout (except_line e))].
  destruct (py_getitem cfg "PROJECT_CONNECTION_STRING") as [conn | e];
    cbv beta iota; [| now rewrite (Hout (except_line e))].
  rewrite (Hout (ConnectionString conn)). cbv beta iota.
  destruct (py_getitem cfg "TENANT_ID") as [tenant | e];
    cbv beta iota; [| now rewrite (Hout (except_line e))].
  rewrite (Hout (TenantId tenant)). cbv beta iota.
  destruct (py_getitem cfg "MODEL_DEPLOYMENT_NAME") as [dep | e];
    cbv beta iota; [| now rewrite (Hout (except_line e))].
  rewrite (Hout (ModelDeploymentName dep)). cbv beta iota.
  rewrite (Hout (UsingServerlessModel model)). cbv beta iota.
  destruct DefaultAzureCredential as [cred | e];
    cbv beta iota; [| now rewrite (Hout (except_line e))].
  destruct (from_connection_string cred conn) as [client | e];
    cbv beta iota; [| now rewrite (Hout (except_line e))].
  now rewrite (Hout ClientCreated).
Qed.

End StartupMore.

(** X19.  On a standard output that accepts every line, with the working
    directory resolved, a [cred.json] found, readable and holding the
    three required keys, and with the credential and the client
    constructed, startup returns [True], installs the client, and sets
    the model name to [SERVERLESS_MODEL_NAME] or, when the key is absent,
    to "phi-4".  Only the first match of the search is opened. *)
Theorem initialize_installs_client :
  forall (R : PyRuntime) (H : Startup.Host) (g : App.Globals)
         (cwd base path text : string) (others : list string)
         (cfg : list (string * pyval)) (conn_str tenant deployment : pyval)
         (credential : Startup.Credential) (client : App.AIProjectClient),
    Startup.stdout_accepts ->
    Startup.getcwd = Returned cwd ->
    Startup.resolve cwd = Returned base ->
    Startup.rglob cwd "cred.json" = Returned (path :: others) ->
    path <> EmptyString ->
    Startup.open_read path = Returned text ->
    json_loads_text text = Returned (PDict cfg) ->
    dict_get cfg "PROJECT_CONNECTION_STRING" = Some conn_str ->
    dict_get cfg "TENANT_ID" = Some tenant ->
    dict_get cfg "MODEL_DEPLOYMENT_NAME" = Some deployment ->
    Startup.DefaultAzureCredential = Returned credential ->
    Startup.from_connection_string credential conn_str = Returned client ->
    Startup.initialize_azure_client g =
    (Returned true,
     {| App.project_client := Some client;
        App.phi4_deployment :=
          match dict_get cfg "SERVERLESS_MODEL_NAME" with
          | Some model => model
          | None => PStr "phi-4"
          end |}).
Proof.
  intros R H g cwd base path text others cfg conn tenant dep cred client
         Hout Hcwd Hres Hglob Hpath Hopen Hjson Hconn Htenant Hdep Hcred Hclient.
  rewrite (initialize_reads_first_match g cwd base path text others
             Hout Hcwd Hres Hglob Hpath Hopen).
  rewrite Hjson. unfold py_get, Startup.py_getitem.
  now rewrite Hconn, Htenant, Hdep, Hcred, Hclient.
Qed.

Lemma initialize_installs_client_witness :
  @Startup.initialize_azure_client Ref.runtime
    (StartupSample.host_with
       [("/srv/app/conf/cred.json", Ref.dumps StartupSample.full_config);
        ("/srv/app/old/cred.json", "{}")])
    App.initial_globals =
  (Returned true,
   {| App.project_client := Some StartupSample.client;
      App.phi4_deployment :=
        match dict_get [ ("PROJECT_CONNECTION_STRING", PStr StartupSample.connection);
                         ("TENANT_ID", PStr "tenant-1");
                         ("MODEL_DEPLOYMENT_NAME", PStr "gpt-4o");
                         ("SERVERLESS_MODEL_NAME", PStr "Phi-4-mini") ]
                       "SERVERLESS_MODEL_NAME" with
        | Some model => model
        | None => PStr "phi-4"
        end |}).
Proof.
  apply (initialize_installs_client Ref.runtime
           (StartupSample.host_with
              [("/srv/app/conf/cred.json", Ref.dumps StartupSample.full_config);
               ("/srv/app/old/cred.json", "{}")])
           App.initial_globals "/srv/app" "/srv/app" "/srv/app/conf/cred.json"
           (Ref.dumps StartupSample.full_config) ["/srv/app/old/cred.json"]
           [ ("PROJECT_CONNECTION_STRING", PStr StartupSample.connection);
             ("TENANT_ID", PStr "tenant-1");
             ("MODEL_DEPLOYMENT_NAME", PStr "gpt-4o");
             ("SERVERLESS_MODEL_NAME", PStr "Phi-4-mini") ]
           (PStr StartupSample.connection) (PStr "tenant-1") (PStr "gpt-4o")
           tt StartupSample.client).
  - intros l. reflexivity.
  - reflexivity.
  - reflexivity.
  - reflexivity.
  - discriminate.
  - reflexivity.
  - vm_compute. reflexivity.
  - reflexivity.
  - reflexivity.
  - reflexivity.
  - reflexivity.
  - reflexivity.
Defined.



(** X21.  On a standard output that accepts every line, when the
    configuration object lacks one of the three required keys (two of
    which are only printed), startup returns [False] and leaves the
    client alone, but the model name has already been overwritten with
    the configured or default one. *)
Theorem initialize_missing_key_keeps_model_name :
  forall (R : PyRuntime) (H : Startup.Host) (g : App.Globals)
         (cwd base path text : string) (others : list string)
         (cfg : list (string * pyval)) (key : string),
    Startup.stdout_accepts ->
    Startup.getcwd = Returned cwd ->
    Startup.resolve cwd = Returned base ->
    Startup.rglob cwd "cred.json" = Returned (path :: others) ->
    path <> EmptyString ->
    Startup.open_read path = Returned text ->
    json_loads_text text = Returned (PDict cfg) ->
    In key Startup.required_keys ->
    dict_get cfg key = None ->
    Startup.initialize_azure_client g =
    (Returned false,
     {| App.project_client := App.project_client g;
        App.phi4_deployment :=
          match dict_get cfg "SERVERLESS_MODEL_NAME" with
          | Some model => model
          | None => PStr "phi-4"
          end |}).
Proof.
  intros R H g cwd base path text others cfg key
         Hout Hcwd Hres Hglob Hpath Hopen Hjson Hkey Hmiss.
  rewrite (initialize_reads_first_match g cwd base path text others
             Hout Hcwd Hres Hglob Hpath Hopen).
  rewrite Hjson. unfold py_get, Startup.py_getitem. cbv zeta.
  destruct Hkey as [<- | [<- | [<- | []]]]; rewrite ?Hmiss.
  - reflexivity.
  - destruct (dict_get cfg "PROJECT_CONNECTION_STRING"); reflexivity.
  - destruct (dict_get cfg "PROJECT_CONNECTION_STRING"),
             (dict_get cfg "TENANT_ID"); reflexivity.
Qed.

Lemma initialize_missing_key_keeps_model_name_witness :
  @Startup.initialize_azure_client Ref.runtime
    (StartupSample.host_with
       [("/srv/app/cred.json", Ref.dumps StartupSample.no_tenant_config)])
    App.initial_globals =
  (Returned false,
   {| App.project_client := App.project_client App.initial_globals;
      App.phi4_deployment :=
        match dict_get [ ("PROJECT_CONNECTION_STRING", PStr StartupSample.connection);
                         ("MODEL_DEPLOYMENT_NAME", PStr "gpt-4o");
                         ("SERVERLESS_MODEL_NAME", PStr "Phi-4-mini") ]
                       "SERVERLESS_MODEL_NAME" with
        | Some model => model
        | None => PStr "phi-4"
        end |}).
Proof.
  apply (initialize_missing_key_keeps_model_name Ref.runtime
           (StartupSample.host_with
              [("/srv/app/cred.json", Ref.dumps StartupSample.no_tenant_config)])
           App.initial_globals "/srv/app" "/srv/app" "/srv/app/cred.json"
           (Ref.dumps StartupSample.no_tenant_config) []
           [ ("PROJECT_CONNECTION_STRING", PStr StartupSample.connection);
             ("MODEL_DEPLOYMENT_NAME", PStr "gpt-4o");
             ("SERVERLESS_MODEL_NAME", PStr "Phi-4-mini") ]
           "TENANT_ID").
  - intros l. reflexivity.
  - reflexivity.
  - reflexivity.
  - reflexivity.
  - discriminate.
  - reflexivity.
  - vm_compute. reflexivity.
  - right. left. reflexivity.
  - reflexivity.
Defined.

(** X22.  On a standard output that accepts every line and with the
    working directory resolved, when no [cred.json] is found, or the
    first one cannot be opened, is not valid JSON, or is not a JSON
    object, startup returns [False] and leaves both globals as they
    were. *)
Theorem initialize_without_config_changes_nothing :
  forall (R : PyRuntime) (H : Startup.Host) (g : App.Globals) (cwd base : string),
    Startup.stdout_accepts ->
    Startup.getcwd = Returned cwd ->
    Startup.resolve cwd = Returned base ->
    (Startup.rglob cwd "cred.json" = Returned [] ->
     Startup.initialize_azure_client g = (Returned false, g))
    /\
    (forall path others,
        Startup.rglob cwd "cred.json" = Returned (path :: others) ->
        path <> EmptyString ->
        (forall e, Startup.open_read path = Raised e ->
                   Startup.initialize_azure_client g = (Returned false, g))
        /\
        (forall text e,
            Startup.open_read path = Returned text ->
            json_loads_text text = Raised e ->
            Startup.initialize_azure_client g = (Returned false, g))
        /\
        (forall text cfg,
            Startup.open_read path = Returned text ->
            json_loads_text text = Returned cfg ->
            is_dict cfg = false ->
            Startup.initialize_azure_client g = (Returned false, g))).
Proof.
  intros R H g cwd base Hout Hcwd Hres. split.
  - intros Hglob.
    unfold Startup.initialize_azure_client, Startup.gtry, Startup.find_cred_json,
      Startup.gbind, Startup.glift, Startup.gret.
    rewrite Hcwd. cbv beta iota. rewrite Hres. cbv beta iota.
    rewrite (Hout (Startup.Searching base)). cbv beta iota.
    rewrite Hglob. cbv beta iota.
    now rewrite (Hout (Startup.except_line _)).
  - intros path others Hglob Hpath. split; [| split].
    + intros e Hopen.
      unfold Startup.initialize_azure_client, Startup.gtry, Startup.find_cred_json,
        Startup.gbind, Startup.glift, Startup.gret.
      rewrite Hcwd. cbv beta iota. rewrite Hres. cbv beta iota.
      rewrite (Hout (Startup.Searching base)). cbv beta iota.
      rewrite Hglob. cbv beta iota.
      rewrite (Hout (Startup.Found path)). cbv beta iota.
      rewrite (proj2 (String.eqb_neq _ _) Hpath). cbv beta iota.
      rewrite Hopen. cbv beta iota.
      now rewrite (Hout (Startup.except_line e)).
    + intros text e Hopen Hjson.
      rewrite (initialize_reads_first_match g cwd base path text others
                 Hout Hcwd Hres Hglob Hpath Hopen).
      now rewrite Hjson.
    + intros text cfg Hopen Hjson Hcfg.
      rewrite (initialize_reads_first_match g cwd base path text others
                 Hout Hcwd Hres Hglob Hpath Hopen).
      rewrite Hjson. destruct cfg; try discriminate Hcfg; reflexivity.
Qed.

Lemma initialize_without_config_changes_nothing_witness :
  @Startup.initialize_azure_client Ref.runtime (StartupSample.host_with [])
    (Sample.project_with (Sample.chat_replying "6am"))
  = (Returned false, Sample.project_with (Sample.chat_replying "6am"))
  /\
  @Startup.initialize_azure_client Ref.runtime
    (StartupSample.host_with [("/srv/app/cred.json", "[1, 2]")])
    App.initial_globals
  = (Returned false, App.initial_globals).
Proof.
  split.
  - apply (proj1 (initialize_without_config_changes_nothing Ref.runtime
                    (StartupSample.host_with [])
                    (Sample.project_with (Sample.chat_replying "6am"))
                    "/srv/app" "/srv/app" (fun l => eq_refl) eq_refl eq_refl)).
    reflexivity.
  - apply (proj2 (proj2 (proj2 (initialize_without_config_changes_nothing Ref.runtime
                                  (StartupSample.host_with
                                     [("/srv/app/cred.json", "[1, 2]")])
                                  App.initial_globals "/srv/app" "/srv/app"
                                  (fun l => eq_refl) eq_refl eq_refl)
                               "/srv/app/cred.json" [] eq_refl ltac:(discriminate)))
                 "[1, 2]" (PList [PInt 1; PInt 2])).
    + reflexivity.
    + vm_compute. reflexivity.
    + reflexivity.
Defined.

(** The one run in which the app does not start although its client is
    installed: the configuration is complete and the client is built,
    but the line announcing it cannot be written. *)
Example main_not_started_with_client_installed :
  @Startup.main Ref.runtime
    (StartupSample.host_printing StartupSample.stdout_failing_after_install
       [("/srv/app/cred.json", Ref.dumps StartupSample.full_config)])
    App.initial_globals
  = Startup.NotStarted {| App.project_client := Some StartupSample.client;
                          App.phi4_deployment := PStr "Phi-4-mini" |}.
Proof. vm_compute. reflexivity. Qed.


